(** * mimos-apps-sdk: the event-tracking and delivery contract

    A shallow embedding of [src/client.ts] (the backend client
    [MimosAnalytics]), [src/frontend-client.ts] ([MimosFrontendAnalytics]),
    [src/tracker.ts] ([ToolCallTracker]) and the payload types of
    [src/types.ts] and [src/frontend-types.ts].

    Conventions of the embedding:
    - a JavaScript string is a [string] of ASCII characters; [toLowerCase]
      is the ASCII case mapping;
    - a JavaScript number is an integer [Z] (timestamps, counters, sizes);
    - a value that may be [undefined] or [null] is an [option];
    - an [async] method is a computation in the monad [M] below: it reads the
      host (clock, random source, network) and updates the world (requests
      issued, console output), and completes normally or by throwing, as a
      promise is fulfilled or rejected.  Awaited calls run in sequence. *)

From Stdlib Require Import String Ascii List ZArith Bool Arith Lia DecimalString.
Import ListNotations.
Open Scope string_scope.
Set Warnings "-register-all".

(* ================================================================== *)
(** * JavaScript strings *)

Definition dquote : string := String "034"%char EmptyString.

Definition is_upper (c : ascii) : bool :=
  let n := nat_of_ascii c in (Nat.leb 65 n) && (Nat.leb n 90).

Definition lower_char (c : ascii) : ascii :=
  if is_upper c then ascii_of_nat (nat_of_ascii c + 32) else c.

(** [String.prototype.toLowerCase]. *)
Fixpoint toLowerCase (s : string) : string :=
  match s with
  | EmptyString => EmptyString
  | String c s' => String (lower_char c) (toLowerCase s')
  end.

(** [s.includes(t)]: [t] occurs in [s] at some position. *)
Fixpoint includes (s t : string) : bool :=
  if String.prefix t s then true
  else match s with
       | EmptyString => false
       | String _ s' => includes s' t
       end.

(** [s.substring(a, b)]: the characters at positions [a] (included) to [b]
    (excluded), both clipped to the length of [s], swapped when [a > b]. *)
Definition js_substring (s : string) (a b : nat) : string :=
  String.substring (Nat.min a b) (Nat.max a b - Nat.min a b) s.

(** [s.replace(/\/$/, "")]: the pattern matches a slash that is the last
    character of the input, and a replace without the global flag rewrites one
    match. *)
Fixpoint replace_trailing_slash (s : string) : string :=
  match s with
  | EmptyString => EmptyString
  | String c EmptyString => if Ascii.eqb c "/" then EmptyString else s
  | String c s' => String c (replace_trailing_slash s')
  end.

(** [String(n)] and the interpolation of a number in a template literal. *)
Definition Number_toString (n : Z) : string :=
  NilZero.string_of_int (Z.to_int n).

(** Whether a string is the empty string, which JavaScript reads as false. *)
Definition nonempty (s : string) : bool :=
  match s with EmptyString => false | String _ _ => true end.

(* ================================================================== *)
(** * JavaScript values *)

Module Error.
(** An instance of [Error] or of a class derived from it.  [name] is the
    [name] property (inherited from the prototype chain unless assigned),
    [constructor_name] is [error.constructor.name], the name of the class the
    object was built with. *)
Record t := mk
  { name : string;
    message : string;
    stack : option string;
    constructor_name : string }.
End Error.

Inductive JsValue : Type :=
| JsUndefined
| JsNull
| JsBoolean (b : bool)
| JsNumber (n : Z)
| JsBigInt (n : Z)
| JsString (s : string)
| JsArray (items : list JsValue)
| JsObject (props : list (string * JsValue))
| JsErrorObject (e : Error.t).

(** [ToBoolean]: what [x || y], [x ? a : b] and [!x] test. *)
Definition truthy (v : JsValue) : bool :=
  match v with
  | JsUndefined | JsNull => false
  | JsBoolean b => b
  | JsNumber n | JsBigInt n => negb (Z.eqb n 0)
  | JsString s => nonempty s
  | JsArray _ | JsObject _ | JsErrorObject _ => true
  end.

(** [v instanceof Error]. *)
Definition instanceof_Error (v : JsValue) : option Error.t :=
  match v with
  | JsErrorObject e => Some e
  | _ => None
  end.

(** An optional property read as a value: absent reads as [undefined]. *)
Definition opt_string (o : option string) : JsValue :=
  match o with Some s => JsString s | None => JsUndefined end.

Definition opt_number (o : option Z) : JsValue :=
  match o with Some n => JsNumber n | None => JsUndefined end.

Definition opt_boolean (o : option bool) : JsValue :=
  match o with Some b => JsBoolean b | None => JsUndefined end.

(** [options?.field] on an optional options object. *)
Definition option_bind {A B} (o : option A) (f : A -> option B) : option B :=
  match o with Some a => f a | None => None end.

(** How a statement, a call or an awaited promise ends. *)
Inductive Completion (A : Type) : Type :=
| Normal (a : A)
| Throw (e : JsValue).
Arguments Normal {A} a.
Arguments Throw {A} e.

(* ================================================================== *)
(** * [JSON.stringify] *)

Definition hex_digit (n : nat) : ascii :=
  if Nat.ltb n 10 then ascii_of_nat (48 + n) else ascii_of_nat (87 + n).

(** The escape of one character inside a JSON string literal. *)
Definition escape_char (c : ascii) : string :=
  let n := nat_of_ascii c in
  if Nat.eqb n 34 then "\" ++ dquote
  else if Nat.eqb n 92 then "\\"
  else if Nat.eqb n 8 then "\b"
  else if Nat.eqb n 9 then "\t"
  else if Nat.eqb n 10 then "\n"
  else if Nat.eqb n 12 then "\f"
  else if Nat.eqb n 13 then "\r"
  else if Nat.ltb n 32 then
    "\u00" ++ String (hex_digit (n / 16)) (String (hex_digit (n mod 16)) "")
  else String c "".

Fixpoint escape_string (s : string) : string :=
  match s with
  | EmptyString => EmptyString
  | String c s' => escape_char c ++ escape_string s'
  end.

Definition QuoteJSONString (s : string) : string :=
  dquote ++ escape_string s ++ dquote.

(** What [JSON.stringify] throws on a [BigInt]. *)
Definition TypeError_BigInt : JsValue :=
  JsErrorObject
    (Error.mk "TypeError" "Do not know how to serialize a BigInt" None "TypeError").

(** [JSON.stringify(v)].  The result is [undefined] ([None]) for [undefined];
    inside an array [undefined] is written [null], inside an object a property
    whose value is [undefined] is left out.  An [Error] has no enumerable
    property of its own and is written as the empty object.  A [BigInt] makes
    the call throw a [TypeError]. *)
Fixpoint JSON_stringify (v : JsValue) : Completion (option string) :=
  match v with
  | JsUndefined => Normal None
  | JsNull => Normal (Some "null")
  | JsBoolean b => Normal (Some (if b then "true" else "false"))
  | JsNumber n => Normal (Some (Number_toString n))
  | JsBigInt _ => Throw TypeError_BigInt
  | JsString s => Normal (Some (QuoteJSONString s))
  | JsArray items =>
      let elements :=
        (fix elements (l : list JsValue) : Completion (list string) :=
           match l with
           | [] => Normal []
           | x :: l' =>
               match JSON_stringify x with
               | Throw e => Throw e
               | Normal o =>
                   match elements l' with
                   | Throw e => Throw e
                   | Normal r =>
                       Normal (match o with Some s => s | None => "null" end :: r)
                   end
               end
           end) in
      match elements items with
      | Throw e => Throw e
      | Normal parts => Normal (Some ("[" ++ String.concat "," parts ++ "]"))
      end
  | JsObject props =>
      let members :=
        (fix members (l : list (string * JsValue)) : Completion (list string) :=
           match l with
           | [] => Normal []
           | (k, x) :: l' =>
               match JSON_stringify x with
               | Throw e => Throw e
               | Normal o =>
                   match members l' with
                   | Throw e => Throw e
                   | Normal r =>
                       Normal (match o with
                               | Some s => (QuoteJSONString k ++ ":" ++ s) :: r
                               | None => r
                               end)
                   end
               end
           end) in
      match members props with
      | Throw e => Throw e
      | Normal parts => Normal (Some ("{" ++ String.concat "," parts ++ "}"))
      end
  | JsErrorObject _ => Normal (Some "{}")
  end.

(** [s.length] of the result of a call that may have returned [undefined]:
    reading a property of [undefined] throws a [TypeError]. *)
Definition TypeError_undefined_length : JsValue :=
  JsErrorObject
    (Error.mk "TypeError" "Cannot read properties of undefined (reading 'length')"
       None "TypeError").

Definition length_of (o : option string) : Completion Z :=
  match o with
  | Some s => Normal (Z.of_nat (String.length s))
  | None => Throw TypeError_undefined_length
  end.

(* ================================================================== *)
(** * The host and the world

    What the code asks of its environment is read from a [Host]: the clock
    ([Date.now()]), the random source (the text of
    [Math.random().toString(36)], which is [0.] followed by base-36 digits) and
    the outcome of each [fetch].  A delivery that outlasts the configured
    timeout is aborted by the controller: the host then makes [fetch] reject
    with an error named [AbortError].  What the code does to its environment is
    recorded in a [World]: how often the clock and the random source were
    read, the requests issued and the console output, oldest first. *)

Module Response.
Record t := mk { ok : bool; status : Z; text : Completion string }.
End Response.

Inductive FetchResult : Type :=
| Fulfilled (response : Response.t)
| Rejected (reason : JsValue).

Module Request.
Record t := mk
  { url : string;
    method : string;
    headers : list (string * string);
    body : option string }.
End Request.

Inductive ConsoleEntry : Type :=
| log_warn (args : list JsValue)
| log_error (args : list JsValue).

Record Host := mkHost
  { clock : nat -> Z;
    random36 : nat -> string;
    network_outcome : nat -> Request.t -> FetchResult }.

Record World := mkWorld
  { clock_reads : nat;
    random_draws : nat;
    network : list Request.t;
    console : list ConsoleEntry }.

Definition M (A : Type) : Type := Host -> World -> Completion A * World.

Definition ret {A} (a : A) : M A := fun _ w => (Normal a, w).

Definition throw {A} (e : JsValue) : M A := fun _ w => (Throw e, w).

Definition bind {A B} (m : M A) (k : A -> M B) : M B :=
  fun h w =>
    match m h w with
    | (Normal a, w') => k a h w'
    | (Throw e, w') => (Throw e, w')
    end.

(** [try { body } catch (e) { handler }]. *)
Definition try_catch {A} (body : M A) (handler : JsValue -> M A) : M A :=
  fun h w =>
    match body h w with
    | (Normal a, w') => (Normal a, w')
    | (Throw e, w') => handler e h w'
    end.

(** [promise.catch(() => {})] on a call whose result is not awaited: the call
    runs, and a rejection is dropped.  The embedding runs the call to its end
    at the place where it is issued. *)
Definition fire_and_forget {A} (m : M A) : M unit :=
  fun h w => (Normal tt, snd (m h w)).

Definition lift {A} (c : Completion A) : M A := fun _ w => (c, w).

Declare Scope js_scope.
Delimit Scope js_scope with js.
Notation "x <- m ;; k" := (bind m (fun x => k))
  (at level 61, m at next level, right associativity) : js_scope.
Notation "m ;; k" := (bind m (fun _ => k))
  (at level 61, right associativity) : js_scope.
Open Scope js_scope.

Definition Date_now : M Z :=
  fun h w =>
    (Normal (clock h (clock_reads w)),
     mkWorld (S (clock_reads w)) (random_draws w) (network w) (console w)).

Definition Math_random_toString36 : M string :=
  fun h w =>
    (Normal (random36 h (random_draws w)),
     mkWorld (clock_reads w) (S (random_draws w)) (network w) (console w)).

Definition console_warn (args : list JsValue) : M unit :=
  fun _ w =>
    (Normal tt,
     mkWorld (clock_reads w) (random_draws w) (network w) (console w ++ [log_warn args])).

Definition console_error (args : list JsValue) : M unit :=
  fun _ w =>
    (Normal tt,
     mkWorld (clock_reads w) (random_draws w) (network w) (console w ++ [log_error args])).

(** [await fetch(url, init)]: the request is issued, then the host decides. *)
Definition fetch (request : Request.t) : M Response.t :=
  fun h w =>
    let w' := mkWorld (clock_reads w) (random_draws w)
                (network w ++ [request]) (console w) in
    match network_outcome h (List.length (network w)) request with
    | Fulfilled response => (Normal response, w')
    | Rejected reason => (Throw reason, w')
    end.

(** [`${Date.now()}-${Math.random().toString(36).substring(2, 11)}`], the body
    of both [generateCallId] and [generateSessionId]. *)
Definition generateId : M string :=
  now <- Date_now ;;
  r <- Math_random_toString36 ;;
  ret (Number_toString now ++ "-" ++ js_substring r 2 11).

(** [supplied || fallback] on an optional string: an absent and an empty
    string both give the fallback. *)
Definition or_else (supplied : option string) (fallback : string) : string :=
  match supplied with
  | Some s => if nonempty s then s else fallback
  | None => fallback
  end.

(** [supplied || generate()] on an optional string. *)
Definition or_generate (supplied : option string) (generate : M string) : M string :=
  match supplied with
  | Some s => if nonempty s then ret s else generate
  | None => generate
  end.

(** [error instanceof Error && error.name === "AbortError"]. *)
Definition is_AbortError (e : JsValue) : bool :=
  match instanceof_Error e with
  | Some err => String.eqb (Error.name err) "AbortError"
  | None => false
  end.

(* ================================================================== *)
(** * Backend types ([types.ts]) *)

Inductive ToolCallStatus : Type := success | error_status.

Definition ToolCallStatus_string (s : ToolCallStatus) : string :=
  match s with success => "success" | error_status => "error" end.

Inductive ToolErrorType : Type :=
| validation | timeout | internal | external | rate_limit | unknown.

Definition ToolErrorType_string (t : ToolErrorType) : string :=
  match t with
  | validation => "validation"
  | timeout => "timeout"
  | internal => "internal"
  | external => "external"
  | rate_limit => "rate_limit"
  | unknown => "unknown"
  end.

Module MimosAnalyticsConfig.
Record t := mk
  { baseUrl : string;
    projectId : string;
    apiKey : string;
    timeout : option Z;
    disabled : option bool }.
End MimosAnalyticsConfig.

(** The payload objects are records; [to_js] lists the properties in the order
    in which the client's own object literals write them. *)
Module ToolCallPayload.
Record t := mk
  { tool_name : string;
    duration_ms : Z;
    status : ToolCallStatus;
    timestamp_ms : Z;
    call_id : option string;
    parameters : option string;
    response_size_bytes : option Z }.

Definition to_js (p : t) : JsValue :=
  JsObject
    [ ("tool_name", JsString (tool_name p));
      ("duration_ms", JsNumber (duration_ms p));
      ("status", JsString (ToolCallStatus_string (status p)));
      ("timestamp_ms", JsNumber (timestamp_ms p));
      ("call_id", opt_string (call_id p));
      ("parameters", opt_string (parameters p));
      ("response_size_bytes", opt_number (response_size_bytes p)) ].
End ToolCallPayload.

Module ToolErrorPayload.
(** [error_message] is a string by its declared type; the call-tracking
    wrapper hands over whatever value was thrown. *)
Record t := mk
  { tool_name : string;
    error_code : string;
    error_message : JsValue;
    error_type : ToolErrorType;
    timestamp_ms : Z;
    call_id : option string;
    parameters : option string;
    stack_trace : option string }.

Definition to_js (p : t) : JsValue :=
  JsObject
    [ ("tool_name", JsString (tool_name p));
      ("error_code", JsString (error_code p));
      ("error_message", error_message p);
      ("error_type", JsString (ToolErrorType_string (error_type p)));
      ("timestamp_ms", JsNumber (timestamp_ms p));
      ("call_id", opt_string (call_id p));
      ("parameters", opt_string (parameters p));
      ("stack_trace", opt_string (stack_trace p)) ].
End ToolErrorPayload.

Inductive BackendEventType : Type := tool_call | tool_error.

Definition BackendEventType_string (e : BackendEventType) : string :=
  match e with tool_call => "tool_call" | tool_error => "tool_error" end.

(** The event envelope [{ event_type, metric_value }] as an object. *)
Definition envelope (event_type : string) (metric_value : option string) : JsValue :=
  JsObject
    [ ("event_type", JsString event_type);
      ("metric_value", opt_string metric_value) ].

Module MetricsRequest.
Record t := mk { event_type : BackendEventType; metric_value : option string }.

Definition to_js (r : t) : JsValue :=
  envelope (BackendEventType_string (event_type r)) (metric_value r).
End MetricsRequest.

(* ================================================================== *)
(** * The backend client ([client.ts]) *)

Module MimosAnalytics.

Record Config := mkConfig
  { baseUrl : string;
    projectId : string;
    apiKey : string;
    timeout : Z;
    disabled : bool }.

Record t := mk { config : Config; backendMetricsUrl : string }.

Definition constructor (c : MimosAnalyticsConfig.t) : t :=
  let config :=
    {| baseUrl := MimosAnalyticsConfig.baseUrl c;
       projectId := MimosAnalyticsConfig.projectId c;
       apiKey := MimosAnalyticsConfig.apiKey c;
       timeout := match MimosAnalyticsConfig.timeout c with
                  | Some t => t
                  | None => 5000%Z
                  end;
       disabled := match MimosAnalyticsConfig.disabled c with
                   | Some d => d
                   | None => false
                   end |} in
  let baseUrl := replace_trailing_slash (baseUrl config) in
  {| config := config;
     backendMetricsUrl := baseUrl ++ "/v1/backend-metrics/write/" |}.

Definition isDisabled (this : t) : bool := disabled (config this).

Definition sendMetric (this : t) (request : MetricsRequest.t) : M unit :=
  try_catch
    (body <- lift (JSON_stringify (MetricsRequest.to_js request)) ;;
     response <- fetch
       {| Request.url := backendMetricsUrl this;
          Request.method := "POST";
          Request.headers :=
            [ ("Content-Type", "application/json");
              ("anon-project-id", projectId (config this));
              ("api-key", apiKey (config this)) ];
          Request.body := body |} ;;
     if negb (Response.ok response) then
       errorBody <- lift (Response.text response) ;;
       console_error
         [ JsString ("[MimosAnalytics] Failed to send metric: "
                     ++ Number_toString (Response.status response)
                     ++ " " ++ errorBody) ]
     else ret tt)
    (fun e =>
       if is_AbortError e then
         console_error [ JsString "[MimosAnalytics] Request timed out" ]
       else
         console_error [ JsString "[MimosAnalytics] Failed to send metric:"; e ]).

Definition trackToolCall (this : t) (payload : ToolCallPayload.t) : M unit :=
  if disabled (config this) then ret tt
  else
    metric_value <- lift (JSON_stringify (ToolCallPayload.to_js payload)) ;;
    sendMetric this
      {| MetricsRequest.event_type := tool_call;
         MetricsRequest.metric_value := metric_value |}.

Definition trackToolError (this : t) (payload : ToolErrorPayload.t) : M unit :=
  if disabled (config this) then ret tt
  else
    metric_value <- lift (JSON_stringify (ToolErrorPayload.to_js payload)) ;;
    sendMetric this
      {| MetricsRequest.event_type := tool_error;
         MetricsRequest.metric_value := metric_value |}.

Module SuccessOptions.
Record t := mk
  { callId : option string;
    parameters : option string;
    responseSizeBytes : option Z }.
End SuccessOptions.

Definition trackSuccess (this : t) (toolName : string) (durationMs : Z)
    (options : option SuccessOptions.t) : M unit :=
  now <- Date_now ;;
  trackToolCall this
    {| ToolCallPayload.tool_name := toolName;
       ToolCallPayload.duration_ms := durationMs;
       ToolCallPayload.status := success;
       ToolCallPayload.timestamp_ms := now;
       ToolCallPayload.call_id := option_bind options SuccessOptions.callId;
       ToolCallPayload.parameters := option_bind options SuccessOptions.parameters;
       ToolCallPayload.response_size_bytes :=
         option_bind options SuccessOptions.responseSizeBytes |}.

Module ErrorOptions.
Record t := mk
  { callId : option string;
    parameters : option string;
    errorType : option ToolErrorType;
    errorCode : option string }.
End ErrorOptions.

(** The three values [trackError] reads off the failure:
    [errorMessage], [errorCode] and [stackTrace]. *)
Definition errorMessage (e : JsValue) : JsValue :=
  match instanceof_Error e with
  | Some err => JsString (Error.message err)
  | None => e
  end.

Definition errorCode (e : JsValue) (override : option string) : string :=
  or_else override
    (match instanceof_Error e with
     | Some err => Error.constructor_name err
     | None => "Error"
     end).

Definition stackTrace (e : JsValue) : option string :=
  match instanceof_Error e with
  | Some err => Error.stack err
  | None => None
  end.

Definition trackError (this : t) (toolName : string) (e : JsValue)
    (options : option ErrorOptions.t) : M unit :=
  let errorMessage := errorMessage e in
  let errorCode := errorCode e (option_bind options ErrorOptions.errorCode) in
  let stackTrace := stackTrace e in
  now <- Date_now ;;
  trackToolError this
    {| ToolErrorPayload.tool_name := toolName;
       ToolErrorPayload.error_code := errorCode;
       ToolErrorPayload.error_message := errorMessage;
       ToolErrorPayload.error_type :=
         match option_bind options ErrorOptions.errorType with
         | Some t => t
         | None => unknown
         end;
       ToolErrorPayload.timestamp_ms := now;
       ToolErrorPayload.call_id := option_bind options ErrorOptions.callId;
       ToolErrorPayload.parameters := option_bind options ErrorOptions.parameters;
       ToolErrorPayload.stack_trace := stackTrace |}.

(** A call of a public tracking method, with its arguments. *)
Inductive TrackingCall : Type :=
| TrackToolCall (payload : ToolCallPayload.t)
| TrackToolError (payload : ToolErrorPayload.t)
| TrackSuccess (toolName : string) (durationMs : Z)
    (options : option SuccessOptions.t)
| TrackError (toolName : string) (e : JsValue) (options : option ErrorOptions.t).

Definition call (this : t) (c : TrackingCall) : M unit :=
  match c with
  | TrackToolCall payload => trackToolCall this payload
  | TrackToolError payload => trackToolError this payload
  | TrackSuccess toolName durationMs options =>
      trackSuccess this toolName durationMs options
  | TrackError toolName e options => trackError this toolName e options
  end.

End MimosAnalytics.

(* ================================================================== *)
(** * Frontend types ([frontend-types.ts]) *)

Module MimosFrontendConfig.
Record t := mk
  { baseUrl : string;
    projectId : string;
    timeout : option Z;
    disabled : option bool }.
End MimosFrontendConfig.

Inductive FrontendEventType : Type :=
| button_click | motion_swipe | motion_scroll | session_start | session_end
| element_focus | app_load_success | app_load_error.

Definition FrontendEventType_string (e : FrontendEventType) : string :=
  match e with
  | button_click => "button_click"
  | motion_swipe => "motion_swipe"
  | motion_scroll => "motion_scroll"
  | session_start => "session_start"
  | session_end => "session_end"
  | element_focus => "element_focus"
  | app_load_success => "app_load_success"
  | app_load_error => "app_load_error"
  end.

Module ButtonClickPayload.
Record t := mk
  { button_id : string;
    screen_name : string;
    button_text : option string;
    x_position : option Z;
    y_position : option Z;
    timestamp_ms : Z }.

Definition to_js (p : t) : JsValue :=
  JsObject
    [ ("button_id", JsString (button_id p));
      ("screen_name", JsString (screen_name p));
      ("button_text", opt_string (button_text p));
      ("x_position", opt_number (x_position p));
      ("y_position", opt_number (y_position p));
      ("timestamp_ms", JsNumber (timestamp_ms p)) ].
End ButtonClickPayload.

Module MotionSwipePayload.
Inductive Direction : Type := up | down | left | right.

Definition Direction_string (d : Direction) : string :=
  match d with up => "up" | down => "down" | left => "left" | right => "right" end.

Record t := mk
  { direction : Direction;
    start_x : Z;
    start_y : Z;
    end_x : Z;
    end_y : Z;
    velocity : option Z;
    duration_ms : Z;
    screen_name : string }.

Definition to_js (p : t) : JsValue :=
  JsObject
    [ ("direction", JsString (Direction_string (direction p)));
      ("start_x", JsNumber (start_x p));
      ("start_y", JsNumber (start_y p));
      ("end_x", JsNumber (end_x p));
      ("end_y", JsNumber (end_y p));
      ("velocity", opt_number (velocity p));
      ("duration_ms", JsNumber (duration_ms p));
      ("screen_name", JsString (screen_name p)) ].
End MotionSwipePayload.

Module MotionScrollPayload.
Inductive Direction : Type := up | down.

Definition Direction_string (d : Direction) : string :=
  match d with up => "up" | down => "down" end.

Record t := mk
  { direction : Direction;
    scroll_depth_px : Z;
    scroll_depth_percent : option Z;
    start_position : Z;
    end_position : Z;
    duration_ms : Z;
    screen_name : string }.

Definition to_js (p : t) : JsValue :=
  JsObject
    [ ("direction", JsString (Direction_string (direction p)));
      ("scroll_depth_px", JsNumber (scroll_depth_px p));
      ("scroll_depth_percent", opt_number (scroll_depth_percent p));
      ("start_position", JsNumber (start_position p));
      ("end_position", JsNumber (end_position p));
      ("duration_ms", JsNumber (duration_ms p));
      ("screen_name", JsString (screen_name p)) ].
End MotionScrollPayload.

Module SessionStartPayload.
Inductive DeviceType : Type := mobile | tablet | desktop.
Inductive OsName : Type := ios | android | web.

Definition DeviceType_string (d : DeviceType) : string :=
  match d with mobile => "mobile" | tablet => "tablet" | desktop => "desktop" end.

Definition OsName_string (o : OsName) : string :=
  match o with ios => "ios" | android => "android" | web => "web" end.

(** [session_id] is optional in the argument of [startSession] and required
    in the payload that is sent. *)
Record t := mk
  { session_id : option string;
    device_type : DeviceType;
    os_name : OsName;
    os_version : string;
    app_version : string;
    device_model : option string;
    screen_width : option Z;
    screen_height : option Z;
    locale : option string;
    timezone : option string }.

Definition other_props (p : t) : list (string * JsValue) :=
  [ ("device_type", JsString (DeviceType_string (device_type p)));
    ("os_name", JsString (OsName_string (os_name p)));
    ("os_version", JsString (os_version p));
    ("app_version", JsString (app_version p));
    ("device_model", opt_string (device_model p));
    ("screen_width", opt_number (screen_width p));
    ("screen_height", opt_number (screen_height p));
    ("locale", opt_string (locale p));
    ("timezone", opt_string (timezone p)) ].

Definition to_js (p : t) : JsValue :=
  JsObject
    (match session_id p with
     | Some s => [ ("session_id", JsString s) ]
     | None => []
     end ++ other_props p)%list.

(** [{ ...payload, session_id: sessionId }]: a property the payload already
    has keeps its place and takes the new value, a new one comes last. *)
Definition with_session_id (p : t) (sessionId : string) : JsValue :=
  JsObject
    (match session_id p with
     | Some _ => ("session_id", JsString sessionId) :: other_props p
     | None => other_props p ++ [ ("session_id", JsString sessionId) ]
     end)%list.
End SessionStartPayload.

Module ExitReason.
Inductive t : Type := user_exit | background | timeout | crash | logout.

Definition to_string (r : t) : string :=
  match r with
  | user_exit => "user_exit"
  | background => "background"
  | timeout => "timeout"
  | crash => "crash"
  | logout => "logout"
  end.
End ExitReason.

Module SessionEndPayload.
Record t := mk
  { session_id : string;
    session_duration_ms : Z;
    exit_reason : ExitReason.t;
    screens_visited : Z;
    total_events : option Z;
    last_screen : option string }.

Definition to_js (p : t) : JsValue :=
  JsObject
    [ ("session_id", JsString (session_id p));
      ("session_duration_ms", JsNumber (session_duration_ms p));
      ("exit_reason", JsString (ExitReason.to_string (exit_reason p)));
      ("screens_visited", JsNumber (screens_visited p));
      ("total_events", opt_number (total_events p));
      ("last_screen", opt_string (last_screen p)) ].
End SessionEndPayload.

Module ElementFocusPayload.
Inductive ElementType : Type :=
| text_input | dropdown | checkbox | radio | textarea | search.

Definition ElementType_string (e : ElementType) : string :=
  match e with
  | text_input => "text_input"
  | dropdown => "dropdown"
  | checkbox => "checkbox"
  | radio => "radio"
  | textarea => "textarea"
  | search => "search"
  end.

Record t := mk
  { element_id : string;
    element_type : ElementType;
    screen_name : string;
    focus_duration_ms : Z;
    had_interaction : bool;
    field_name : option string }.

Definition to_js (p : t) : JsValue :=
  JsObject
    [ ("element_id", JsString (element_id p));
      ("element_type", JsString (ElementType_string (element_type p)));
      ("screen_name", JsString (screen_name p));
      ("focus_duration_ms", JsNumber (focus_duration_ms p));
      ("had_interaction", JsBoolean (had_interaction p));
      ("field_name", opt_string (field_name p)) ].
End ElementFocusPayload.

Module NetworkType.
Inductive t : Type := wifi | cellular | offline | unknown.

Definition to_string (n : t) : string :=
  match n with
  | wifi => "wifi"
  | cellular => "cellular"
  | offline => "offline"
  | unknown => "unknown"
  end.
End NetworkType.

Module AppLoadSuccessPayload.
Record t := mk
  { screen_name : string;
    load_time_ms : Z;
    is_cold_start : bool;
    network_type : option NetworkType.t;
    ttfb_ms : option Z;
    resource_count : option Z;
    cache_hit : option bool }.

Definition to_js (p : t) : JsValue :=
  JsObject
    [ ("screen_name", JsString (screen_name p));
      ("load_time_ms", JsNumber (load_time_ms p));
      ("is_cold_start", JsBoolean (is_cold_start p));
      ("network_type", opt_string (option_map NetworkType.to_string (network_type p)));
      ("ttfb_ms", opt_number (ttfb_ms p));
      ("resource_count", opt_number (resource_count p));
      ("cache_hit", opt_boolean (cache_hit p)) ].
End AppLoadSuccessPayload.

Module LoadErrorType.
Inductive t : Type := network | timeout | server | parse | unknown.

Definition to_string (e : t) : string :=
  match e with
  | network => "network"
  | timeout => "timeout"
  | server => "server"
  | parse => "parse"
  | unknown => "unknown"
  end.
End LoadErrorType.

Module AppLoadErrorPayload.
(** [error_message] is a string by its declared type; [trackLoadError] writes
    the message of an [Error], or the value it was given. *)
Record t := mk
  { screen_name : string;
    error_code : string;
    error_message : JsValue;
    error_type : LoadErrorType.t;
    http_status : option Z;
    retry_count : option Z;
    stack_trace : option string }.

Definition to_js (p : t) : JsValue :=
  JsObject
    [ ("screen_name", JsString (screen_name p));
      ("error_code", JsString (error_code p));
      ("error_message", error_message p);
      ("error_type", JsString (LoadErrorType.to_string (error_type p)));
      ("http_status", opt_number (http_status p));
      ("retry_count", opt_number (retry_count p));
      ("stack_trace", opt_string (stack_trace p)) ].
End AppLoadErrorPayload.

(* ================================================================== *)
(** * The frontend client ([frontend-client.ts]) *)

Module MimosFrontendAnalytics.

Record Config := mkConfig
  { baseUrl : string;
    projectId : string;
    timeout : Z;
    disabled : bool }.

(** The instance: the configuration and the endpoint, fixed by the
    constructor, and the four mutable fields of the session. *)
Record t := mk
  { config : Config;
    frontendMetricsUrl : string;
    sessionId : option string;
    sessionStartTime : option Z;
    screenHistory : list string;
    eventCount : Z }.

Definition constructor (c : MimosFrontendConfig.t) : t :=
  let config :=
    {| baseUrl := MimosFrontendConfig.baseUrl c;
       projectId := MimosFrontendConfig.projectId c;
       timeout := match MimosFrontendConfig.timeout c with
                  | Some t => t
                  | None => 5000%Z
                  end;
       disabled := match MimosFrontendConfig.disabled c with
                   | Some d => d
                   | None => false
                   end |} in
  let baseUrl := replace_trailing_slash (baseUrl config) in
  {| config := config;
     frontendMetricsUrl := baseUrl ++ "/v1/frontend-metrics/write/";
     sessionId := None;
     sessionStartTime := None;
     screenHistory := [];
     eventCount := 0%Z |}.

Definition isDisabled (this : t) : bool := disabled (config this).

Definition getSessionId (this : t) : option string := sessionId this.

(** [this.eventCount++]. *)
Definition incrementEventCount (this : t) : t :=
  mk (config this) (frontendMetricsUrl this) (sessionId this)
     (sessionStartTime this) (screenHistory this) (eventCount this + 1)%Z.

Definition updateScreenHistory (this : t) (screenName : string) : t :=
  let history := screenHistory this in
  let push :=
    mk (config this) (frontendMetricsUrl this) (sessionId this)
       (sessionStartTime this) (history ++ [screenName])%list (eventCount this) in
  match nth_error history (List.length history - 1) with
  | Some last => if String.eqb last screenName then this else push
  | None => push
  end.

Definition sendMetric (this : t) (eventType : FrontendEventType)
    (payload : JsValue) : M unit :=
  if disabled (config this) then ret tt
  else
    try_catch
      (metric_value <- lift (JSON_stringify payload) ;;
       body <- lift (JSON_stringify
                       (envelope (FrontendEventType_string eventType) metric_value)) ;;
       response <- fetch
         {| Request.url := frontendMetricsUrl this;
            Request.method := "POST";
            Request.headers :=
              [ ("Content-Type", "application/json");
                ("anon-project-id", projectId (config this)) ];
            Request.body := body |} ;;
       if negb (Response.ok response) then
         errorBody <- lift (Response.text response) ;;
         console_error
           [ JsString ("[MimosFrontendAnalytics] Failed to send metric: "
                       ++ Number_toString (Response.status response)
                       ++ " " ++ errorBody) ]
       else ret tt)
      (fun e =>
         if is_AbortError e then
           console_error [ JsString "[MimosFrontendAnalytics] Request timed out" ]
         else
           console_error
             [ JsString "[MimosFrontendAnalytics] Failed to send metric:"; e ]).

Definition generateSessionId : M string := generateId.

Definition startSession (this : t) (payload : SessionStartPayload.t)
    : M (string * t) :=
  sessionId <- or_generate (SessionStartPayload.session_id payload)
                 generateSessionId ;;
  now <- Date_now ;;
  let this := mk (config this) (frontendMetricsUrl this)
                (Some sessionId) (Some now) [] 0%Z in
  sendMetric this session_start
    (SessionStartPayload.with_session_id payload sessionId) ;;
  ret (sessionId, this).

(** The session that [endSession] finds: both [this.sessionId] and
    [this.sessionStartTime] must pass the test
    [!this.sessionId || !this.sessionStartTime], which [null], the empty
    string and the number zero fail. *)
Definition activeSession (this : t) : option (string * Z) :=
  match sessionId this, sessionStartTime this with
  | Some id, Some start =>
      if truthy (JsString id) && truthy (JsNumber start) then Some (id, start)
      else None
  | _, _ => None
  end.

Definition endSession (this : t) (exitReason : ExitReason.t) : M t :=
  match activeSession this with
  | None =>
      console_warn [ JsString "[MimosFrontendAnalytics] No active session to end" ] ;;
      ret this
  | Some (id, start) =>
      now <- Date_now ;;
      let history := screenHistory this in
      let payload :=
        {| SessionEndPayload.session_id := id;
           SessionEndPayload.session_duration_ms := (now - start)%Z;
           SessionEndPayload.exit_reason := exitReason;
           SessionEndPayload.screens_visited := Z.of_nat (List.length history);
           SessionEndPayload.total_events := Some (eventCount this);
           SessionEndPayload.last_screen :=
             nth_error history (List.length history - 1) |} in
      sendMetric this session_end (SessionEndPayload.to_js payload) ;;
      ret (mk (config this) (frontendMetricsUrl this) None None
              (screenHistory this) (eventCount this))
  end.

Module ButtonClickOptions.
Record t := mk { buttonText : option string; x : option Z; y : option Z }.
End ButtonClickOptions.

Definition trackButtonClick (this : t) (buttonId screenName : string)
    (options : option ButtonClickOptions.t) : M t :=
  let this := incrementEventCount this in
  let this := updateScreenHistory this screenName in
  now <- Date_now ;;
  sendMetric this button_click
    (ButtonClickPayload.to_js
       {| ButtonClickPayload.button_id := buttonId;
          ButtonClickPayload.screen_name := screenName;
          ButtonClickPayload.button_text :=
            option_bind options ButtonClickOptions.buttonText;
          ButtonClickPayload.x_position := option_bind options ButtonClickOptions.x;
          ButtonClickPayload.y_position := option_bind options ButtonClickOptions.y;
          ButtonClickPayload.timestamp_ms := now |}) ;;
  ret this.

Definition trackSwipe (this : t) (payload : MotionSwipePayload.t) : M t :=
  let this := incrementEventCount this in
  let this := updateScreenHistory this (MotionSwipePayload.screen_name payload) in
  sendMetric this motion_swipe (MotionSwipePayload.to_js payload) ;;
  ret this.

Definition trackScroll (this : t) (payload : MotionScrollPayload.t) : M t :=
  let this := incrementEventCount this in
  let this := updateScreenHistory this (MotionScrollPayload.screen_name payload) in
  sendMetric this motion_scroll (MotionScrollPayload.to_js payload) ;;
  ret this.

Definition trackElementFocus (this : t) (payload : ElementFocusPayload.t) : M t :=
  let this := incrementEventCount this in
  let this := updateScreenHistory this (ElementFocusPayload.screen_name payload) in
  sendMetric this element_focus (ElementFocusPayload.to_js payload) ;;
  ret this.

Module LoadSuccessOptions.
Record t := mk
  { isColdStart : option bool;
    networkType : option NetworkType.t;
    ttfbMs : option Z;
    resourceCount : option Z;
    cacheHit : option bool }.
End LoadSuccessOptions.

Definition trackLoadSuccess (this : t) (screenName : string) (loadTimeMs : Z)
    (options : option LoadSuccessOptions.t) : M t :=
  let this := incrementEventCount this in
  let this := updateScreenHistory this screenName in
  sendMetric this app_load_success
    (AppLoadSuccessPayload.to_js
       {| AppLoadSuccessPayload.screen_name := screenName;
          AppLoadSuccessPayload.load_time_ms := loadTimeMs;
          AppLoadSuccessPayload.is_cold_start :=
            match option_bind options LoadSuccessOptions.isColdStart with
            | Some b => b
            | None => false
            end;
          AppLoadSuccessPayload.network_type :=
            option_bind options LoadSuccessOptions.networkType;
          AppLoadSuccessPayload.ttfb_ms := option_bind options LoadSuccessOptions.ttfbMs;
          AppLoadSuccessPayload.resource_count :=
            option_bind options LoadSuccessOptions.resourceCount;
          AppLoadSuccessPayload.cache_hit :=
            option_bind options LoadSuccessOptions.cacheHit |}) ;;
  ret this.

Module LoadErrorOptions.
Record t := mk
  { errorType : option LoadErrorType.t;
    errorCode : option string;
    httpStatus : option Z;
    retryCount : option Z }.
End LoadErrorOptions.

(** The three values [trackLoadError] reads off the failure. *)
Definition errorMessage (e : JsValue) : JsValue :=
  match instanceof_Error e with
  | Some err => JsString (Error.message err)
  | None => e
  end.

Definition errorCode (e : JsValue) (override : option string) : string :=
  or_else override
    (match instanceof_Error e with
     | Some err => Error.name err
     | None => "Error"
     end).

Definition stackTrace (e : JsValue) : option string :=
  match instanceof_Error e with
  | Some err => Error.stack err
  | None => None
  end.

Definition trackLoadError (this : t) (screenName : string) (e : JsValue)
    (options : option LoadErrorOptions.t) : M t :=
  let this := incrementEventCount this in
  let this := updateScreenHistory this screenName in
  let errorMessage := errorMessage e in
  let errorCode := errorCode e (option_bind options LoadErrorOptions.errorCode) in
  let stackTrace := stackTrace e in
  sendMetric this app_load_error
    (AppLoadErrorPayload.to_js
       {| AppLoadErrorPayload.screen_name := screenName;
          AppLoadErrorPayload.error_code := errorCode;
          AppLoadErrorPayload.error_message := errorMessage;
          AppLoadErrorPayload.error_type :=
            match option_bind options LoadErrorOptions.errorType with
            | Some t => t
            | None => LoadErrorType.unknown
            end;
          AppLoadErrorPayload.http_status :=
            option_bind options LoadErrorOptions.httpStatus;
          AppLoadErrorPayload.retry_count :=
            option_bind options LoadErrorOptions.retryCount;
          AppLoadErrorPayload.stack_trace := stackTrace |}) ;;
  ret this.

Definition sendButtonClick (this : t) (payload : ButtonClickPayload.t) : M t :=
  let this := incrementEventCount this in
  let this := updateScreenHistory this (ButtonClickPayload.screen_name payload) in
  sendMetric this button_click (ButtonClickPayload.to_js payload) ;;
  ret this.

Definition sendSessionStart (this : t) (payload : SessionStartPayload.t) : M t :=
  sendMetric this session_start (SessionStartPayload.to_js payload) ;;
  ret this.

Definition sendSessionEnd (this : t) (payload : SessionEndPayload.t) : M t :=
  sendMetric this session_end (SessionEndPayload.to_js payload) ;;
  ret this.

Definition sendAppLoadSuccess (this : t) (payload : AppLoadSuccessPayload.t) : M t :=
  let this := incrementEventCount this in
  let this := updateScreenHistory this (AppLoadSuccessPayload.screen_name payload) in
  sendMetric this app_load_success (AppLoadSuccessPayload.to_js payload) ;;
  ret this.

Definition sendAppLoadError (this : t) (payload : AppLoadErrorPayload.t) : M t :=
  let this := incrementEventCount this in
  let this := updateScreenHistory this (AppLoadErrorPayload.screen_name payload) in
  sendMetric this app_load_error (AppLoadErrorPayload.to_js payload) ;;
  ret this.

(** A call of a public method other than [startSession] and [endSession],
    with its arguments. *)
Inductive TrackingCall : Type :=
| TrackButtonClick (buttonId screenName : string)
    (options : option ButtonClickOptions.t)
| TrackSwipe (payload : MotionSwipePayload.t)
| TrackScroll (payload : MotionScrollPayload.t)
| TrackElementFocus (payload : ElementFocusPayload.t)
| TrackLoadSuccess (screenName : string) (loadTimeMs : Z)
    (options : option LoadSuccessOptions.t)
| TrackLoadError (screenName : string) (e : JsValue)
    (options : option LoadErrorOptions.t)
| SendButtonClick (payload : ButtonClickPayload.t)
| SendSessionStart (payload : SessionStartPayload.t)
| SendSessionEnd (payload : SessionEndPayload.t)
| SendAppLoadSuccess (payload : AppLoadSuccessPayload.t)
| SendAppLoadError (payload : AppLoadErrorPayload.t).

Definition call (this : t) (c : TrackingCall) : M t :=
  match c with
  | TrackButtonClick buttonId screenName options =>
      trackButtonClick this buttonId screenName options
  | TrackSwipe payload => trackSwipe this payload
  | TrackScroll payload => trackScroll this payload
  | TrackElementFocus payload => trackElementFocus this payload
  | TrackLoadSuccess screenName loadTimeMs options =>
      trackLoadSuccess this screenName loadTimeMs options
  | TrackLoadError screenName e options => trackLoadError this screenName e options
  | SendButtonClick payload => sendButtonClick this payload
  | SendSessionStart payload => sendSessionStart this payload
  | SendSessionEnd payload => sendSessionEnd this payload
  | SendAppLoadSuccess payload => sendAppLoadSuccess this payload
  | SendAppLoadError payload => sendAppLoadError this payload
  end.

(** The calls of a list, each awaited before the next. *)
Fixpoint calls (this : t) (cs : list TrackingCall) : M t :=
  match cs with
  | [] => ret this
  | c :: cs' => this' <- call this c ;; calls this' cs'
  end.

End MimosFrontendAnalytics.

(* ================================================================== *)
(** * The call-tracking wrapper ([tracker.ts]) *)

Definition generateCallId : M string := generateId.

Module TrackedCallResult.
Record t := mk { result : JsValue; durationMs : Z; callId : string }.
End TrackedCallResult.

Module ToolCallTracker.

Record t := mk { analytics : MimosAnalytics.t }.

Definition constructor (analytics : MimosAnalytics.t) : t := mk analytics.

Module TrackOptions.
(** [parameters] has type [unknown]: an absent property reads [undefined]. *)
Record t := mk
  { callId : option string;
    parameters : JsValue;
    errorType : option ToolErrorType }.
End TrackOptions.

Definition inferErrorType (e : JsValue) : ToolErrorType :=
  match instanceof_Error e with
  | None => unknown
  | Some err =>
      let message := toLowerCase (Error.message err) in
      let name := toLowerCase (Error.name err) in
      if includes name "timeout"
         || includes message "timeout"
         || includes message "timed out"
      then timeout
      else if includes name "validation"
              || includes message "invalid"
              || includes message "required"
      then validation
      else if includes message "rate limit"
              || includes message "too many requests"
              || includes message "429"
      then rate_limit
      else if includes message "network"
              || includes message "fetch"
              || includes message "econnrefused"
      then external
      else internal
  end.

(** [options?.parameters ? JSON.stringify(options.parameters) : undefined]. *)
Definition parametersStr (options : option TrackOptions.t) : M (option string) :=
  match options with
  | Some o =>
      if truthy (TrackOptions.parameters o)
      then lift (JSON_stringify (TrackOptions.parameters o))
      else ret None
  | None => ret None
  end.

(** [responseSizeBytes]: assigned inside a [try] whose [catch] is empty. *)
Definition responseSizeBytes (result : JsValue) : M (option Z) :=
  try_catch
    (s <- lift (JSON_stringify result) ;;
     n <- lift (length_of s) ;;
     ret (Some n))
    (fun _ => ret None).

(** [options?.errorType || this.inferErrorType(error)]. *)
Definition errorTypeOf (options : option TrackOptions.t) (e : JsValue)
    : ToolErrorType :=
  match option_bind options TrackOptions.errorType with
  | Some t => t
  | None => inferErrorType e
  end.

Definition track (this : t) (toolName : string) (fn : M JsValue)
    (options : option TrackOptions.t) : M JsValue :=
  callId <- or_generate (option_bind options TrackOptions.callId) generateCallId ;;
  parametersStr <- parametersStr options ;;
  startTime <- Date_now ;;
  try_catch
    (result <- fn ;;
     now <- Date_now ;;
     let durationMs := (now - startTime)%Z in
     responseSizeBytes <- responseSizeBytes result ;;
     fire_and_forget
       (MimosAnalytics.trackSuccess (analytics this) toolName durationMs
          (Some {| MimosAnalytics.SuccessOptions.callId := Some callId;
                   MimosAnalytics.SuccessOptions.parameters := parametersStr;
                   MimosAnalytics.SuccessOptions.responseSizeBytes :=
                     responseSizeBytes |})) ;;
     ret result)
    (fun e =>
       now <- Date_now ;;
       let durationMs := (now - startTime)%Z in
       fire_and_forget
         (MimosAnalytics.trackError (analytics this) toolName e
            (Some {| MimosAnalytics.ErrorOptions.callId := Some callId;
                     MimosAnalytics.ErrorOptions.parameters := parametersStr;
                     MimosAnalytics.ErrorOptions.errorType :=
                       Some (errorTypeOf options e);
                     MimosAnalytics.ErrorOptions.errorCode := None |})) ;;
       throw e).

Definition trackWithMetadata (this : t) (toolName : string) (fn : M JsValue)
    (options : option TrackOptions.t) : M TrackedCallResult.t :=
  callId <- or_generate (option_bind options TrackOptions.callId) generateCallId ;;
  parametersStr <- parametersStr options ;;
  startTime <- Date_now ;;
  try_catch
    (result <- fn ;;
     now <- Date_now ;;
     let durationMs := (now - startTime)%Z in
     responseSizeBytes <- responseSizeBytes result ;;
     fire_and_forget
       (MimosAnalytics.trackSuccess (analytics this) toolName durationMs
          (Some {| MimosAnalytics.SuccessOptions.callId := Some callId;
                   MimosAnalytics.SuccessOptions.parameters := parametersStr;
                   MimosAnalytics.SuccessOptions.responseSizeBytes :=
                     responseSizeBytes |})) ;;
     ret {| TrackedCallResult.result := result;
            TrackedCallResult.durationMs := durationMs;
            TrackedCallResult.callId := callId |})
    (fun e =>
       now <- Date_now ;;
       let durationMs := (now - startTime)%Z in
       fire_and_forget
         (MimosAnalytics.trackError (analytics this) toolName e
            (Some {| MimosAnalytics.ErrorOptions.callId := Some callId;
                     MimosAnalytics.ErrorOptions.parameters := parametersStr;
                     MimosAnalytics.ErrorOptions.errorType :=
                       Some (errorTypeOf options e);
                     MimosAnalytics.ErrorOptions.errorCode := None |})) ;;
       throw e).

Module WrapOptions.
Record t := mk { errorType : option ToolErrorType }.
End WrapOptions.

(** The wrapped function, applied to the arguments [args] of one call. *)
Definition wrap (this : t) (toolName : string) (fn : list JsValue -> M JsValue)
    (options : option WrapOptions.t) : list JsValue -> M JsValue :=
  fun args =>
    track this toolName (fn args)
      (Some {| TrackOptions.callId := None;
               TrackOptions.parameters :=
                 if Nat.eqb (List.length args) 1 then nth 0 args JsUndefined
                 else JsArray args;
               TrackOptions.errorType := option_bind options WrapOptions.errorType |}).

End ToolCallTracker.

(* ================================================================== *)
(** * Vocabulary of the properties *)

(** [t] occurs in [s]. *)
Definition Substring (t s : string) : Prop :=
  exists before after, s = before ++ t ++ after.

(** The terms that [inferErrorType] looks for, in the lower-cased name and
    message of an error. *)
Definition timeout_terms (name message : string) : Prop :=
  Substring "timeout" name \/ Substring "timeout" message
  \/ Substring "timed out" message.

Definition validation_terms (name message : string) : Prop :=
  Substring "validation" name \/ Substring "invalid" message
  \/ Substring "required" message.

Definition rate_limit_terms (message : string) : Prop :=
  Substring "rate limit" message \/ Substring "too many requests" message
  \/ Substring "429" message.

Definition network_terms (message : string) : Prop :=
  Substring "network" message \/ Substring "fetch" message
  \/ Substring "econnrefused" message.

(** Two characters, then two strings, that differ at most in the case of
    their letters. *)
Inductive same_letter : ascii -> ascii -> Prop :=
| same_letter_refl c : same_letter c c
| same_letter_lower c : is_upper c = true -> same_letter c (lower_char c)
| same_letter_upper c : is_upper c = true -> same_letter (lower_char c) c.

Inductive same_ignoring_case : string -> string -> Prop :=
| same_empty : same_ignoring_case "" ""
| same_cons a b s t :
    same_letter a b -> same_ignoring_case s t ->
    same_ignoring_case (String a s) (String b t).

(** An error built with the [Error] constructor and a message. *)
Definition new_Error (message : string) : JsValue :=
  JsErrorObject (Error.mk "Error" message None "Error").

(** The world after one reading of the clock, of the random source, after a
    line on the console. *)
Definition tick (w : World) : World :=
  mkWorld (S (clock_reads w)) (random_draws w) (network w) (console w).

Definition draw (w : World) : World :=
  mkWorld (clock_reads w) (S (random_draws w)) (network w) (console w).

Definition logged (entry : ConsoleEntry) (w : World) : World :=
  mkWorld (clock_reads w) (random_draws w) (network w) (console w ++ [entry]).

(** A computation completes normally, whatever the host does. *)
Definition completes {A} (m : M A) : Prop :=
  forall h w, exists a, fst (m h w) = Normal a.

(** A computation completes normally and issues no request. *)
Definition quiet {A} (m : M A) : Prop :=
  forall h w, exists a w', m h w = (Normal a, w') /\ network w' = network w.

(** The screen name a frontend call carries; the two raw session calls carry
    none and are not counted. *)
Definition screen_of (c : MimosFrontendAnalytics.TrackingCall) : option string :=
  match c with
  | MimosFrontendAnalytics.TrackButtonClick _ screenName _ => Some screenName
  | MimosFrontendAnalytics.TrackSwipe p => Some (MotionSwipePayload.screen_name p)
  | MimosFrontendAnalytics.TrackScroll p => Some (MotionScrollPayload.screen_name p)
  | MimosFrontendAnalytics.TrackElementFocus p =>
      Some (ElementFocusPayload.screen_name p)
  | MimosFrontendAnalytics.TrackLoadSuccess screenName _ _ => Some screenName
  | MimosFrontendAnalytics.TrackLoadError screenName _ _ => Some screenName
  | MimosFrontendAnalytics.SendButtonClick p => Some (ButtonClickPayload.screen_name p)
  | MimosFrontendAnalytics.SendSessionStart _ => None
  | MimosFrontendAnalytics.SendSessionEnd _ => None
  | MimosFrontendAnalytics.SendAppLoadSuccess p =>
      Some (AppLoadSuccessPayload.screen_name p)
  | MimosFrontendAnalytics.SendAppLoadError p =>
      Some (AppLoadErrorPayload.screen_name p)
  end.

Fixpoint screens (cs : list MimosFrontendAnalytics.TrackingCall) : list string :=
  match cs with
  | [] => []
  | c :: cs' =>
      match screen_of c with
      | Some s => s :: screens cs'
      | None => screens cs'
      end
  end.

(** The last entry of the screen history,
    [this.screenHistory[this.screenHistory.length - 1]]. *)
Definition last_entry (history : list string) : option string :=
  nth_error history (List.length history - 1).

(** The identifier that [generateId] builds on host [h] in world [w]. *)
Definition generated_id (h : Host) (w : World) : string :=
  Number_toString (clock h (clock_reads w)) ++ "-"
  ++ js_substring (random36 h (random_draws w)) 2 11.

(** The identifier that [supplied || generate()] resolves to, and the world
    after it. *)
Definition resolved_id (supplied : option string) (h : Host) (w : World) : string :=
  match supplied with
  | Some s => if nonempty s then s else generated_id h w
  | None => generated_id h w
  end.

Definition after_id (supplied : option string) (w : World) : World :=
  match supplied with
  | Some s => if nonempty s then w else draw (tick w)
  | None => draw (tick w)
  end.

(** The value of [options?.parameters ? JSON.stringify(...) : undefined]. *)
Definition parametersStr_value (options : option ToolCallTracker.TrackOptions.t)
    : Completion (option string) :=
  match options with
  | Some o =>
      if truthy (ToolCallTracker.TrackOptions.parameters o)
      then JSON_stringify (ToolCallTracker.TrackOptions.parameters o)
      else Normal None
  | None => Normal None
  end.

(** The size that the wrapper reports for a result: the length of its JSON
    text, or nothing when there is no such text. *)
Definition response_size (result : JsValue) : option Z :=
  match JSON_stringify result with
  | Normal (Some s) => Some (Z.of_nat (String.length s))
  | _ => None
  end.

(** The report of a success and of a failure that the wrapper hands to the
    backend client, after it has read the clock. *)
Definition success_report (this : ToolCallTracker.t) (toolName callId : string)
    (parametersStr : option string) (startTime : Z) (result : JsValue) : M unit :=
  now <- Date_now ;;
  MimosAnalytics.trackSuccess (ToolCallTracker.analytics this) toolName
    (now - startTime)%Z
    (Some {| MimosAnalytics.SuccessOptions.callId := Some callId;
             MimosAnalytics.SuccessOptions.parameters := parametersStr;
             MimosAnalytics.SuccessOptions.responseSizeBytes :=
               response_size result |}).

Definition error_report (this : ToolCallTracker.t) (toolName callId : string)
    (parametersStr : option string) (errorType : ToolErrorType) (e : JsValue)
    : M unit :=
  _ <- Date_now ;;
  MimosAnalytics.trackError (ToolCallTracker.analytics this) toolName e
    (Some {| MimosAnalytics.ErrorOptions.callId := Some callId;
             MimosAnalytics.ErrorOptions.parameters := parametersStr;
             MimosAnalytics.ErrorOptions.errorType := Some errorType;
             MimosAnalytics.ErrorOptions.errorCode := None |}).

(** The rule of [wrap] for the parameters it records: one argument stands
    for itself, any other number of arguments is recorded as their list. *)
Definition captured (args : list JsValue) : JsValue :=
  match args with
  | [x] => x
  | _ => JsArray args
  end.

(** The sessions and calls of the examples. *)
Definition demoFrontend : MimosFrontendAnalytics.t :=
  MimosFrontendAnalytics.constructor
    (MimosFrontendConfig.mk "http://localhost:8080/" "project-1" None None).

Definition demoStart : SessionStartPayload.t :=
  SessionStartPayload.mk None SessionStartPayload.mobile SessionStartPayload.ios
    "17.0" "1.0.0" None None None None None.

Definition demoCalls : list MimosFrontendAnalytics.TrackingCall :=
  [ MimosFrontendAnalytics.TrackButtonClick "open" "A" None;
    MimosFrontendAnalytics.TrackLoadSuccess "A" 120 None;
    MimosFrontendAnalytics.TrackButtonClick "next" "A" None;
    MimosFrontendAnalytics.TrackButtonClick "buy" "B" None ].

Definition demoTracker : ToolCallTracker.t :=
  ToolCallTracker.constructor
    (MimosAnalytics.constructor
       (MimosAnalyticsConfig.mk "http://localhost:8080" "project-1" "key" None None)).

(** The warning of [endSession]. *)
Definition no_active_session : ConsoleEntry :=
  log_warn [ JsString "[MimosFrontendAnalytics] No active session to end" ].

(** The request that the frontend client sends with a given body. *)
Definition frontend_request (this : MimosFrontendAnalytics.t) (body : string)
    : Request.t :=
  {| Request.url := MimosFrontendAnalytics.frontendMetricsUrl this;
     Request.method := "POST";
     Request.headers :=
       [ ("Content-Type", "application/json");
         ("anon-project-id",
          MimosFrontendAnalytics.projectId (MimosFrontendAnalytics.config this)) ];
     Request.body := Some body |}.

(** The effect of a counted call on the instance: the counter goes up and
    the screen name is offered to the history. *)
Definition counted (this : MimosFrontendAnalytics.t) (screenName : string)
    : MimosFrontendAnalytics.t :=
  MimosFrontendAnalytics.updateScreenHistory
    (MimosFrontendAnalytics.incrementEventCount this) screenName.

Definition after_call (this : MimosFrontendAnalytics.t)
    (c : MimosFrontendAnalytics.TrackingCall) : MimosFrontendAnalytics.t :=
  match screen_of c with
  | Some s => counted this s
  | None => this
  end.

(** The number of screen names of a sequence that differ from the name just
    before them; the first one counts when it differs from [previous]. *)
Fixpoint transitions (previous : option string) (names : list string) : nat :=
  match names with
  | [] => 0
  | n :: rest =>
      (match previous with
       | Some p => if String.eqb p n then 0 else 1
       | None => 1
       end + transitions (Some n) rest)%nat
  end.

(** The last name of a sequence, after [previous]. *)
Fixpoint last_screen_of (previous : option string) (names : list string)
    : option string :=
  match names with
  | [] => previous
  | n :: rest => last_screen_of (Some n) rest
  end.

(** [k] slashes. *)
Fixpoint slashes (k : nat) : string :=
  match k with
  | O => ""
  | S k' => String "/" (slashes k')
  end.

Fixpoint ends_with_slash (s : string) : bool :=
  match s with
  | EmptyString => false
  | String c EmptyString => Ascii.eqb c "/"
  | String _ s' => ends_with_slash s'
  end.

(** In [url], exactly one slash stands between the base and [rest]: the
    text before that slash does not end with a slash. *)
Definition one_slash_before (rest url : string) : Prop :=
  exists base, url = base ++ "/" ++ rest /\ ends_with_slash base = false.

(** [JSON.stringify] does not throw on a value: it has a JSON text, or it is
    [undefined] and is left out. *)
Definition serialisable (v : JsValue) : Prop :=
  exists o, JSON_stringify v = Normal o.

(** The event type that each call of the frontend client sends. *)
Definition event_of (c : MimosFrontendAnalytics.TrackingCall) : FrontendEventType :=
  match c with
  | MimosFrontendAnalytics.TrackButtonClick _ _ _ => button_click
  | MimosFrontendAnalytics.TrackSwipe _ => motion_swipe
  | MimosFrontendAnalytics.TrackScroll _ => motion_scroll
  | MimosFrontendAnalytics.TrackElementFocus _ => element_focus
  | MimosFrontendAnalytics.TrackLoadSuccess _ _ _ => app_load_success
  | MimosFrontendAnalytics.TrackLoadError _ _ _ => app_load_error
  | MimosFrontendAnalytics.SendButtonClick _ => button_click
  | MimosFrontendAnalytics.SendSessionStart _ => session_start
  | MimosFrontendAnalytics.SendSessionEnd _ => session_end
  | MimosFrontendAnalytics.SendAppLoadSuccess _ => app_load_success
  | MimosFrontendAnalytics.SendAppLoadError _ => app_load_error
  end.

(** The value that a call writes as [error_message], when it writes one. *)
Definition failure_of (c : MimosFrontendAnalytics.TrackingCall) : option JsValue :=
  match c with
  | MimosFrontendAnalytics.TrackLoadError _ e _ =>
      Some (MimosFrontendAnalytics.errorMessage e)
  | MimosFrontendAnalytics.SendAppLoadError p =>
      Some (AppLoadErrorPayload.error_message p)
  | _ => None
  end.

(** The same for the backend client. *)
Definition backend_event_of (c : MimosAnalytics.TrackingCall) : BackendEventType :=
  match c with
  | MimosAnalytics.TrackToolCall _ => tool_call
  | MimosAnalytics.TrackSuccess _ _ _ => tool_call
  | MimosAnalytics.TrackToolError _ => tool_error
  | MimosAnalytics.TrackError _ _ _ => tool_error
  end.

Definition backend_failure_of (c : MimosAnalytics.TrackingCall) : option JsValue :=
  match c with
  | MimosAnalytics.TrackToolError p => Some (ToolErrorPayload.error_message p)
  | MimosAnalytics.TrackError _ e _ => Some (MimosAnalytics.errorMessage e)
  | _ => None
  end.

(** The request that the backend client sends with a given body. *)
Definition backend_request (this : MimosAnalytics.t) (body : string) : Request.t :=
  {| Request.url := MimosAnalytics.backendMetricsUrl this;
     Request.method := "POST";
     Request.headers :=
       [ ("Content-Type", "application/json");
         ("anon-project-id", MimosAnalytics.projectId (MimosAnalytics.config this));
         ("api-key", MimosAnalytics.apiKey (MimosAnalytics.config this)) ];
     Request.body := Some body |}.

(** What [sendMetric] writes on the console for each outcome of the
    delivery; [tag] is the name of the client in brackets. *)
Definition failure_log (tag : string) (e : JsValue) : list ConsoleEntry :=
  if is_AbortError e
  then [ log_error [ JsString (tag ++ " Request timed out") ] ]
  else [ log_error [ JsString (tag ++ " Failed to send metric:"); e ] ].

Definition delivery_log (tag : string) (outcome : FetchResult) : list ConsoleEntry :=
  match outcome with
  | Fulfilled response =>
      if Response.ok response then []
      else match Response.text response with
           | Normal errorBody =>
               [ log_error
                   [ JsString ((tag ++ " Failed to send metric: ")
                               ++ Number_toString (Response.status response)
                               ++ " " ++ errorBody) ] ]
           | Throw e => failure_log tag e
           end
  | Rejected reason => failure_log tag reason
  end.

(** The world after a delivery: one more request, and the console lines of
    its outcome. *)
Definition delivered (tag : string) (request : Request.t) (h : Host) (w : World)
    : World :=
  mkWorld (clock_reads w) (random_draws w) (network w ++ [request])
    (console w
     ++ delivery_log tag (network_outcome h (List.length (network w)) request))%list.

(** The world after [sendMetric] gave up on a payload that
    [JSON.stringify] rejected with [e]: no request, one console line. *)
Definition undelivered (tag : string) (e : JsValue) (w : World) : World :=
  mkWorld (clock_reads w) (random_draws w) (network w)
    (console w ++ failure_log tag e)%list.

(** [trackButtonClick] reads the clock before it sends; so do [trackSuccess]
    and [trackError]. *)
Definition before_send (c : MimosFrontendAnalytics.TrackingCall) (w : World) : World :=
  match c with
  | MimosFrontendAnalytics.TrackButtonClick _ _ _ => tick w
  | _ => w
  end.

Definition backend_before_send (c : MimosAnalytics.TrackingCall) (w : World) : World :=
  match c with
  | MimosAnalytics.TrackSuccess _ _ _ => tick w
  | MimosAnalytics.TrackError _ _ _ => tick w
  | _ => w
  end.

(** The failure value of a call, if it has one, is accepted by
    [JSON.stringify]. *)
Definition serialisable_failure (o : option JsValue) : Prop :=
  match o with
  | Some v => serialisable v
  | None => True
  end.

(** No two neighbours of a list are equal. *)
Fixpoint no_adjacent_repeats (names : list string) : Prop :=
  match names with
  | [] => True
  | a :: rest =>
      match rest with
      | [] => True
      | b :: _ => a <> b
      end /\ no_adjacent_repeats rest
  end.

(** What the instance keeps true of its counters: the history has no two
    equal neighbours, and it is no longer than the number of events. *)
Definition history_invariant (this : MimosFrontendAnalytics.t) : Prop :=
  no_adjacent_repeats (MimosFrontendAnalytics.screenHistory this)
  /\ (Z.of_nat (List.length (MimosFrontendAnalytics.screenHistory this))
      <= MimosFrontendAnalytics.eventCount this)%Z.

(** A computation never sets back the count of clock readings. *)
Definition clock_advances {A} (m : M A) : Prop :=
  forall h w, clock_reads w <= clock_reads (snd (m h w)).

(** The requests that a computation adds to the network on host [h], started
    in world [w], oldest first. *)
Definition issued {A} (m : M A) (h : Host) (w : World) (new : list Request.t)
    : Prop :=
  network (snd (m h w)) = (network w ++ new)%list.

(** The body of request [r] is the JSON text of an object with exactly the two
    properties [event_type], the given name, and [metric_value], and
    [metric_value] is a string: the JSON text of [payload]. *)
Definition carries (event_type : string) (payload : JsValue) (r : Request.t)
    : Prop :=
  exists metric_value,
    JSON_stringify payload = Normal (Some metric_value)
    /\ JSON_stringify
         (JsObject [ ("event_type", JsString event_type);
                     ("metric_value", JsString metric_value) ])
       = Normal (Request.body r).

(** The payload object of each call of the backend client: the caller's for
    [trackToolCall] and [trackToolError], and the object that [trackSuccess]
    and [trackError] build from their arguments, [now] being the clock reading
    that they write as [timestamp_ms]. *)
Definition backend_payload_of (c : MimosAnalytics.TrackingCall) (now : Z) : JsValue :=
  match c with
  | MimosAnalytics.TrackToolCall payload => ToolCallPayload.to_js payload
  | MimosAnalytics.TrackToolError payload => ToolErrorPayload.to_js payload
  | MimosAnalytics.TrackSuccess toolName durationMs options =>
      ToolCallPayload.to_js
        {| ToolCallPayload.tool_name := toolName;
           ToolCallPayload.duration_ms := durationMs;
           ToolCallPayload.status := success;
           ToolCallPayload.timestamp_ms := now;
           ToolCallPayload.call_id :=
             option_bind options MimosAnalytics.SuccessOptions.callId;
           ToolCallPayload.parameters :=
             option_bind options MimosAnalytics.SuccessOptions.parameters;
           ToolCallPayload.response_size_bytes :=
             option_bind options MimosAnalytics.SuccessOptions.responseSizeBytes |}
  | MimosAnalytics.TrackError toolName e options =>
      ToolErrorPayload.to_js
        {| ToolErrorPayload.tool_name := toolName;
           ToolErrorPayload.error_code :=
             MimosAnalytics.errorCode e
               (option_bind options MimosAnalytics.ErrorOptions.errorCode);
           ToolErrorPayload.error_message := MimosAnalytics.errorMessage e;
           ToolErrorPayload.error_type :=
             match option_bind options MimosAnalytics.ErrorOptions.errorType with
             | Some t => t
             | None => unknown
             end;
           ToolErrorPayload.timestamp_ms := now;
           ToolErrorPayload.call_id :=
             option_bind options MimosAnalytics.ErrorOptions.callId;
           ToolErrorPayload.parameters :=
             option_bind options MimosAnalytics.ErrorOptions.parameters;
           ToolErrorPayload.stack_trace := MimosAnalytics.stackTrace e |}
  end.

(** The same for the frontend client: the caller's payload for the methods
    that take one, and the object that [trackButtonClick], [trackLoadSuccess]
    and [trackLoadError] build; only [trackButtonClick] writes the clock
    reading. *)
Definition payload_of (c : MimosFrontendAnalytics.TrackingCall) (now : Z) : JsValue :=
  match c with
  | MimosFrontendAnalytics.TrackButtonClick buttonId screenName options =>
      ButtonClickPayload.to_js
        {| ButtonClickPayload.button_id := buttonId;
           ButtonClickPayload.screen_name := screenName;
           ButtonClickPayload.button_text :=
             option_bind options MimosFrontendAnalytics.ButtonClickOptions.buttonText;
           ButtonClickPayload.x_position :=
             option_bind options MimosFrontendAnalytics.ButtonClickOptions.x;
           ButtonClickPayload.y_position :=
             option_bind options MimosFrontendAnalytics.ButtonClickOptions.y;
           ButtonClickPayload.timestamp_ms := now |}
  | MimosFrontendAnalytics.TrackSwipe payload => MotionSwipePayload.to_js payload
  | MimosFrontendAnalytics.TrackScroll payload => MotionScrollPayload.to_js payload
  | MimosFrontendAnalytics.TrackElementFocus payload =>
      ElementFocusPayload.to_js payload
  | MimosFrontendAnalytics.TrackLoadSuccess screenName loadTimeMs options =>
      AppLoadSuccessPayload.to_js
        {| AppLoadSuccessPayload.screen_name := screenName;
           AppLoadSuccessPayload.load_time_ms := loadTimeMs;
           AppLoadSuccessPayload.is_cold_start :=
             match option_bind options
                     MimosFrontendAnalytics.LoadSuccessOptions.isColdStart with
             | Some b => b
             | None => false
             end;
           AppLoadSuccessPayload.network_type :=
             option_bind options MimosFrontendAnalytics.LoadSuccessOptions.networkType;
           AppLoadSuccessPayload.ttfb_ms :=
             option_bind options MimosFrontendAnalytics.LoadSuccessOptions.ttfbMs;
           AppLoadSuccessPayload.resource_count :=
             option_bind options MimosFrontendAnalytics.LoadSuccessOptions.resourceCount;
           AppLoadSuccessPayload.cache_hit :=
             option_bind options MimosFrontendAnalytics.LoadSuccessOptions.cacheHit |}
  | MimosFrontendAnalytics.TrackLoadError screenName e options =>
      AppLoadErrorPayload.to_js
        {| AppLoadErrorPayload.screen_name := screenName;
           AppLoadErrorPayload.error_code :=
             MimosFrontendAnalytics.errorCode e
               (option_bind options MimosFrontendAnalytics.LoadErrorOptions.errorCode);
           AppLoadErrorPayload.error_message := MimosFrontendAnalytics.errorMessage e;
           AppLoadErrorPayload.error_type :=
             match option_bind options
                     MimosFrontendAnalytics.LoadErrorOptions.errorType with
             | Some t => t
             | None => LoadErrorType.unknown
             end;
           AppLoadErrorPayload.http_status :=
             option_bind options MimosFrontendAnalytics.LoadErrorOptions.httpStatus;
           AppLoadErrorPayload.retry_count :=
             option_bind options MimosFrontendAnalytics.LoadErrorOptions.retryCount;
           AppLoadErrorPayload.stack_trace := MimosFrontendAnalytics.stackTrace e |}
  | MimosFrontendAnalytics.SendButtonClick payload => ButtonClickPayload.to_js payload
  | MimosFrontendAnalytics.SendSessionStart payload =>
      SessionStartPayload.to_js payload
  | MimosFrontendAnalytics.SendSessionEnd payload => SessionEndPayload.to_js payload
  | MimosFrontendAnalytics.SendAppLoadSuccess payload =>
      AppLoadSuccessPayload.to_js payload
  | MimosFrontendAnalytics.SendAppLoadError payload =>
      AppLoadErrorPayload.to_js payload
  end.

(** The payload of the [session_end] event that [endSession] builds for the
    session [id] started at [start], when the clock reads [now]. *)
Definition session_end_payload_of (this : MimosFrontendAnalytics.t)
    (id : string) (start : Z) (exitReason : ExitReason.t) (now : Z) : JsValue :=
  let history := MimosFrontendAnalytics.screenHistory this in
  SessionEndPayload.to_js
    {| SessionEndPayload.session_id := id;
       SessionEndPayload.session_duration_ms := (now - start)%Z;
       SessionEndPayload.exit_reason := exitReason;
       SessionEndPayload.screens_visited := Z.of_nat (List.length history);
       SessionEndPayload.total_events :=
         Some (MimosFrontendAnalytics.eventCount this);
       SessionEndPayload.last_screen := last_entry history |}.

(** A host and a world to run examples in. *)
Definition demoHost : Host :=
  mkHost (fun n => 1700000000000 + Z.of_nat n)%Z (fun _ => "0.4fzyo82mvyr")
    (fun _ _ => Fulfilled (Response.mk true 200 (Normal "ok"))).

Definition emptyWorld : World := mkWorld 0 0 [] [].

(* ================================================================== *)
(** * Strings *)

Lemma append_cancel_l (a b c : string) : a ++ b = a ++ c -> b = c.
Proof.
  induction a as [|x a IH]; simpl; intros H; [exact H|].
  injection H as H. now apply IH.
Qed.

Lemma append_assoc (a b c : string) : (a ++ b) ++ c = a ++ (b ++ c).
Proof. induction a as [|x a IH]; simpl; [reflexivity | now rewrite IH]. Qed.

Lemma append_empty_r (a : string) : a ++ "" = a.
Proof. induction a as [|x a IH]; simpl; [reflexivity | now rewrite IH]. Qed.

Lemma length_append (a b : string) :
  String.length (a ++ b) = String.length a + String.length b.
Proof. induction a as [|x a IH]; simpl; [reflexivity | now rewrite IH]. Qed.

Lemma nonempty_append (a b : string) :
  nonempty (a ++ b) = nonempty a || nonempty b.
Proof. destruct a; reflexivity. Qed.

Lemma prefix_spec (t s : string) :
  String.prefix t s = true <-> exists after, s = t ++ after.
Proof.
  revert s; induction t as [|a t IH]; intros s.
  - destruct s; simpl; split; intros; eauto.
  - destruct s as [|b s]; simpl.
    + split; [discriminate | intros [q Hq]; discriminate].
    + destruct (ascii_dec a b) as [->|Hab].
      * rewrite IH. split; intros [q Hq]; exists q; [now rewrite Hq | now injection Hq].
      * split; [discriminate | intros [q Hq]; injection Hq; congruence].
Qed.

Lemma includes_spec (s t : string) : includes s t = true <-> Substring t s.
Proof.
  induction s as [|c s IH].
  - destruct t as [|a t]; simpl.
    + split; [intros _ | reflexivity]. now exists "", "".
    + split; [discriminate | intros [p [q H]]].
      destruct p; discriminate.
  - change (includes (String c s) t)
      with (if String.prefix t (String c s) then true else includes s t).
    destruct (String.prefix t (String c s)) eqn:Hp.
    + split; [intros _ | reflexivity].
      apply prefix_spec in Hp. destruct Hp as [q Hq]. now exists "", q.
    + rewrite IH. split.
      * intros [p [q H]]. exists (String c p), q. simpl. now rewrite H.
      * intros [p [q H]]. destruct p as [|c' p].
        -- simpl in H.
           assert (String.prefix t (String c s) = true) by (apply prefix_spec; eauto).
           congruence.
        -- simpl in H. injection H as _ H. now exists p, q.
Qed.

Lemma includes_false (s t : string) : includes s t = false <-> ~ Substring t s.
Proof.
  rewrite <- includes_spec. destruct (includes s t); split; congruence.
Qed.

Lemma lower_char_idempotent (c : ascii) : lower_char (lower_char c) = lower_char c.
Proof.
  destruct c as [[] [] [] [] [] [] [] []]; reflexivity.
Qed.

Lemma same_letter_lower_char (a b : ascii) :
  same_letter a b -> lower_char a = lower_char b.
Proof.
  intros [c | c _ | c _]; auto using lower_char_idempotent.
Qed.

Lemma same_ignoring_case_toLowerCase (s t : string) :
  same_ignoring_case s t -> toLowerCase s = toLowerCase t.
Proof.
  induction 1 as [|a b s t Hab _ IH]; simpl; [reflexivity|].
  now rewrite IH, (same_letter_lower_char a b Hab).
Qed.

(* ================================================================== *)
(** * Error classification *)

Lemma timeout_terms_test (name message : string) :
  includes name "timeout" || includes message "timeout"
  || includes message "timed out" = true
  <-> timeout_terms name message.
Proof.
  unfold timeout_terms. rewrite !orb_true_iff, !includes_spec. tauto.
Qed.

Lemma validation_terms_test (name message : string) :
  includes name "validation" || includes message "invalid"
  || includes message "required" = true
  <-> validation_terms name message.
Proof.
  unfold validation_terms. rewrite !orb_true_iff, !includes_spec. tauto.
Qed.

Lemma rate_limit_terms_test (message : string) :
  includes message "rate limit" || includes message "too many requests"
  || includes message "429" = true
  <-> rate_limit_terms message.
Proof.
  unfold rate_limit_terms. rewrite !orb_true_iff, !includes_spec. tauto.
Qed.

Lemma network_terms_test (message : string) :
  includes message "network" || includes message "fetch"
  || includes message "econnrefused" = true
  <-> network_terms message.
Proof.
  unfold network_terms. rewrite !orb_true_iff, !includes_spec. tauto.
Qed.

Lemma inferErrorType_Error (err : Error.t) :
  ToolCallTracker.inferErrorType (JsErrorObject err)
  = let message := toLowerCase (Error.message err) in
    let name := toLowerCase (Error.name err) in
    if includes name "timeout" || includes message "timeout"
       || includes message "timed out" then timeout
    else if includes name "validation" || includes message "invalid"
            || includes message "required" then validation
    else if includes message "rate limit" || includes message "too many requests"
            || includes message "429" then rate_limit
    else if includes message "network" || includes message "fetch"
            || includes message "econnrefused" then external
    else internal.
Proof. reflexivity. Qed.

Lemma inferErrorType_lower_case (e1 e2 : Error.t) :
  toLowerCase (Error.name e1) = toLowerCase (Error.name e2) ->
  toLowerCase (Error.message e1) = toLowerCase (Error.message e2) ->
  ToolCallTracker.inferErrorType (JsErrorObject e1)
  = ToolCallTracker.inferErrorType (JsErrorObject e2).
Proof.
  intros Hn Hm. unfold ToolCallTracker.inferErrorType. simpl.
  now rewrite Hn, Hm.
Qed.

(** Case analysis on a test [b] that decides the presence of terms [P]. *)
Ltac decide_terms H :=
  match type of H with
  | (?b = true <-> ?P) =>
      let X := fresh "X" in
      destruct b;
      [ assert P by (apply H; reflexivity)
      | assert (~ P) by (intro X; apply H in X; discriminate X) ];
      clear H
  end.

(** C1. The classification of a failure by [inferErrorType]: a value that is
    not an [Error] is [unknown]; for an [Error], the lower-cased name and
    message are searched for the timeout terms, then the validation terms,
    then the rate-limit terms, then the network terms, and the first group
    that is found decides; when none is found the class is [internal].  The
    class is a function of the name and the message alone and does not change
    when letters change case.  The five messages of the specification and a
    thrown string are classified as stated there. *)
Theorem inferErrorType_classification :
  (forall v, instanceof_Error v = None ->
     ToolCallTracker.inferErrorType v = unknown) /\
  (forall err,
     let name := toLowerCase (Error.name err) in
     let message := toLowerCase (Error.message err) in
     let class := ToolCallTracker.inferErrorType (JsErrorObject err) in
     (timeout_terms name message -> class = timeout) /\
     (~ timeout_terms name message -> validation_terms name message ->
      class = validation) /\
     (~ timeout_terms name message -> ~ validation_terms name message ->
      rate_limit_terms message -> class = rate_limit) /\
     (~ timeout_terms name message -> ~ validation_terms name message ->
      ~ rate_limit_terms message -> network_terms message ->
      class = external) /\
     (~ timeout_terms name message -> ~ validation_terms name message ->
      ~ rate_limit_terms message -> ~ network_terms message ->
      class = internal)) /\
  (forall e1 e2,
     same_ignoring_case (Error.name e1) (Error.name e2) ->
     same_ignoring_case (Error.message e1) (Error.message e2) ->
     ToolCallTracker.inferErrorType (JsErrorObject e1)
     = ToolCallTracker.inferErrorType (JsErrorObject e2)) /\
  ToolCallTracker.inferErrorType (new_Error "Request timed out") = timeout /\
  ToolCallTracker.inferErrorType (new_Error "Invalid input required") = validation /\
  ToolCallTracker.inferErrorType (new_Error "429 too many requests") = rate_limit /\
  ToolCallTracker.inferErrorType (new_Error "fetch failed: ECONNREFUSED") = external /\
  ToolCallTracker.inferErrorType (new_Error "boom") = internal /\
  ToolCallTracker.inferErrorType (JsString "boom") = unknown.
Proof.
  split; [|split; [|split]].
  - intros v Hv. unfold ToolCallTracker.inferErrorType. now rewrite Hv.
  - intros err. rewrite inferErrorType_Error. cbv zeta.
    generalize (toLowerCase (Error.name err)) as name.
    generalize (toLowerCase (Error.message err)) as message.
    intros message name.
    pose proof (timeout_terms_test name message) as Ht.
    pose proof (validation_terms_test name message) as Hv.
    pose proof (rate_limit_terms_test message) as Hr.
    pose proof (network_terms_test message) as Hn.
    decide_terms Ht; [ repeat split; intros; first [reflexivity | contradiction] |].
    decide_terms Hv; [ repeat split; intros; first [reflexivity | contradiction] |].
    decide_terms Hr; [ repeat split; intros; first [reflexivity | contradiction] |].
    decide_terms Hn; repeat split; intros; first [reflexivity | contradiction].
  - intros e1 e2 Hn Hm.
    apply inferErrorType_lower_case; now apply same_ignoring_case_toLowerCase.
  - repeat split; reflexivity.
Qed.

(** An error whose message is [REQUEST TIMED OUT], in capitals, has the
    timeout terms in its lower-cased message and is classified [timeout]. *)
Lemma inferErrorType_classification_witness :
  ToolCallTracker.inferErrorType (new_Error "REQUEST TIMED OUT") = timeout.
Proof.
  apply (proj1 (proj1 (proj2 inferErrorType_classification)
                  (Error.mk "Error" "REQUEST TIMED OUT" None "Error"))).
  right; right. exists "request ", "". reflexivity.
Defined.

(* ================================================================== *)
(** * Reasoning about computations *)

Lemma bind_Normal {A B} (m : M A) (k : A -> M B) h w a w' :
  m h w = (Normal a, w') -> bind m k h w = k a h w'.
Proof. unfold bind. now intros ->. Qed.

Lemma bind_Throw {A B} (m : M A) (k : A -> M B) h w e w' :
  m h w = (Throw e, w') -> bind m k h w = (Throw e, w').
Proof. unfold bind. now intros ->. Qed.

Lemma quiet_ret {A} (a : A) : quiet (ret a).
Proof. intros h w. now exists a, w. Qed.

Lemma quiet_bind {A B} (m : M A) (k : A -> M B) :
  quiet m -> (forall a, quiet (k a)) -> quiet (bind m k).
Proof.
  intros Hm Hk h w. destruct (Hm h w) as (a & w1 & E1 & N1).
  destruct (Hk a h w1) as (b & w2 & E2 & N2).
  exists b, w2. rewrite (bind_Normal _ _ _ _ _ _ E1). split; congruence.
Qed.

Lemma quiet_Date_now : quiet Date_now.
Proof. intros h w. now eexists _, _. Qed.

Lemma quiet_random : quiet Math_random_toString36.
Proof. intros h w. now eexists _, _. Qed.

Lemma quiet_console_warn args : quiet (console_warn args).
Proof. intros h w. now eexists _, _. Qed.

Lemma quiet_generateId : quiet generateId.
Proof.
  unfold generateId.
  apply quiet_bind; [apply quiet_Date_now | intros now].
  apply quiet_bind; [apply quiet_random | intros r]. apply quiet_ret.
Qed.

Lemma quiet_or_generate supplied : quiet (or_generate supplied generateId).
Proof.
  unfold or_generate. destruct supplied as [s|]; [destruct (nonempty s)|];
    auto using quiet_ret, quiet_generateId.
Qed.

Create HintDb quiet.

#[local] Hint Resolve quiet_ret quiet_bind quiet_Date_now quiet_random
  quiet_console_warn quiet_generateId quiet_or_generate : quiet.

Lemma completes_try_catch {A} (body : M A) (handler : JsValue -> M A) :
  (forall e, completes (handler e)) -> completes (try_catch body handler).
Proof.
  intros Hh h w. unfold try_catch. destruct (body h w) as [[a|e] w1].
  - now exists a.
  - apply Hh.
Qed.

Lemma completes_console_error args : completes (console_error args).
Proof. intros h w. now exists tt. Qed.

(** A computation whose value is [unit] and that completes normally. *)
Lemma completes_unit (m : M unit) h w :
  completes m -> m h w = (Normal tt, snd (m h w)).
Proof.
  intros Hm. destruct (Hm h w) as [[] E]. destruct (m h w) as [c w1].
  simpl in *. now subst.
Qed.

(* ================================================================== *)
(** * [JSON.stringify] on objects *)

Lemma JSON_stringify_object props o :
  JSON_stringify (JsObject props) = Normal o -> exists s, o = Some s.
Proof.
  simpl. intros H.
  match type of H with
  | match ?x with _ => _ end = _ => destruct x
  end; inversion H; eauto.
Qed.

Lemma JSON_stringify_envelope event_type metric_value :
  exists body,
    JSON_stringify
      (JsObject [ ("event_type", JsString event_type);
                  ("metric_value", JsString metric_value) ])
    = Normal (Some body).
Proof. eexists. reflexivity. Qed.

(* ================================================================== *)
(** * Delivery: [sendMetric] of both clients *)

Lemma backend_sendMetric_completes this request :
  completes (MimosAnalytics.sendMetric this request).
Proof.
  unfold MimosAnalytics.sendMetric. apply completes_try_catch.
  intros e. destruct (is_AbortError e); apply completes_console_error.
Qed.

Lemma frontend_sendMetric_completes this eventType payload :
  completes (MimosFrontendAnalytics.sendMetric this eventType payload).
Proof.
  unfold MimosFrontendAnalytics.sendMetric.
  destruct (MimosFrontendAnalytics.disabled _).
  - intros h w. now exists tt.
  - apply completes_try_catch.
    intros e. destruct (is_AbortError e); apply completes_console_error.
Qed.

Lemma frontend_sendMetric_disabled this eventType payload :
  MimosFrontendAnalytics.disabled (MimosFrontendAnalytics.config this) = true ->
  MimosFrontendAnalytics.sendMetric this eventType payload = ret tt.
Proof. unfold MimosFrontendAnalytics.sendMetric. now intros ->. Qed.

(* ================================================================== *)
(** * The backend client *)

Lemma backend_call_disabled this c :
  MimosAnalytics.disabled (MimosAnalytics.config this) = true ->
  quiet (MimosAnalytics.call this c).
Proof.
  intros Hd. destruct c; simpl;
    unfold MimosAnalytics.trackSuccess, MimosAnalytics.trackError,
      MimosAnalytics.trackToolCall, MimosAnalytics.trackToolError;
    rewrite Hd; auto with quiet.
Qed.

(* ================================================================== *)
(** * The frontend client: what a call does to the session *)

Lemma config_incrementEventCount this :
  MimosFrontendAnalytics.config (MimosFrontendAnalytics.incrementEventCount this)
  = MimosFrontendAnalytics.config this.
Proof. reflexivity. Qed.

Lemma config_updateScreenHistory this s :
  MimosFrontendAnalytics.config (MimosFrontendAnalytics.updateScreenHistory this s)
  = MimosFrontendAnalytics.config this.
Proof.
  unfold MimosFrontendAnalytics.updateScreenHistory.
  destruct (nth_error _ _); [destruct (String.eqb _ _)|]; reflexivity.
Qed.

Lemma bind_Date_now {B} (k : Z -> M B) h w :
  bind Date_now k h w = k (clock h (clock_reads w)) h (tick w).
Proof. reflexivity. Qed.

Lemma then_ret {A} (m : M unit) (a : A) h w :
  completes m -> bind m (fun _ => ret a) h w = (Normal a, snd (m h w)).
Proof.
  intros Hm. unfold bind. rewrite (completes_unit m h w Hm). reflexivity.
Qed.

Lemma frontend_call_result this c h w :
  MimosFrontendAnalytics.call this c h w
  = (Normal (after_call this c), snd (MimosFrontendAnalytics.call this c h w)).
Proof.
  destruct c; simpl;
    unfold MimosFrontendAnalytics.trackButtonClick, MimosFrontendAnalytics.trackSwipe,
      MimosFrontendAnalytics.trackScroll, MimosFrontendAnalytics.trackElementFocus,
      MimosFrontendAnalytics.trackLoadSuccess, MimosFrontendAnalytics.trackLoadError,
      MimosFrontendAnalytics.sendButtonClick, MimosFrontendAnalytics.sendSessionStart,
      MimosFrontendAnalytics.sendSessionEnd, MimosFrontendAnalytics.sendAppLoadSuccess,
      MimosFrontendAnalytics.sendAppLoadError;
    rewrite ?bind_Date_now;
    rewrite then_ret by apply frontend_sendMetric_completes; reflexivity.
Qed.

Lemma frontend_call_disabled this c :
  MimosFrontendAnalytics.disabled (MimosFrontendAnalytics.config this) = true ->
  quiet (MimosFrontendAnalytics.call this c).
Proof.
  intros Hd.
  assert (Hc : forall s,
    MimosFrontendAnalytics.disabled (MimosFrontendAnalytics.config (counted this s))
    = true).
  { intros s. unfold counted.
    now rewrite config_updateScreenHistory, config_incrementEventCount. }
  unfold counted in Hc.
  destruct c; simpl;
    unfold MimosFrontendAnalytics.trackButtonClick, MimosFrontendAnalytics.trackSwipe,
      MimosFrontendAnalytics.trackScroll, MimosFrontendAnalytics.trackElementFocus,
      MimosFrontendAnalytics.trackLoadSuccess, MimosFrontendAnalytics.trackLoadError,
      MimosFrontendAnalytics.sendButtonClick, MimosFrontendAnalytics.sendSessionStart,
      MimosFrontendAnalytics.sendSessionEnd, MimosFrontendAnalytics.sendAppLoadSuccess,
      MimosFrontendAnalytics.sendAppLoadError;
    rewrite ?(frontend_sendMetric_disabled _ _ _ (Hc _)),
            ?(frontend_sendMetric_disabled _ _ _ Hd);
    repeat first [ apply quiet_ret
                 | rewrite (frontend_sendMetric_disabled _ _ _ (Hc _))
                 | apply quiet_bind; [| intros ]
                 | apply quiet_Date_now ].
Qed.

Lemma startSession_disabled this payload :
  MimosFrontendAnalytics.disabled (MimosFrontendAnalytics.config this) = true ->
  quiet (MimosFrontendAnalytics.startSession this payload).
Proof.
  intros Hd. unfold MimosFrontendAnalytics.startSession.
  apply quiet_bind; [apply quiet_or_generate | intros id].
  apply quiet_bind; [apply quiet_Date_now | intros now].
  rewrite frontend_sendMetric_disabled by exact Hd. auto with quiet.
Qed.

Lemma endSession_disabled this exitReason :
  MimosFrontendAnalytics.disabled (MimosFrontendAnalytics.config this) = true ->
  quiet (MimosFrontendAnalytics.endSession this exitReason).
Proof.
  intros Hd. unfold MimosFrontendAnalytics.endSession.
  destruct (MimosFrontendAnalytics.activeSession this) as [[id start]|].
  - apply quiet_bind; [apply quiet_Date_now | intros now].
    rewrite frontend_sendMetric_disabled by exact Hd. auto with quiet.
  - auto with quiet.
Qed.

(** C4. With [disabled] set in the configuration, no tracking method of the
    backend client ([trackToolCall], [trackToolError], [trackSuccess],
    [trackError]) and no method of the frontend client ([startSession],
    [endSession] and the eleven tracking and raw sending methods) issues a
    request: on every host and in every world the call completes normally and
    leaves the list of requests as it was. *)
Theorem disabled_no_network_call :
  (forall this c,
     MimosAnalytics.disabled (MimosAnalytics.config this) = true ->
     quiet (MimosAnalytics.call this c)) /\
  (forall this,
     MimosFrontendAnalytics.disabled (MimosFrontendAnalytics.config this) = true ->
     (forall payload, quiet (MimosFrontendAnalytics.startSession this payload)) /\
     (forall exitReason, quiet (MimosFrontendAnalytics.endSession this exitReason)) /\
     (forall c, quiet (MimosFrontendAnalytics.call this c))).
Proof.
  split.
  - intros this c Hd. now apply backend_call_disabled.
  - intros this Hd. repeat split; intros.
    + now apply startSession_disabled.
    + now apply endSession_disabled.
    + now apply frontend_call_disabled.
Qed.

(** A disabled backend client asked to report an error: the call completes
    and the network stays empty. *)
Lemma disabled_no_network_call_witness :
  exists a w',
    MimosAnalytics.call
      (MimosAnalytics.constructor
         (MimosAnalyticsConfig.mk "http://localhost:8080" "p" "k" None (Some true)))
      (MimosAnalytics.TrackError "search" (new_Error "boom") None)
      demoHost emptyWorld = (Normal a, w')
    /\ network w' = network emptyWorld.
Proof.
  apply (proj1 disabled_no_network_call
           (MimosAnalytics.constructor
              (MimosAnalyticsConfig.mk "http://localhost:8080" "p" "k" None (Some true)))
           (MimosAnalytics.TrackError "search" (new_Error "boom") None)
           eq_refl demoHost emptyWorld).
Defined.

(* ================================================================== *)
(** * Sessions *)

Lemma or_generate_run supplied h w :
  or_generate supplied generateId h w
  = (Normal (resolved_id supplied h w), after_id supplied w).
Proof.
  unfold or_generate, resolved_id, after_id.
  destruct supplied as [s|]; [destruct (nonempty s)|]; reflexivity.
Qed.

Lemma generated_id_nonempty h w : nonempty (generated_id h w) = true.
Proof.
  unfold generated_id. rewrite nonempty_append. simpl. apply orb_true_r.
Qed.

Lemma resolved_id_nonempty supplied h w : nonempty (resolved_id supplied h w) = true.
Proof.
  unfold resolved_id. destruct supplied as [s|]; [destruct (nonempty s) eqn:E|];
    auto using generated_id_nonempty.
Qed.

Lemma network_after_id supplied w : network (after_id supplied w) = network w.
Proof.
  unfold after_id. destruct supplied as [s|]; [destruct (nonempty s)|]; reflexivity.
Qed.

Lemma startSession_run this payload h w :
  let supplied := SessionStartPayload.session_id payload in
  let id := resolved_id supplied h w in
  let w1 := after_id supplied w in
  let this1 :=
    MimosFrontendAnalytics.mk (MimosFrontendAnalytics.config this)
      (MimosFrontendAnalytics.frontendMetricsUrl this)
      (Some id) (Some (clock h (clock_reads w1))) [] 0%Z in
  MimosFrontendAnalytics.startSession this payload h w
  = (Normal (id, this1),
     snd (MimosFrontendAnalytics.sendMetric this1 session_start
            (SessionStartPayload.with_session_id payload id) h (tick w1))).
Proof.
  intros supplied id w1 this1. unfold MimosFrontendAnalytics.startSession.
  unfold MimosFrontendAnalytics.generateSessionId.
  rewrite (bind_Normal _ _ _ _ _ _ (or_generate_run supplied h w)).
  rewrite bind_Date_now.
  now rewrite then_ret by apply frontend_sendMetric_completes.
Qed.

Lemma endSession_inactive this exitReason h w :
  MimosFrontendAnalytics.activeSession this = None ->
  MimosFrontendAnalytics.endSession this exitReason h w
  = (Normal this, logged no_active_session w).
Proof.
  intros Hs. unfold MimosFrontendAnalytics.endSession. now rewrite Hs.
Qed.

Lemma endSession_active this exitReason h w id start :
  MimosFrontendAnalytics.activeSession this = Some (id, start) ->
  let history := MimosFrontendAnalytics.screenHistory this in
  MimosFrontendAnalytics.endSession this exitReason h w
  = (Normal
       (MimosFrontendAnalytics.mk (MimosFrontendAnalytics.config this)
          (MimosFrontendAnalytics.frontendMetricsUrl this) None None
          history (MimosFrontendAnalytics.eventCount this)),
     snd (MimosFrontendAnalytics.sendMetric this session_end
            (SessionEndPayload.to_js
               {| SessionEndPayload.session_id := id;
                  SessionEndPayload.session_duration_ms :=
                    (clock h (clock_reads w) - start)%Z;
                  SessionEndPayload.exit_reason := exitReason;
                  SessionEndPayload.screens_visited := Z.of_nat (List.length history);
                  SessionEndPayload.total_events :=
                    Some (MimosFrontendAnalytics.eventCount this);
                  SessionEndPayload.last_screen := last_entry history |})
            h (tick w))).
Proof.
  intros Hs history. unfold MimosFrontendAnalytics.endSession. rewrite Hs.
  rewrite bind_Date_now.
  now rewrite then_ret by apply frontend_sendMetric_completes.
Qed.

(** C5. [endSession] without an active session: for an instance on which no
    session was started, and for an instance whose session was ended, and in
    general whenever the test of [endSession] finds no session, the call
    completes normally, returns the instance unchanged, and changes the world
    by one warning on the console: no request is issued. *)
Theorem endSession_without_session :
  (forall c exitReason h w,
     MimosFrontendAnalytics.endSession
       (MimosFrontendAnalytics.constructor c) exitReason h w
     = (Normal (MimosFrontendAnalytics.constructor c),
        logged no_active_session w)) /\
  (forall this reason1 reason2 h w,
     exists this1 w1,
       MimosFrontendAnalytics.endSession this reason1 h w = (Normal this1, w1) /\
       MimosFrontendAnalytics.endSession this1 reason2 h w1
       = (Normal this1, logged no_active_session w1)) /\
  (forall this exitReason h w,
     MimosFrontendAnalytics.activeSession this = None ->
     MimosFrontendAnalytics.endSession this exitReason h w
     = (Normal this, logged no_active_session w)).
Proof.
  split; [|split].
  - intros. now apply endSession_inactive.
  - intros this reason1 reason2 h w.
    destruct (MimosFrontendAnalytics.activeSession this) as [[id start]|] eqn:Hs.
    + eexists _, _. split.
      * apply (endSession_active _ _ _ _ _ _ Hs).
      * now apply endSession_inactive.
    + exists this, (logged no_active_session w). split.
      * now apply endSession_inactive.
      * now apply endSession_inactive.
  - intros. now apply endSession_inactive.
Qed.

(** An instance whose session has no identifier, as the constructor and
    [endSession] leave it, with events counted during an earlier session. *)
Lemma endSession_without_session_witness :
  let this :=
    MimosFrontendAnalytics.mk
      (MimosFrontendAnalytics.mkConfig "http://localhost:8080" "p" 5000 false)
      "http://localhost:8080/v1/frontend-metrics/write/" None None ["home"] 3 in
  MimosFrontendAnalytics.endSession this ExitReason.user_exit demoHost emptyWorld
  = (Normal this, logged no_active_session emptyWorld).
Proof.
  intros this.
  apply (proj2 (proj2 endSession_without_session) this ExitReason.user_exit
           demoHost emptyWorld eq_refl).
Defined.

(* ================================================================== *)
(** * The screen history and the event counter *)

Lemma last_entry_app (history : list string) (s : string) :
  last_entry (history ++ [s]) = Some s.
Proof.
  unfold last_entry. rewrite length_app. simpl.
  replace (List.length history + 1 - 1) with (List.length history) by lia.
  rewrite nth_error_app2 by lia. now rewrite Nat.sub_diag.
Qed.

Lemma screenHistory_counted this s :
  MimosFrontendAnalytics.screenHistory (counted this s)
  = match last_entry (MimosFrontendAnalytics.screenHistory this) with
    | Some last =>
        if String.eqb last s then MimosFrontendAnalytics.screenHistory this
        else (MimosFrontendAnalytics.screenHistory this ++ [s])%list
    | None => (MimosFrontendAnalytics.screenHistory this ++ [s])%list
    end.
Proof.
  unfold counted, MimosFrontendAnalytics.updateScreenHistory, last_entry. simpl.
  destruct (nth_error _ _); [destruct (String.eqb _ _)|]; reflexivity.
Qed.

Lemma eventCount_counted this s :
  MimosFrontendAnalytics.eventCount (counted this s)
  = (MimosFrontendAnalytics.eventCount this + 1)%Z.
Proof.
  unfold counted, MimosFrontendAnalytics.updateScreenHistory. simpl.
  destruct (nth_error _ _); [destruct (String.eqb _ _)|]; reflexivity.
Qed.

Lemma session_counted this s :
  MimosFrontendAnalytics.config (counted this s) = MimosFrontendAnalytics.config this
  /\ MimosFrontendAnalytics.frontendMetricsUrl (counted this s)
     = MimosFrontendAnalytics.frontendMetricsUrl this
  /\ MimosFrontendAnalytics.sessionId (counted this s)
     = MimosFrontendAnalytics.sessionId this
  /\ MimosFrontendAnalytics.sessionStartTime (counted this s)
     = MimosFrontendAnalytics.sessionStartTime this.
Proof.
  unfold counted, MimosFrontendAnalytics.updateScreenHistory. simpl.
  destruct (nth_error _ _); [destruct (String.eqb _ _)|]; auto.
Qed.

Lemma last_entry_counted this s :
  last_entry (MimosFrontendAnalytics.screenHistory (counted this s)) = Some s.
Proof.
  rewrite screenHistory_counted.
  destruct (last_entry (MimosFrontendAnalytics.screenHistory this)) as [last|] eqn:E.
  - destruct (String.eqb_spec last s) as [->|_]; [exact E | apply last_entry_app].
  - apply last_entry_app.
Qed.

Lemma length_counted this s :
  List.length (MimosFrontendAnalytics.screenHistory (counted this s))
  = List.length (MimosFrontendAnalytics.screenHistory this)
    + transitions (last_entry (MimosFrontendAnalytics.screenHistory this)) [s].
Proof.
  rewrite screenHistory_counted. simpl.
  destruct (last_entry (MimosFrontendAnalytics.screenHistory this)) as [last|].
  - destruct (String.eqb last s); [lia | rewrite length_app; simpl; lia].
  - rewrite length_app; simpl; lia.
Qed.

Lemma transitions_cons previous s rest :
  transitions previous (s :: rest)
  = transitions previous [s] + transitions (Some s) rest.
Proof. simpl. lia. Qed.

(** What a sequence of calls leaves in the instance. *)
Lemma after_calls cs : forall this,
  let this' := fold_left after_call cs this in
  let history := MimosFrontendAnalytics.screenHistory this in
  MimosFrontendAnalytics.config this' = MimosFrontendAnalytics.config this
  /\ MimosFrontendAnalytics.frontendMetricsUrl this'
     = MimosFrontendAnalytics.frontendMetricsUrl this
  /\ MimosFrontendAnalytics.sessionId this' = MimosFrontendAnalytics.sessionId this
  /\ MimosFrontendAnalytics.sessionStartTime this'
     = MimosFrontendAnalytics.sessionStartTime this
  /\ MimosFrontendAnalytics.eventCount this'
     = (MimosFrontendAnalytics.eventCount this
        + Z.of_nat (List.length (screens cs)))%Z
  /\ List.length (MimosFrontendAnalytics.screenHistory this')
     = List.length history + transitions (last_entry history) (screens cs)
  /\ last_entry (MimosFrontendAnalytics.screenHistory this')
     = last_screen_of (last_entry history) (screens cs).
Proof.
  induction cs as [|c cs IH]; intros this; cbv zeta.
  - simpl. repeat split; lia.
  - simpl fold_left. simpl screens.
    change (after_call this c)
      with (match screen_of c with Some s => counted this s | None => this end).
    destruct (screen_of c) as [s|]; [|apply IH].
    specialize (IH (counted this s)). cbv zeta in IH.
    destruct IH as (Hc & Hu & Hi & Ht & He & Hl & Hlast).
    destruct (session_counted this s) as (Hc' & Hu' & Hi' & Ht').
    rewrite Hc, Hu, Hi, Ht, He, Hl, Hlast.
    rewrite last_entry_counted, eventCount_counted, length_counted.
    rewrite (transitions_cons _ s (screens cs)).
    repeat split; auto; try lia.
    simpl List.length. lia.
Qed.

Lemma calls_run cs : forall this h w,
  MimosFrontendAnalytics.calls this cs h w
  = (Normal (fold_left after_call cs this),
     snd (MimosFrontendAnalytics.calls this cs h w)).
Proof.
  induction cs as [|c cs IH]; intros this h w; [reflexivity|].
  simpl MimosFrontendAnalytics.calls.
  rewrite (bind_Normal _ _ _ _ _ _ (frontend_call_result this c h w)).
  apply IH.
Qed.

Lemma frontend_sendMetric_enabled this eventType payload metric_value body h w :
  MimosFrontendAnalytics.disabled (MimosFrontendAnalytics.config this) = false ->
  JSON_stringify payload = Normal (Some metric_value) ->
  JSON_stringify (envelope (FrontendEventType_string eventType) (Some metric_value))
  = Normal (Some body) ->
  network (snd (MimosFrontendAnalytics.sendMetric this eventType payload h w))
  = (network w ++ [frontend_request this body])%list.
Proof.
  intros Hd Hp Hb. unfold MimosFrontendAnalytics.sendMetric. rewrite Hd.
  unfold try_catch, bind, lift. rewrite Hp, Hb. unfold fetch, frontend_request.
  destruct (network_outcome h _ _) as [response|reason]; simpl.
  - destruct (Response.ok response); simpl; [reflexivity|].
    destruct (Response.text response); simpl; [reflexivity|].
    destruct (is_AbortError e); reflexivity.
  - destruct (is_AbortError reason); reflexivity.
Qed.

Lemma SessionEndPayload_stringify p :
  exists metric_value,
    JSON_stringify (SessionEndPayload.to_js p) = Normal (Some metric_value).
Proof.
  destruct p as [id d r n [t|] [l|]]; eexists; reflexivity.
Qed.

(** C2. A session on an enabled client whose clock never reads zero:
    [startSession], then any sequence [cs] of calls of the other public
    methods, then [endSession].  [endSession] issues exactly one request, a
    [session_end] event whose payload has [screens_visited] equal to the
    number of screen names of [cs] that differ from the name before them,
    [total_events] equal to the number of calls of [cs] that carry a screen
    name (all of them but the raw session calls), and [last_screen] equal to
    the last screen name of [cs], or absent when there is none; afterwards
    the instance has no session identifier. *)
Theorem session_end_payload :
  forall this payload cs exitReason h w,
    MimosFrontendAnalytics.disabled (MimosFrontendAnalytics.config this) = false ->
    (forall n, clock h n <> 0%Z) ->
    exists id started this1 w1 this2 w2 this3 w3 metric_value body,
      MimosFrontendAnalytics.startSession this payload h w = (Normal (id, this1), w1)
      /\ MimosFrontendAnalytics.sessionStartTime this1 = Some started
      /\ MimosFrontendAnalytics.calls this1 cs h w1 = (Normal this2, w2)
      /\ MimosFrontendAnalytics.endSession this2 exitReason h w2 = (Normal this3, w3)
      /\ JSON_stringify
           (SessionEndPayload.to_js
              {| SessionEndPayload.session_id := id;
                 SessionEndPayload.session_duration_ms :=
                   (clock h (clock_reads w2) - started)%Z;
                 SessionEndPayload.exit_reason := exitReason;
                 SessionEndPayload.screens_visited :=
                   Z.of_nat (transitions None (screens cs));
                 SessionEndPayload.total_events :=
                   Some (Z.of_nat (List.length (screens cs)));
                 SessionEndPayload.last_screen := last_screen_of None (screens cs) |})
         = Normal (Some metric_value)
      /\ JSON_stringify (envelope "session_end" (Some metric_value))
         = Normal (Some body)
      /\ network w3 = (network w2 ++ [frontend_request this body])%list
      /\ MimosFrontendAnalytics.getSessionId this3 = None.
Proof.
  intros this payload cs exitReason h w Hd Hclock.
  pose proof (startSession_run this payload h w) as Hstart. cbv zeta in Hstart.
  set (id := resolved_id (SessionStartPayload.session_id payload) h w) in *.
  set (wi := after_id (SessionStartPayload.session_id payload) w) in *.
  set (started := clock h (clock_reads wi)) in *.
  set (this1 := MimosFrontendAnalytics.mk _ _ (Some id) (Some started) [] 0%Z) in *.
  set (w1 := snd (MimosFrontendAnalytics.sendMetric this1 session_start _ h (tick wi)))
    in *.
  pose proof (calls_run cs this1 h w1) as Hcalls.
  set (this2 := fold_left after_call cs this1) in *.
  set (w2 := snd (MimosFrontendAnalytics.calls this1 cs h w1)) in *.
  destruct (after_calls cs this1) as (Hc & Hu & Hi & Ht & He & Hl & Hlast).
  fold this2 in Hc, Hu, Hi, Ht, He, Hl, Hlast. simpl in Hc, Hu, Hi, Ht, He, Hl, Hlast.
  assert (Hactive : MimosFrontendAnalytics.activeSession this2 = Some (id, started)).
  { unfold MimosFrontendAnalytics.activeSession. rewrite Hi, Ht. simpl.
    unfold id. rewrite resolved_id_nonempty.
    destruct (Z.eqb_spec started 0) as [E|_]; [|reflexivity].
    exfalso. exact (Hclock _ E). }
  pose proof (endSession_active this2 exitReason h w2 id started Hactive) as Hend.
  cbv zeta in Hend. rewrite Hl, Hlast, He in Hend. simpl in Hend.
  match type of Hend with
  | _ = (_, snd (MimosFrontendAnalytics.sendMetric _ _ (SessionEndPayload.to_js ?p) _ _)) =>
      destruct (SessionEndPayload_stringify p) as [metric_value Hmv]
  end.
  destruct (JSON_stringify_envelope "session_end" metric_value) as [body Hbody].
  exists id, started, this1, w1, this2, w2.
  eexists _, _. exists metric_value, body.
  split; [exact Hstart|]. split; [reflexivity|]. split; [exact Hcalls|].
  split; [exact Hend|]. split; [exact Hmv|]. split; [exact Hbody|]. split.
  - rewrite (frontend_sendMetric_enabled this2 session_end _ metric_value body h
               (tick w2)); [| now rewrite Hc | exact Hmv | exact Hbody].
    unfold frontend_request. now rewrite Hc, Hu.
  - reflexivity.
Qed.

(** The session of the example: screen [A] three times, then screen [B]. *)
Lemma session_end_payload_witness :
  exists id started this1 w1 this2 w2 this3 w3 metric_value body,
    MimosFrontendAnalytics.startSession demoFrontend demoStart demoHost emptyWorld
    = (Normal (id, this1), w1)
    /\ MimosFrontendAnalytics.sessionStartTime this1 = Some started
    /\ MimosFrontendAnalytics.calls this1 demoCalls demoHost w1 = (Normal this2, w2)
    /\ MimosFrontendAnalytics.endSession this2 ExitReason.user_exit demoHost w2
       = (Normal this3, w3)
    /\ JSON_stringify
         (SessionEndPayload.to_js
            {| SessionEndPayload.session_id := id;
               SessionEndPayload.session_duration_ms :=
                 (clock demoHost (clock_reads w2) - started)%Z;
               SessionEndPayload.exit_reason := ExitReason.user_exit;
               SessionEndPayload.screens_visited := 2;
               SessionEndPayload.total_events := Some 4%Z;
               SessionEndPayload.last_screen := Some "B" |})
       = Normal (Some metric_value)
    /\ JSON_stringify (envelope "session_end" (Some metric_value))
       = Normal (Some body)
    /\ network w3 = (network w2 ++ [frontend_request demoFrontend body])%list
    /\ MimosFrontendAnalytics.getSessionId this3 = None.
Proof.
  apply (session_end_payload demoFrontend demoStart demoCalls ExitReason.user_exit
           demoHost emptyWorld eq_refl).
  intros n. change (1700000000000 + Z.of_nat n <> 0)%Z. lia.
Defined.

(** The same session, run: the sixth request on the network is the
    [session_end] event, and its doubly encoded payload counts two screens
    and four events and names [B] as the last screen. *)
Example session_end_payload_run :
  let run :=
    r <- MimosFrontendAnalytics.startSession demoFrontend demoStart ;;
    this2 <- MimosFrontendAnalytics.calls (snd r) demoCalls ;;
    MimosFrontendAnalytics.endSession this2 ExitReason.user_exit in
  let q := "\" ++ dquote in
  match nth_error (network (snd (run demoHost emptyWorld))) 5 with
  | Some request =>
      match Request.body request with
      | Some body =>
          includes body
            (q ++ "screens_visited" ++ q ++ ":2," ++ q ++ "total_events" ++ q
             ++ ":4," ++ q ++ "last_screen" ++ q ++ ":" ++ q ++ "B" ++ q ++ "}")
      | None => false
      end
  | None => false
  end = true.
Proof. vm_compute. reflexivity. Qed.

(* ================================================================== *)
(** * The call-tracking wrapper *)

Lemma parametersStr_run options h w :
  ToolCallTracker.parametersStr options h w = (parametersStr_value options, w).
Proof.
  unfold ToolCallTracker.parametersStr, parametersStr_value.
  destruct options as [o|]; [|reflexivity].
  destruct (truthy _); reflexivity.
Qed.

Lemma responseSizeBytes_run result h w :
  ToolCallTracker.responseSizeBytes result h w = (Normal (response_size result), w).
Proof.
  unfold ToolCallTracker.responseSizeBytes, response_size, try_catch, bind, lift.
  destruct (JSON_stringify result) as [[s|]|e]; reflexivity.
Qed.

(** A run of [track], step by step: the identifier is resolved, the
    parameters are serialised, the clock is read, the operation runs, and its
    outcome is reported and handed on. *)
Lemma track_run this toolName fn options h w :
  let supplied := option_bind options ToolCallTracker.TrackOptions.callId in
  let callId := resolved_id supplied h w in
  let w0 := after_id supplied w in
  let startTime := clock h (clock_reads w0) in
  ToolCallTracker.track this toolName fn options h w
  = match parametersStr_value options with
    | Throw e => (Throw e, w0)
    | Normal parametersStr =>
        match fn h (tick w0) with
        | (Normal result, w2) =>
            (Normal result,
             snd (success_report this toolName callId parametersStr startTime
                    result h w2))
        | (Throw e, w2) =>
            (Throw e,
             snd (error_report this toolName callId parametersStr
                    (ToolCallTracker.errorTypeOf options e) e h w2))
        end
    end.
Proof.
  intros supplied callId w0 startTime. unfold ToolCallTracker.track.
  unfold generateCallId.
  rewrite (bind_Normal _ _ _ _ _ _ (or_generate_run supplied h w)).
  fold callId w0. unfold bind at 1. rewrite parametersStr_run.
  destruct (parametersStr_value options) as [parametersStr|e]; [|reflexivity].
  rewrite bind_Date_now. fold startTime.
  unfold try_catch. unfold bind at 1.
  destruct (fn h (tick w0)) as [[result|e] w2].
  - rewrite bind_Date_now.
    rewrite (bind_Normal _ _ _ _ _ _ (responseSizeBytes_run result h (tick w2))).
    reflexivity.
  - rewrite bind_Date_now. reflexivity.
Qed.

Lemma trackWithMetadata_run this toolName fn options h w :
  let supplied := option_bind options ToolCallTracker.TrackOptions.callId in
  let callId := resolved_id supplied h w in
  let w0 := after_id supplied w in
  let startTime := clock h (clock_reads w0) in
  ToolCallTracker.trackWithMetadata this toolName fn options h w
  = match parametersStr_value options with
    | Throw e => (Throw e, w0)
    | Normal parametersStr =>
        match fn h (tick w0) with
        | (Normal result, w2) =>
            (Normal
               {| TrackedCallResult.result := result;
                  TrackedCallResult.durationMs :=
                    (clock h (clock_reads w2) - startTime)%Z;
                  TrackedCallResult.callId := callId |},
             snd (success_report this toolName callId parametersStr startTime
                    result h w2))
        | (Throw e, w2) =>
            (Throw e,
             snd (error_report this toolName callId parametersStr
                    (ToolCallTracker.errorTypeOf options e) e h w2))
        end
    end.
Proof.
  intros supplied callId w0 startTime. unfold ToolCallTracker.trackWithMetadata.
  unfold generateCallId.
  rewrite (bind_Normal _ _ _ _ _ _ (or_generate_run supplied h w)).
  fold callId w0. unfold bind at 1. rewrite parametersStr_run.
  destruct (parametersStr_value options) as [parametersStr|e]; [|reflexivity].
  rewrite bind_Date_now. fold startTime.
  unfold try_catch. unfold bind at 1.
  destruct (fn h (tick w0)) as [[result|e] w2].
  - rewrite bind_Date_now.
    rewrite (bind_Normal _ _ _ _ _ _ (responseSizeBytes_run result h (tick w2))).
    reflexivity.
  - rewrite bind_Date_now. reflexivity.
Qed.

(** C3. [track] hands on the outcome of the operation.  Whenever the
    parameters have a JSON text or are absent, so that the operation is
    invoked: if the operation returns [result], [track] returns [result]; if
    it throws [e], [track] throws the same [e], and the world is the one that
    the error report leaves.  The host is arbitrary: the outcome of the
    delivery of the report, fulfilled, rejected or aborted on timeout, does
    not enter the result. *)
Theorem track_pass_through :
  forall this toolName fn options h w parametersStr,
    parametersStr_value options = Normal parametersStr ->
    let supplied := option_bind options ToolCallTracker.TrackOptions.callId in
    let w0 := after_id supplied w in
    (forall result w2,
       fn h (tick w0) = (Normal result, w2) ->
       fst (ToolCallTracker.track this toolName fn options h w) = Normal result) /\
    (forall e w2,
       fn h (tick w0) = (Throw e, w2) ->
       ToolCallTracker.track this toolName fn options h w
       = (Throw e,
          snd (error_report this toolName (resolved_id supplied h w) parametersStr
                 (ToolCallTracker.errorTypeOf options e) e h w2))).
Proof.
  intros this toolName fn options h w parametersStr Hp supplied w0.
  pose proof (track_run this toolName fn options h w) as Hrun. cbv zeta in Hrun.
  rewrite Hp in Hrun. fold supplied w0 in Hrun.
  split; intros x w2 Hfn; rewrite Hfn in Hrun; rewrite Hrun; reflexivity.
Qed.

(** An operation that returns [5], tracked without options on a host whose
    network answers: [track] returns [5]. *)
Lemma track_pass_through_witness :
  fst (ToolCallTracker.track demoTracker "search" (ret (JsNumber 5)) None
         demoHost emptyWorld)
  = Normal (JsNumber 5).
Proof.
  apply (proj1 (track_pass_through demoTracker "search" (ret (JsNumber 5)) None
                  demoHost emptyWorld None eq_refl)
           (JsNumber 5) (tick (draw (tick emptyWorld))) eq_refl).
Defined.

(** The result is the same on a host whose network rejects every request,
    and on one that aborts every request on timeout. *)
Example track_pass_through_delivery_fails :
  let rejecting :=
    mkHost (clock demoHost) (random36 demoHost)
      (fun _ _ => Rejected (new_Error "fetch failed")) in
  let aborting :=
    mkHost (clock demoHost) (random36 demoHost)
      (fun _ _ =>
         Rejected (JsErrorObject
                     (Error.mk "AbortError" "This operation was aborted" None
                        "DOMException"))) in
  fst (ToolCallTracker.track demoTracker "search" (ret (JsNumber 5)) None
         rejecting emptyWorld) = Normal (JsNumber 5)
  /\ fst (ToolCallTracker.track demoTracker "search" (ret (JsNumber 5)) None
            aborting emptyWorld) = Normal (JsNumber 5)
  /\ fst (ToolCallTracker.track demoTracker "search" (throw (new_Error "boom")) None
            aborting emptyWorld) = Throw (new_Error "boom")
  /\ console (snd (ToolCallTracker.track demoTracker "search"
                     (throw (new_Error "boom")) None aborting emptyWorld))
     = [ log_error [ JsString "[MimosAnalytics] Request timed out" ] ].
Proof. vm_compute. repeat split; reflexivity. Qed.

Lemma captured_rule args :
  (if Nat.eqb (List.length args) 1 then nth 0 args JsUndefined else JsArray args)
  = captured args.
Proof. destruct args as [|x [|y args]]; reflexivity. Qed.

(** C8. The parameters that a wrapped function records.  A call with the
    single argument [x] is [track] with [parameters = x]; a call with no
    argument, or with two or more, is [track] with [parameters] the list of
    the arguments in order.  When the recorded value is truthy and has the
    JSON text [text], that text is the [parameters] of the report, of a
    success as of a failure. *)
Theorem wrap_parameter_capture :
  forall this toolName fn options,
    let track_with parameters args :=
      ToolCallTracker.track this toolName (fn args)
        (Some {| ToolCallTracker.TrackOptions.callId := None;
                 ToolCallTracker.TrackOptions.parameters := parameters;
                 ToolCallTracker.TrackOptions.errorType :=
                   option_bind options ToolCallTracker.WrapOptions.errorType |}) in
    (forall x,
       ToolCallTracker.wrap this toolName fn options [x] = track_with x [x]) /\
    (forall args,
       List.length args <> 1 ->
       ToolCallTracker.wrap this toolName fn options args
       = track_with (JsArray args) args) /\
    (forall args text h w,
       truthy (captured args) = true ->
       JSON_stringify (captured args) = Normal (Some text) ->
       let callId := generated_id h w in
       let startTime := clock h (S (clock_reads w)) in
       (forall result w2,
          fn args h (tick (draw (tick w))) = (Normal result, w2) ->
          ToolCallTracker.wrap this toolName fn options args h w
          = (Normal result,
             snd (success_report this toolName callId (Some text) startTime
                    result h w2))) /\
       (forall e w2,
          fn args h (tick (draw (tick w))) = (Throw e, w2) ->
          ToolCallTracker.wrap this toolName fn options args h w
          = (Throw e,
             snd (error_report this toolName callId (Some text)
                    (match option_bind options ToolCallTracker.WrapOptions.errorType with
                     | Some t => t
                     | None => ToolCallTracker.inferErrorType e
                     end) e h w2)))).
Proof.
  intros this toolName fn options track_with. split; [|split].
  - intros x. reflexivity.
  - intros args Hlen. unfold ToolCallTracker.wrap, track_with.
    rewrite captured_rule.
    destruct args as [|x [|y args]]; [reflexivity | | reflexivity].
    exfalso. now apply Hlen.
  - intros args text h w Ht Hs callId startTime.
    unfold ToolCallTracker.wrap. rewrite captured_rule.
    split; intros x w2 Hfn; rewrite track_run; cbv zeta;
      unfold parametersStr_value; cbn [ToolCallTracker.TrackOptions.parameters];
      rewrite Ht, Hs; cbn [option_bind ToolCallTracker.TrackOptions.callId after_id];
      rewrite Hfn; reflexivity.
Qed.

(** A function wrapped and called with the single argument [5], then with
    the two arguments [0] and [a]: the reports carry the parameters [5] and
    the list of both. *)
Lemma wrap_parameter_capture_witness :
  ToolCallTracker.wrap demoTracker "echo" (fun args => ret (JsArray args)) None
    [JsNumber 5] demoHost emptyWorld
  = (Normal (JsArray [JsNumber 5]),
     snd (success_report demoTracker "echo" (generated_id demoHost emptyWorld)
            (Some "5") (clock demoHost 1) (JsArray [JsNumber 5]) demoHost
            (tick (draw (tick emptyWorld)))))
  /\ ToolCallTracker.wrap demoTracker "echo" (fun args => ret (JsArray args)) None
       [JsNumber 0; JsString "a"] demoHost emptyWorld
     = (Normal (JsArray [JsNumber 0; JsString "a"]),
        snd (success_report demoTracker "echo" (generated_id demoHost emptyWorld)
               (Some ("[0," ++ dquote ++ "a" ++ dquote ++ "]")) (clock demoHost 1)
               (JsArray [JsNumber 0; JsString "a"]) demoHost
               (tick (draw (tick emptyWorld))))).
Proof.
  split.
  - apply (proj1 (proj2 (proj2 (wrap_parameter_capture demoTracker "echo"
                                  (fun args => ret (JsArray args)) None))
                    [JsNumber 5] "5" demoHost emptyWorld eq_refl eq_refl)
             (JsArray [JsNumber 5]) _ eq_refl).
  - apply (proj1 (proj2 (proj2 (wrap_parameter_capture demoTracker "echo"
                                  (fun args => ret (JsArray args)) None))
                    [JsNumber 0; JsString "a"] _ demoHost emptyWorld eq_refl eq_refl)
             (JsArray [JsNumber 0; JsString "a"]) _ eq_refl).
Defined.

(** A single argument that JavaScript reads as false, here the number [0],
    is handed to [track] like any other, and [track] leaves the parameters
    out of the report. *)
Example wrap_falsy_argument :
  forall this toolName fn options h w,
    ToolCallTracker.wrap this toolName fn options [JsNumber 0] h w
    = ToolCallTracker.track this toolName (fn [JsNumber 0])
        (Some {| ToolCallTracker.TrackOptions.callId := None;
                 ToolCallTracker.TrackOptions.parameters := JsNumber 0;
                 ToolCallTracker.TrackOptions.errorType :=
                   option_bind options ToolCallTracker.WrapOptions.errorType |}) h w
    /\ parametersStr_value
         (Some {| ToolCallTracker.TrackOptions.callId := None;
                  ToolCallTracker.TrackOptions.parameters := JsNumber 0;
                  ToolCallTracker.TrackOptions.errorType :=
                    option_bind options ToolCallTracker.WrapOptions.errorType |})
       = Normal None.
Proof. intros. split; reflexivity. Qed.

(* ================================================================== *)
(** * Generated identifiers *)

Lemma length_substring_0 n : forall s,
  String.length (String.substring 0 n s) = Nat.min n (String.length s).
Proof.
  induction n as [|n IH]; intros s.
  - destruct s; reflexivity.
  - destruct s as [|c s]; simpl; [reflexivity | now rewrite IH].
Qed.

Lemma length_substring a n : forall s,
  String.length (String.substring a n s) = Nat.min n (String.length s - a).
Proof.
  induction a as [|a IH]; intros s.
  - rewrite length_substring_0. now rewrite Nat.sub_0_r.
  - destruct s as [|c s]; simpl.
    + now rewrite Nat.min_0_r.
    + apply IH.
Qed.

Lemma length_suffix rendering :
  String.length (js_substring rendering 2 11)
  = Nat.min 9 (String.length rendering - 2).
Proof.
  unfold js_substring. simpl Nat.min. simpl Nat.max. simpl Nat.sub.
  apply length_substring.
Qed.

Lemma generated_id_shape h w :
  let rendering := random36 h (random_draws w) in
  let suffix := js_substring rendering 2 11 in
  generated_id h w = Number_toString (clock h (clock_reads w)) ++ "-" ++ suffix
  /\ String.length suffix <= 9
  /\ (11 <= String.length rendering -> String.length suffix = 9)
  /\ (forall digits,
        rendering = "0." ++ digits -> 9 <= String.length digits ->
        suffix = String.substring 0 9 digits /\ String.length suffix = 9).
Proof.
  intros rendering suffix. split; [reflexivity|].
  assert (Hlen : String.length suffix = Nat.min 9 (String.length rendering - 2)).
  { unfold suffix, js_substring. simpl Nat.min. simpl Nat.max. simpl Nat.sub.
    apply length_substring. }
  split; [lia|]. split; [lia|].
  intros digits Hr Hd.
  assert (Hl : String.length rendering = 2 + String.length digits)
    by (rewrite Hr; reflexivity).
  split; [|lia].
  unfold suffix. rewrite Hr. reflexivity.
Qed.

(** C10, amended. An empty string given as an identifier counts as none.  On
    every host and in every world, with [id] the identifier that the
    generator builds there (the clock reading in decimal, a dash, and as
    suffix characters 2 to 10 of the rendering of the random number: as many
    as the rendering has from position 2 on, nine at most, and nine base-36
    digits when [0.] is followed by nine digits or more): [id] is not empty;
    [track] and
    [trackWithMetadata] with [callId] the empty string run exactly as with no
    [callId], report under [id], and [trackWithMetadata] returns [id];
    [startSession] with [session_id] the empty string returns [id], stores it
    as the session identifier and sends it in the [session_start] payload. *)
Theorem empty_id_is_absent :
  forall h w,
    let id := generated_id h w in
    let rendering := random36 h (random_draws w) in
    let empty parameters errorType :=
      Some (ToolCallTracker.TrackOptions.mk (Some "") parameters errorType) in
    let absent parameters errorType :=
      Some (ToolCallTracker.TrackOptions.mk None parameters errorType) in
    (id = Number_toString (clock h (clock_reads w)) ++ "-"
          ++ js_substring rendering 2 11
     /\ String.length (js_substring rendering 2 11) <= 9
     /\ (forall digits,
           rendering = "0." ++ digits -> 9 <= String.length digits ->
           js_substring rendering 2 11 = String.substring 0 9 digits
           /\ String.length (js_substring rendering 2 11) = 9)
     /\ id <> ""
     /\ String.length (js_substring rendering 2 11)
        = Nat.min 9 (String.length rendering - 2)) /\
    (forall this toolName fn parameters errorType,
       ToolCallTracker.track this toolName fn (empty parameters errorType) h w
       = ToolCallTracker.track this toolName fn (absent parameters errorType) h w
       /\ ToolCallTracker.trackWithMetadata this toolName fn
            (empty parameters errorType) h w
          = ToolCallTracker.trackWithMetadata this toolName fn
              (absent parameters errorType) h w) /\
    (forall this toolName fn parameters errorType parametersStr,
       parametersStr_value (empty parameters errorType) = Normal parametersStr ->
       let startTime := clock h (S (clock_reads w)) in
       (forall result w2,
          fn h (tick (draw (tick w))) = (Normal result, w2) ->
          ToolCallTracker.track this toolName fn (empty parameters errorType) h w
          = (Normal result,
             snd (success_report this toolName id parametersStr startTime result
                    h w2))
          /\ fst (ToolCallTracker.trackWithMetadata this toolName fn
                    (empty parameters errorType) h w)
             = Normal
                 {| TrackedCallResult.result := result;
                    TrackedCallResult.durationMs :=
                      (clock h (clock_reads w2) - startTime)%Z;
                    TrackedCallResult.callId := id |}) /\
       (forall e w2,
          fn h (tick (draw (tick w))) = (Throw e, w2) ->
          ToolCallTracker.track this toolName fn (empty parameters errorType) h w
          = (Throw e,
             snd (error_report this toolName id parametersStr
                    (ToolCallTracker.errorTypeOf (empty parameters errorType) e)
                    e h w2)))) /\
    (forall this payload,
       SessionStartPayload.session_id payload = Some "" ->
       let this1 :=
         MimosFrontendAnalytics.mk (MimosFrontendAnalytics.config this)
           (MimosFrontendAnalytics.frontendMetricsUrl this)
           (Some id) (Some (clock h (S (clock_reads w)))) [] 0%Z in
       MimosFrontendAnalytics.startSession this payload h w
       = (Normal (id, this1),
          snd (MimosFrontendAnalytics.sendMetric this1 session_start
                 (JsObject (("session_id", JsString id)
                            :: SessionStartPayload.other_props payload))
                 h (tick (draw (tick w)))))).
Proof.
  intros h w id rendering empty absent.
  destruct (generated_id_shape h w) as (Hid & Hle & _ & Hdigits).
  split; [|split; [|split]].
  - split; [exact Hid|]. split; [exact Hle|]. split; [exact Hdigits|].
    split; [|apply length_suffix].
    intros E. pose proof (generated_id_nonempty h w) as Hn.
    fold id in Hn. now rewrite E in Hn.
  - intros. split; reflexivity.
  - intros this toolName fn parameters errorType parametersStr Hp startTime.
    split; intros x w2 Hfn.
    + split.
      * rewrite track_run. cbv zeta. rewrite Hp.
        cbn [option_bind ToolCallTracker.TrackOptions.callId empty after_id nonempty].
        now rewrite Hfn.
      * rewrite trackWithMetadata_run. cbv zeta. rewrite Hp.
        cbn [option_bind ToolCallTracker.TrackOptions.callId empty after_id nonempty].
        now rewrite Hfn.
    + rewrite track_run. cbv zeta. rewrite Hp.
      cbn [option_bind ToolCallTracker.TrackOptions.callId empty after_id nonempty].
      now rewrite Hfn.
  - intros this payload Hs this1.
    rewrite startSession_run. cbv zeta.
    unfold SessionStartPayload.with_session_id. rewrite Hs. reflexivity.
Qed.

(** On the example host the random number is rendered [0.4fzyo82mvyr]: the
    identifier generated in the empty world at time 1700000000000 ends with
    the nine digits [4fzyo82mv]. *)
Lemma empty_id_is_absent_witness :
  js_substring (random36 demoHost 0) 2 11 = "4fzyo82mv"
  /\ String.length (js_substring (random36 demoHost 0) 2 11) = 9.
Proof.
  apply (proj1 (proj2 (proj2 (proj1 (empty_id_is_absent demoHost emptyWorld))))
           "4fzyo82mvyr" eq_refl).
  simpl. lia.
Defined.

Example generated_id_example :
  generated_id demoHost emptyWorld = "1700000000000-4fzyo82mv".
Proof. vm_compute. reflexivity. Qed.

(** A rendering with fewer digits gives a shorter suffix.  One half is
    rendered [0.i] in base 36: on a host whose random number is one half,
    [trackWithMetadata] with [callId] the empty string returns an identifier
    whose part after the dash is the one character [i], [startSession] with
    [session_id] the empty string returns and stores the same, and the
    generated identifier is not the clock reading, a dash and nine
    characters. *)
Lemma generated_id_suffix_short :
  let half := mkHost (clock demoHost) (fun _ => "0.i") (network_outcome demoHost) in
  let options :=
    Some (ToolCallTracker.TrackOptions.mk (Some "") JsUndefined None) in
  let start :=
    SessionStartPayload.mk (Some "") SessionStartPayload.mobile
      SessionStartPayload.ios "17.0" "1.0.0" None None None None None in
  fst (ToolCallTracker.trackWithMetadata demoTracker "search" (ret JsNull) options
         half emptyWorld)
  = Normal (TrackedCallResult.mk JsNull 1 "1700000000000-i")
  /\ (exists this1,
        fst (MimosFrontendAnalytics.startSession demoFrontend start half emptyWorld)
        = Normal ("1700000000000-i", this1)
        /\ MimosFrontendAnalytics.getSessionId this1 = Some "1700000000000-i")
  /\ ~ (exists suffix,
          generated_id half emptyWorld
          = Number_toString (clock half (clock_reads emptyWorld)) ++ "-" ++ suffix
          /\ String.length suffix = 9).
Proof.
  intros half options start. split; [|split].
  - vm_compute. reflexivity.
  - exists (MimosFrontendAnalytics.mk (MimosFrontendAnalytics.config demoFrontend)
              (MimosFrontendAnalytics.frontendMetricsUrl demoFrontend)
              (Some "1700000000000-i") (Some 1700000000001%Z) [] 0%Z).
    split; vm_compute; reflexivity.
  - intros (suffix & H & Hl).
    assert (E : generated_id half emptyWorld = "1700000000000-" ++ "i")
      by (vm_compute; reflexivity).
    assert (N : Number_toString (clock half (clock_reads emptyWorld)) ++ "-" ++ suffix
                = "1700000000000-" ++ suffix)
      by (vm_compute; reflexivity).
    rewrite E, N in H. apply append_cancel_l in H. subst suffix. discriminate Hl.
Qed.

(* ================================================================== *)
(** * The endpoint *)

Lemma append_cancel_r (a b c : string) : a ++ c = b ++ c -> a = b.
Proof.
  revert b; induction a as [|x a IH]; intros [|y b] H; simpl in H.
  - reflexivity.
  - apply (f_equal String.length) in H. simpl in H. rewrite length_append in H. lia.
  - apply (f_equal String.length) in H. simpl in H. rewrite length_append in H. lia.
  - injection H as -> H. now rewrite (IH b H).
Qed.

Lemma replace_trailing_slash_cons c s :
  nonempty s = true ->
  replace_trailing_slash (String c s) = String c (replace_trailing_slash s).
Proof. destruct s; [discriminate | reflexivity]. Qed.

Lemma ends_with_slash_cons c s :
  nonempty s = true -> ends_with_slash (String c s) = ends_with_slash s.
Proof. destruct s; [discriminate | reflexivity]. Qed.

Lemma replace_trailing_slash_slashes k :
  replace_trailing_slash (slashes (S k)) = slashes k.
Proof.
  induction k as [|k IH]; [reflexivity|].
  change (slashes (S (S k))) with (String "/" (slashes (S k))).
  rewrite replace_trailing_slash_cons by reflexivity. now rewrite IH.
Qed.

Lemma replace_trailing_slash_one core k :
  replace_trailing_slash (core ++ slashes (S k)) = core ++ slashes k.
Proof.
  induction core as [|c core IH]; [apply replace_trailing_slash_slashes|].
  change (String c core ++ slashes (S k)) with (String c (core ++ slashes (S k))).
  rewrite replace_trailing_slash_cons.
  - now rewrite IH.
  - rewrite nonempty_append. apply orb_true_r.
Qed.

Lemma replace_trailing_slash_none core :
  ends_with_slash core = false -> replace_trailing_slash core = core.
Proof.
  induction core as [|c core IH]; [reflexivity|].
  destruct core as [|d core].
  - simpl. now intros ->.
  - rewrite ends_with_slash_cons, replace_trailing_slash_cons by reflexivity.
    intros H. now rewrite IH.
Qed.

Lemma replace_trailing_slash_split core k :
  ends_with_slash core = false ->
  replace_trailing_slash (core ++ slashes k) = core ++ slashes (k - 1).
Proof.
  intros H. destruct k as [|k].
  - simpl. rewrite append_empty_r. now apply replace_trailing_slash_none.
  - rewrite replace_trailing_slash_one. now rewrite Nat.sub_succ, Nat.sub_0_r.
Qed.

Lemma trailing_slashes_split s :
  exists core k, s = core ++ slashes k /\ ends_with_slash core = false.
Proof.
  induction s as [|c s (core & k & -> & H)].
  - now exists "", 0.
  - destruct core as [|d core].
    + destruct (Ascii.eqb c "/") eqn:E.
      * apply Ascii.eqb_eq in E. subst c. now exists "", (S k).
      * exists (String c ""), k. split; [reflexivity | exact E].
    + exists (String c (String d core)), k. split; [reflexivity|].
      now rewrite ends_with_slash_cons.
Qed.

Lemma one_slash_before_join core rest :
  ends_with_slash core = false -> one_slash_before rest (core ++ "/" ++ rest).
Proof. intros H. now exists core. Qed.

(** With two slashes at the end of [baseUrl] one of them stays, and two
    slashes stand before [v1]. *)
Lemma endpoint_url_two_slashes :
  MimosAnalytics.backendMetricsUrl
    (MimosAnalytics.constructor
       (MimosAnalyticsConfig.mk "http://localhost:8080//" "p" "k" None None))
  = "http://localhost:8080//v1/backend-metrics/write/"
  /\ ~ one_slash_before "v1/backend-metrics/write/"
         (MimosAnalytics.backendMetricsUrl
            (MimosAnalytics.constructor
               (MimosAnalyticsConfig.mk "http://localhost:8080//" "p" "k" None None))).
Proof.
  split; [reflexivity|].
  intros (base & H & Hs).
  change (MimosAnalytics.backendMetricsUrl _)
    with ("http://localhost:8080/" ++ "/" ++ "v1/backend-metrics/write/") in H.
  apply append_cancel_r in H. subst base. discriminate Hs.
Qed.

(** C7, amended. Every base URL is some [core] that does not end with a
    slash, followed by [k] slashes.  The constructor strips one of them: the
    endpoint is [core], [k - 1] slashes and the fixed suffix of the variant.
    When the base URL ends with no slash or with one, exactly one slash
    stands between the base and [v1]. *)
Theorem endpoint_url_join :
  (forall baseUrl, exists core k,
     baseUrl = core ++ slashes k /\ ends_with_slash core = false) /\
  (forall c core k,
     MimosAnalyticsConfig.baseUrl c = core ++ slashes k ->
     ends_with_slash core = false ->
     MimosAnalytics.backendMetricsUrl (MimosAnalytics.constructor c)
     = replace_trailing_slash (MimosAnalyticsConfig.baseUrl c)
       ++ "/v1/backend-metrics/write/"
     /\ MimosAnalytics.backendMetricsUrl (MimosAnalytics.constructor c)
        = core ++ slashes (k - 1) ++ "/v1/backend-metrics/write/"
     /\ (k <= 1 ->
         one_slash_before "v1/backend-metrics/write/"
           (MimosAnalytics.backendMetricsUrl (MimosAnalytics.constructor c)))) /\
  (forall c core k,
     MimosFrontendConfig.baseUrl c = core ++ slashes k ->
     ends_with_slash core = false ->
     MimosFrontendAnalytics.frontendMetricsUrl (MimosFrontendAnalytics.constructor c)
     = replace_trailing_slash (MimosFrontendConfig.baseUrl c)
       ++ "/v1/frontend-metrics/write/"
     /\ MimosFrontendAnalytics.frontendMetricsUrl
          (MimosFrontendAnalytics.constructor c)
        = core ++ slashes (k - 1) ++ "/v1/frontend-metrics/write/"
     /\ (k <= 1 ->
         one_slash_before "v1/frontend-metrics/write/"
           (MimosFrontendAnalytics.frontendMetricsUrl
              (MimosFrontendAnalytics.constructor c)))).
Proof.
  split; [exact trailing_slashes_split|].
  split; intros c core k Hb Hc; (split; [reflexivity|]);
    [ assert (Hu : MimosAnalytics.backendMetricsUrl (MimosAnalytics.constructor c)
                   = core ++ slashes (k - 1) ++ "/v1/backend-metrics/write/")
    | assert (Hu : MimosFrontendAnalytics.frontendMetricsUrl
                     (MimosFrontendAnalytics.constructor c)
                   = core ++ slashes (k - 1) ++ "/v1/frontend-metrics/write/") ].
  1, 3: simpl; rewrite Hb, replace_trailing_slash_split by exact Hc;
        now rewrite append_assoc.
  all: split; [exact Hu|]; intros Hk; rewrite Hu;
       replace (k - 1) with 0 by lia; now apply one_slash_before_join.
Qed.

(** The base URL of the README, with one slash at its end. *)
Lemma endpoint_url_join_witness :
  MimosAnalytics.backendMetricsUrl
    (MimosAnalytics.constructor
       (MimosAnalyticsConfig.mk "http://localhost:8080/" "p" "k" None None))
  = "http://localhost:8080/v1/backend-metrics/write/".
Proof.
  apply (proj1 (proj2 (proj1 (proj2 endpoint_url_join)
                         (MimosAnalyticsConfig.mk "http://localhost:8080/" "p" "k"
                            None None)
                         "http://localhost:8080" 1 eq_refl eq_refl))).
Defined.

(* ================================================================== *)
(** * What the clients read off a failure *)

(** A class derived from [Error] that does not set [name]: the constructor
    is [ValidationError], the inherited name is [Error].  The backend client
    reports the first, the frontend client the second. *)
Lemma error_code_differs :
  let e := JsErrorObject (Error.mk "Error" "bad input" None "ValidationError") in
  MimosAnalytics.errorCode e None = "ValidationError"
  /\ MimosFrontendAnalytics.errorCode e None = "Error"
  /\ (MimosFrontendAnalytics.errorMessage e,
      MimosFrontendAnalytics.errorCode e None,
      MimosFrontendAnalytics.stackTrace e)
     <> (MimosAnalytics.errorMessage e,
         MimosAnalytics.errorCode e None,
         MimosAnalytics.stackTrace e).
Proof.
  intros e. split; [reflexivity|]. split; [reflexivity|]. discriminate.
Qed.

(** C9, amended. [trackLoadError] reads the message and the stack of a
    failure as [trackError] does.  For the code both prefer a non-empty code
    given by the caller and both write [Error] for a value that is not an
    [Error]; for an [Error] the backend client writes the name of its
    constructor and the frontend client its [name] property.  The two codes
    are equal when the caller gives a non-empty code, when the value is not
    an [Error], and when the name of the error is the name of its
    constructor. *)
Theorem error_extraction_compared :
  forall e override,
    MimosFrontendAnalytics.errorMessage e = MimosAnalytics.errorMessage e /\
    MimosFrontendAnalytics.stackTrace e = MimosAnalytics.stackTrace e /\
    (forall code, override = Some code -> nonempty code = true ->
       MimosAnalytics.errorCode e override = code
       /\ MimosFrontendAnalytics.errorCode e override = code) /\
    (override = None \/ override = Some "" ->
       (instanceof_Error e = None ->
        MimosAnalytics.errorCode e override = "Error"
        /\ MimosFrontendAnalytics.errorCode e override = "Error") /\
       (forall err, e = JsErrorObject err ->
          MimosAnalytics.errorCode e override = Error.constructor_name err
          /\ MimosFrontendAnalytics.errorCode e override = Error.name err)) /\
    ((forall err, e = JsErrorObject err -> Error.name err = Error.constructor_name err) ->
     MimosFrontendAnalytics.errorCode e override = MimosAnalytics.errorCode e override).
Proof.
  intros e override. split; [reflexivity|]. split; [reflexivity|].
  split; [|split].
  - intros code -> Hn. unfold MimosAnalytics.errorCode,
      MimosFrontendAnalytics.errorCode, or_else. now rewrite Hn.
  - intros [-> | ->];
      (split;
       [ intros Hi;
         unfold MimosAnalytics.errorCode, MimosFrontendAnalytics.errorCode;
         rewrite Hi; split; reflexivity
       | intros err ->; split; reflexivity ]).
  - intros Hname. unfold MimosAnalytics.errorCode, MimosFrontendAnalytics.errorCode.
    destruct e; try reflexivity. simpl. now rewrite (Hname e eq_refl).
Qed.

(** An [Error] built with the [Error] constructor has the name [Error]:
    both clients report the same code. *)
Lemma error_extraction_compared_witness :
  MimosFrontendAnalytics.errorCode (new_Error "boom") None
  = MimosAnalytics.errorCode (new_Error "boom") None.
Proof.
  apply (proj2 (proj2 (proj2 (proj2
           (error_extraction_compared (new_Error "boom") None))))).
  intros err H. injection H as <-. reflexivity.
Defined.

(* ================================================================== *)
(** * The parameters of a tracked call *)

(** X1. Parameters that JavaScript reads as false ([undefined], [null], [false],
    [0], the empty string) are not serialised: the reports of [track] carry
    no parameters. *)
Theorem track_falsy_parameters :
  forall this toolName fn callId parameters errorType h w,
    truthy parameters = false ->
    let options :=
      Some (ToolCallTracker.TrackOptions.mk callId parameters errorType) in
    let w0 := after_id callId w in
    let startTime := clock h (clock_reads w0) in
    (forall result w2,
       fn h (tick w0) = (Normal result, w2) ->
       ToolCallTracker.track this toolName fn options h w
       = (Normal result,
          snd (success_report this toolName (resolved_id callId h w) None
                 startTime result h w2))) /\
    (forall e w2,
       fn h (tick w0) = (Throw e, w2) ->
       ToolCallTracker.track this toolName fn options h w
       = (Throw e,
          snd (error_report this toolName (resolved_id callId h w) None
                 (ToolCallTracker.errorTypeOf options e) e h w2))).
Proof.
  intros this toolName fn callId parameters errorType h w Hf options w0 startTime.
  split; intros x w2 Hfn; unfold options; rewrite track_run; cbv zeta;
    unfold parametersStr_value; cbn [ToolCallTracker.TrackOptions.parameters];
    rewrite Hf; cbn [option_bind ToolCallTracker.TrackOptions.callId];
    fold w0; rewrite Hfn; reflexivity.
Qed.

Lemma track_falsy_parameters_witness :
  ToolCallTracker.track demoTracker "count" (ret JsNull)
    (Some (ToolCallTracker.TrackOptions.mk (Some "call-1") (JsNumber 0) None))
    demoHost emptyWorld
  = (Normal JsNull,
     snd (success_report demoTracker "count" "call-1" None (clock demoHost 0)
            JsNull demoHost (tick emptyWorld))).
Proof.
  apply (proj1 (track_falsy_parameters demoTracker "count" (ret JsNull)
                  (Some "call-1") (JsNumber 0) None demoHost emptyWorld eq_refl)
           JsNull (tick emptyWorld) eq_refl).
Defined.

(** X2. Parameters that [JSON.stringify] rejects make [track] throw what
    [JSON.stringify] threw, before the operation is invoked: the outcome does
    not depend on the operation, and nothing is reported. *)
Theorem track_unserialisable_parameters :
  forall this toolName fn callId parameters errorType h w e,
    truthy parameters = true ->
    JSON_stringify parameters = Throw e ->
    ToolCallTracker.track this toolName fn
      (Some (ToolCallTracker.TrackOptions.mk callId parameters errorType)) h w
    = (Throw e, after_id callId w).
Proof.
  intros this toolName fn callId parameters errorType h w e Ht Hs.
  rewrite track_run. cbv zeta. unfold parametersStr_value.
  cbn [ToolCallTracker.TrackOptions.parameters]. now rewrite Ht, Hs.
Qed.

Lemma track_unserialisable_parameters_witness :
  ToolCallTracker.track demoTracker "count" (ret JsNull)
    (Some (ToolCallTracker.TrackOptions.mk (Some "call-1") (JsBigInt 7) None))
    demoHost emptyWorld
  = (Throw TypeError_BigInt, emptyWorld).
Proof.
  apply (track_unserialisable_parameters demoTracker "count" (ret JsNull)
           (Some "call-1") (JsBigInt 7) None demoHost emptyWorld TypeError_BigInt
           eq_refl eq_refl).
Defined.

(* ================================================================== *)
(** * Payloads that [JSON.stringify] accepts *)

Lemma serialisable_JsString s : serialisable (JsString s).
Proof. eexists. reflexivity. Qed.

Lemma serialisable_JsNumber n : serialisable (JsNumber n).
Proof. eexists. reflexivity. Qed.

Lemma serialisable_JsBoolean b : serialisable (JsBoolean b).
Proof. eexists. reflexivity. Qed.

Lemma serialisable_opt_string o : serialisable (opt_string o).
Proof. destruct o; eexists; reflexivity. Qed.

Lemma serialisable_opt_number o : serialisable (opt_number o).
Proof. destruct o; eexists; reflexivity. Qed.

Lemma serialisable_opt_boolean o : serialisable (opt_boolean o).
Proof. destruct o; eexists; reflexivity. Qed.

Lemma serialisable_errorMessage_Error err :
  serialisable (MimosAnalytics.errorMessage (JsErrorObject err)).
Proof. eexists. reflexivity. Qed.

Create HintDb serialisable.

#[local] Hint Resolve serialisable_JsString serialisable_JsNumber
  serialisable_JsBoolean serialisable_opt_string serialisable_opt_number
  serialisable_opt_boolean : serialisable.

(** An object whose property values are all accepted has a JSON text. *)
Lemma JSON_stringify_object_total props :
  Forall (fun kv : string * JsValue => serialisable (snd kv)) props ->
  exists s, JSON_stringify (JsObject props) = Normal (Some s).
Proof.
  induction props as [|[k x] l IH]; intros H.
  - eexists. reflexivity.
  - inversion H as [|? ? [o Ho] Hl]; subst. destruct (IH Hl) as [s Hs].
    simpl in Ho. simpl in Hs. simpl. rewrite Ho.
    match type of Hs with
    | match ?m with _ => _ end = _ => destruct m as [parts|e]
    end; [|discriminate].
    destruct o; eexists; reflexivity.
Qed.

(** An object with a property value that is rejected is rejected. *)
Lemma JSON_stringify_object_throws before k v after e :
  Forall (fun kv : string * JsValue => serialisable (snd kv)) before ->
  JSON_stringify v = Throw e ->
  JSON_stringify (JsObject (before ++ (k, v) :: after)) = Throw e.
Proof.
  intros Hb Hv. induction before as [|[k' x] l IH].
  - simpl. simpl in Hv. now rewrite Hv.
  - inversion Hb as [|? ? [o Ho] Hl]; subst. specialize (IH Hl).
    simpl in Ho. simpl in IH. simpl. rewrite Ho.
    match type of IH with
    | match ?m with _ => _ end = _ => destruct m as [parts|e']
    end; [discriminate | congruence].
Qed.

(* ================================================================== *)
(** * The outcome of a delivery *)

Lemma frontend_sendMetric_delivered this eventType payload metric_value body h w :
  MimosFrontendAnalytics.disabled (MimosFrontendAnalytics.config this) = false ->
  JSON_stringify payload = Normal (Some metric_value) ->
  JSON_stringify (envelope (FrontendEventType_string eventType) (Some metric_value))
  = Normal (Some body) ->
  MimosFrontendAnalytics.sendMetric this eventType payload h w
  = (Normal tt,
     delivered "[MimosFrontendAnalytics]" (frontend_request this body) h w).
Proof.
  intros Hd Hp Hb. unfold MimosFrontendAnalytics.sendMetric. rewrite Hd.
  unfold try_catch, bind, lift. rewrite Hp, Hb.
  unfold fetch, delivered, delivery_log, failure_log. fold (frontend_request this body).
  destruct (network_outcome h _ _) as [response|reason]; simpl.
  - destruct (Response.ok response); simpl; [now rewrite app_nil_r|].
    destruct (Response.text response) as [errorBody|e]; simpl; [reflexivity|].
    destruct (is_AbortError e); reflexivity.
  - destruct (is_AbortError reason); reflexivity.
Qed.

Lemma frontend_sendMetric_rejected_payload this eventType payload e h w :
  MimosFrontendAnalytics.disabled (MimosFrontendAnalytics.config this) = false ->
  JSON_stringify payload = Throw e ->
  MimosFrontendAnalytics.sendMetric this eventType payload h w
  = (Normal tt, undelivered "[MimosFrontendAnalytics]" e w).
Proof.
  intros Hd Hp. unfold MimosFrontendAnalytics.sendMetric. rewrite Hd.
  unfold try_catch, bind, lift. rewrite Hp. unfold undelivered, failure_log.
  destruct (is_AbortError e); reflexivity.
Qed.

Lemma backend_sendMetric_delivered this event_type metric_value body h w :
  JSON_stringify (envelope (BackendEventType_string event_type) (Some metric_value))
  = Normal (Some body) ->
  MimosAnalytics.sendMetric this (MetricsRequest.mk event_type (Some metric_value)) h w
  = (Normal tt, delivered "[MimosAnalytics]" (backend_request this body) h w).
Proof.
  intros Hb. unfold MimosAnalytics.sendMetric.
  unfold try_catch, bind, lift.
  change (MetricsRequest.to_js (MetricsRequest.mk event_type (Some metric_value)))
    with (envelope (BackendEventType_string event_type) (Some metric_value)).
  rewrite Hb.
  unfold fetch, delivered, delivery_log, failure_log. fold (backend_request this body).
  destruct (network_outcome h _ _) as [response|reason]; simpl.
  - destruct (Response.ok response); simpl; [now rewrite app_nil_r|].
    destruct (Response.text response) as [errorBody|e]; simpl; [reflexivity|].
    destruct (is_AbortError e); reflexivity.
  - destruct (is_AbortError reason); reflexivity.
Qed.

(** A payload object whose values are accepted is delivered. *)
Lemma frontend_send_object this eventType props h w :
  MimosFrontendAnalytics.disabled (MimosFrontendAnalytics.config this) = false ->
  Forall (fun kv : string * JsValue => serialisable (snd kv)) props ->
  exists metric_value body,
    JSON_stringify (JsObject props) = Normal (Some metric_value)
    /\ JSON_stringify (envelope (FrontendEventType_string eventType) (Some metric_value))
       = Normal (Some body)
    /\ MimosFrontendAnalytics.sendMetric this eventType (JsObject props) h w
       = (Normal tt,
          delivered "[MimosFrontendAnalytics]" (frontend_request this body) h w).
Proof.
  intros Hd Hp.
  destruct (JSON_stringify_object_total props Hp) as [metric_value Hmv].
  destruct (JSON_stringify_envelope (FrontendEventType_string eventType) metric_value)
    as [body Hbody].
  exists metric_value, body. split; [exact Hmv|]. split; [exact Hbody|].
  now apply frontend_sendMetric_delivered with (metric_value := metric_value).
Qed.

Lemma backend_send_object this event_type props h w :
  MimosAnalytics.disabled (MimosAnalytics.config this) = false ->
  Forall (fun kv : string * JsValue => serialisable (snd kv)) props ->
  exists metric_value body,
    JSON_stringify (JsObject props) = Normal (Some metric_value)
    /\ JSON_stringify (envelope (BackendEventType_string event_type) (Some metric_value))
       = Normal (Some body)
    /\ (metric_value <- lift (JSON_stringify (JsObject props)) ;;
        MimosAnalytics.sendMetric this (MetricsRequest.mk event_type metric_value)) h w
       = (Normal tt, delivered "[MimosAnalytics]" (backend_request this body) h w).
Proof.
  intros Hd Hp.
  destruct (JSON_stringify_object_total props Hp) as [metric_value Hmv].
  destruct (JSON_stringify_envelope (BackendEventType_string event_type) metric_value)
    as [body Hbody].
  exists metric_value, body. split; [exact Hmv|]. split; [exact Hbody|].
  unfold bind, lift. rewrite Hmv. now apply backend_sendMetric_delivered.
Qed.

(** Every property value of a payload is accepted, one property after the
    other. *)
Ltac accept_props :=
  repeat first
    [ apply Forall_nil
    | apply Forall_cons;
      [ simpl; first [ assumption | auto with serialisable ] | ] ].

Lemma trackToolCall_delivered this p h w :
  MimosAnalytics.disabled (MimosAnalytics.config this) = false ->
  exists metric_value body,
    JSON_stringify (ToolCallPayload.to_js p) = Normal (Some metric_value)
    /\ JSON_stringify (envelope "tool_call" (Some metric_value)) = Normal (Some body)
    /\ MimosAnalytics.trackToolCall this p h w
       = (Normal tt, delivered "[MimosAnalytics]" (backend_request this body) h w).
Proof.
  intros Hd. unfold MimosAnalytics.trackToolCall. rewrite Hd.
  apply (backend_send_object this tool_call _ h w Hd).
  accept_props.
Qed.

Lemma trackToolError_delivered this p h w :
  MimosAnalytics.disabled (MimosAnalytics.config this) = false ->
  serialisable (ToolErrorPayload.error_message p) ->
  exists metric_value body,
    JSON_stringify (ToolErrorPayload.to_js p) = Normal (Some metric_value)
    /\ JSON_stringify (envelope "tool_error" (Some metric_value)) = Normal (Some body)
    /\ MimosAnalytics.trackToolError this p h w
       = (Normal tt, delivered "[MimosAnalytics]" (backend_request this body) h w).
Proof.
  intros Hd Hs. unfold MimosAnalytics.trackToolError. rewrite Hd.
  apply (backend_send_object this tool_error _ h w Hd).
  accept_props.
Qed.

Lemma trackToolError_rejected this p e h w :
  MimosAnalytics.disabled (MimosAnalytics.config this) = false ->
  JSON_stringify (ToolErrorPayload.error_message p) = Throw e ->
  MimosAnalytics.trackToolError this p h w = (Throw e, w).
Proof.
  intros Hd Hs. unfold MimosAnalytics.trackToolError. rewrite Hd.
  assert (Hp : JSON_stringify (ToolErrorPayload.to_js p) = Throw e).
  { apply (JSON_stringify_object_throws
             [ ("tool_name", JsString (ToolErrorPayload.tool_name p));
               ("error_code", JsString (ToolErrorPayload.error_code p)) ]
             "error_message" (ToolErrorPayload.error_message p) _ e);
      [accept_props | exact Hs]. }
  unfold bind, lift. now rewrite Hp.
Qed.

(** X3. Delivery by the backend client.  On an enabled client, a tracking call
    whose failure value (if it carries one) is accepted by [JSON.stringify]
    completes normally whatever the network does; it issues exactly one
    request, a POST to the endpoint with the project and the API key in the
    headers and a body that is the envelope of the event type of the method
    ([tool_call] for [trackToolCall] and [trackSuccess], [tool_error] for
    [trackToolError] and [trackError]); and it writes nothing on the console
    when the response is ok, and one error line otherwise.  A failure value
    that [JSON.stringify] rejects makes the call throw what [JSON.stringify]
    threw, with no request and no console line. *)
Theorem backend_call_delivery :
  forall this c h w,
    MimosAnalytics.disabled (MimosAnalytics.config this) = false ->
    (serialisable_failure (backend_failure_of c) ->
     exists payload metric_value body,
       JSON_stringify (JsObject payload) = Normal (Some metric_value)
       /\ JSON_stringify
            (envelope (BackendEventType_string (backend_event_of c))
               (Some metric_value))
          = Normal (Some body)
       /\ MimosAnalytics.call this c h w
          = (Normal tt,
             delivered "[MimosAnalytics]" (backend_request this body) h
               (backend_before_send c w))) /\
    (forall v e,
       backend_failure_of c = Some v -> JSON_stringify v = Throw e ->
       MimosAnalytics.call this c h w = (Throw e, backend_before_send c w)).
Proof.
  intros this c h w Hd. split.
  - intros Hs. destruct c; simpl in Hs; simpl MimosAnalytics.call;
      simpl backend_before_send; simpl backend_event_of.
    + destruct (trackToolCall_delivered this payload h w Hd)
        as (mv & body & Hmv & Hbody & Hrun).
      eexists _, mv, body. split; [exact Hmv|]. split; [exact Hbody | exact Hrun].
    + destruct (trackToolError_delivered this payload h w Hd Hs)
        as (mv & body & Hmv & Hbody & Hrun).
      eexists _, mv, body. split; [exact Hmv|]. split; [exact Hbody | exact Hrun].
    + unfold MimosAnalytics.trackSuccess. rewrite bind_Date_now.
      match goal with
      | |- context [MimosAnalytics.trackToolCall this ?p h (tick w)] =>
          destruct (trackToolCall_delivered this p h (tick w) Hd)
            as (mv & body & Hmv & Hbody & Hrun)
      end.
      eexists _, mv, body. split; [exact Hmv|]. split; [exact Hbody | exact Hrun].
    + unfold MimosAnalytics.trackError. rewrite bind_Date_now.
      match goal with
      | |- context [MimosAnalytics.trackToolError this ?p h (tick w)] =>
          destruct (trackToolError_delivered this p h (tick w) Hd Hs)
            as (mv & body & Hmv & Hbody & Hrun)
      end.
      eexists _, mv, body. split; [exact Hmv|]. split; [exact Hbody | exact Hrun].
  - intros v e Hv He. destruct c; simpl in Hv; try discriminate;
      injection Hv as <-; simpl.
    + now apply trackToolError_rejected.
    + unfold MimosAnalytics.trackError. rewrite bind_Date_now.
      now apply trackToolError_rejected.
Qed.

(** An enabled client reports an [Error] while the network is down: the call
    completes, the request is on the network, and the rejection is on the
    console. *)
Lemma backend_call_delivery_witness :
  let this := ToolCallTracker.analytics demoTracker in
  let down :=
    mkHost (clock demoHost) (random36 demoHost)
      (fun _ _ => Rejected (new_Error "fetch failed")) in
  exists payload metric_value body,
    JSON_stringify (JsObject payload) = Normal (Some metric_value)
    /\ JSON_stringify (envelope "tool_error" (Some metric_value)) = Normal (Some body)
    /\ MimosAnalytics.call this
         (MimosAnalytics.TrackError "search" (new_Error "boom") None) down emptyWorld
       = (Normal tt,
          mkWorld 1 0 [backend_request this body]
            [ log_error [ JsString "[MimosAnalytics] Failed to send metric:";
                          new_Error "fetch failed" ] ]).
Proof.
  intros this down.
  apply (proj1 (backend_call_delivery this
                  (MimosAnalytics.TrackError "search" (new_Error "boom") None)
                  down emptyWorld eq_refl)).
  apply serialisable_errorMessage_Error.
Defined.

Lemma frontend_request_counted this s body :
  frontend_request (counted this s) body = frontend_request this body.
Proof.
  unfold frontend_request.
  destruct (session_counted this s) as (Hc & Hu & _). now rewrite Hc, Hu.
Qed.

Lemma enabled_counted this s :
  MimosFrontendAnalytics.disabled (MimosFrontendAnalytics.config this) = false ->
  MimosFrontendAnalytics.disabled (MimosFrontendAnalytics.config (counted this s))
  = false.
Proof. destruct (session_counted this s) as (Hc & _). now rewrite Hc. Qed.

(** A counted call: the instance is updated, then the payload is sent. *)
Lemma counted_send_delivered this s eventType props h w :
  MimosFrontendAnalytics.disabled (MimosFrontendAnalytics.config this) = false ->
  Forall (fun kv : string * JsValue => serialisable (snd kv)) props ->
  exists payload metric_value body,
    JSON_stringify (JsObject payload) = Normal (Some metric_value)
    /\ JSON_stringify (envelope (FrontendEventType_string eventType) (Some metric_value))
       = Normal (Some body)
    /\ (MimosFrontendAnalytics.sendMetric (counted this s) eventType (JsObject props) ;;
        ret (counted this s)) h w
       = (Normal (counted this s),
          delivered "[MimosFrontendAnalytics]" (frontend_request this body) h w).
Proof.
  intros Hd Hp.
  destruct (frontend_send_object (counted this s) eventType props h w
              (enabled_counted this s Hd) Hp) as (mv & body & Hmv & Hbody & Hrun).
  exists props, mv, body. split; [exact Hmv|]. split; [exact Hbody|].
  unfold bind. rewrite Hrun. now rewrite frontend_request_counted.
Qed.

Lemma uncounted_send_delivered this eventType props h w :
  MimosFrontendAnalytics.disabled (MimosFrontendAnalytics.config this) = false ->
  Forall (fun kv : string * JsValue => serialisable (snd kv)) props ->
  exists payload metric_value body,
    JSON_stringify (JsObject payload) = Normal (Some metric_value)
    /\ JSON_stringify (envelope (FrontendEventType_string eventType) (Some metric_value))
       = Normal (Some body)
    /\ (MimosFrontendAnalytics.sendMetric this eventType (JsObject props) ;;
        ret this) h w
       = (Normal this,
          delivered "[MimosFrontendAnalytics]" (frontend_request this body) h w).
Proof.
  intros Hd Hp.
  destruct (frontend_send_object this eventType props h w Hd Hp)
    as (mv & body & Hmv & Hbody & Hrun).
  exists props, mv, body. split; [exact Hmv|]. split; [exact Hbody|].
  unfold bind. now rewrite Hrun.
Qed.

Lemma counted_send_rejected this s eventType before v after e h w :
  MimosFrontendAnalytics.disabled (MimosFrontendAnalytics.config this) = false ->
  Forall (fun kv : string * JsValue => serialisable (snd kv)) before ->
  JSON_stringify v = Throw e ->
  (MimosFrontendAnalytics.sendMetric (counted this s) eventType
     (JsObject (before ++ ("error_message", v) :: after)) ;;
   ret (counted this s)) h w
  = (Normal (counted this s), undelivered "[MimosFrontendAnalytics]" e w).
Proof.
  intros Hd Hb Hv. unfold bind.
  rewrite (frontend_sendMetric_rejected_payload (counted this s) eventType _ e h w
             (enabled_counted this s Hd)
             (JSON_stringify_object_throws before "error_message" v after e Hb Hv)).
  reflexivity.
Qed.

Lemma SessionStartPayload_accepted p :
  exists props,
    SessionStartPayload.to_js p = JsObject props
    /\ Forall (fun kv : string * JsValue => serialisable (snd kv)) props.
Proof.
  unfold SessionStartPayload.to_js, SessionStartPayload.other_props.
  destruct (SessionStartPayload.session_id p); eexists; (split; [reflexivity|]);
    simpl; accept_props.
Qed.

Lemma with_session_id_accepted payload id :
  exists props,
    SessionStartPayload.with_session_id payload id = JsObject props
    /\ Forall (fun kv : string * JsValue => serialisable (snd kv)) props.
Proof.
  unfold SessionStartPayload.with_session_id, SessionStartPayload.other_props.
  destruct (SessionStartPayload.session_id payload); eexists;
    (split; [reflexivity|]); simpl; accept_props.
Qed.

(** X4. Delivery by the frontend client.  On an enabled client every tracking
    and raw sending call returns normally with the instance that the call
    leaves, whatever the network does.  When the failure value of the call
    (if it carries one) is accepted by [JSON.stringify], exactly one request
    is issued: a POST to the endpoint with the project in the headers, no API
    key, and a body that is the envelope of the event type of the method; the
    console gets nothing when the response is ok and one error line
    otherwise.  When [JSON.stringify] rejects the failure value, no request
    is issued, the event is counted all the same, and what was thrown is
    logged, not raised. *)
Theorem frontend_call_delivery :
  forall this c h w,
    MimosFrontendAnalytics.disabled (MimosFrontendAnalytics.config this) = false ->
    (serialisable_failure (failure_of c) ->
     exists payload metric_value body,
       JSON_stringify (JsObject payload) = Normal (Some metric_value)
       /\ JSON_stringify
            (envelope (FrontendEventType_string (event_of c)) (Some metric_value))
          = Normal (Some body)
       /\ MimosFrontendAnalytics.call this c h w
          = (Normal (after_call this c),
             delivered "[MimosFrontendAnalytics]" (frontend_request this body) h
               (before_send c w))) /\
    (forall v e,
       failure_of c = Some v -> JSON_stringify v = Throw e ->
       MimosFrontendAnalytics.call this c h w
       = (Normal (after_call this c),
          undelivered "[MimosFrontendAnalytics]" e (before_send c w))).
Proof.
  intros this c h w Hd. split.
  - intros Hs.
    destruct c; simpl in Hs; simpl MimosFrontendAnalytics.call;
      simpl before_send; simpl event_of;
      unfold after_call; simpl screen_of;
      unfold MimosFrontendAnalytics.trackButtonClick, MimosFrontendAnalytics.trackSwipe,
        MimosFrontendAnalytics.trackScroll, MimosFrontendAnalytics.trackElementFocus,
        MimosFrontendAnalytics.trackLoadSuccess, MimosFrontendAnalytics.trackLoadError,
        MimosFrontendAnalytics.sendButtonClick, MimosFrontendAnalytics.sendSessionStart,
        MimosFrontendAnalytics.sendSessionEnd, MimosFrontendAnalytics.sendAppLoadSuccess,
        MimosFrontendAnalytics.sendAppLoadError;
      rewrite ?bind_Date_now;
      try (apply (counted_send_delivered this _ _ _ h _ Hd); accept_props).
    + destruct (SessionStartPayload_accepted payload) as (props & -> & Hp).
      now apply uncounted_send_delivered.
    + apply (uncounted_send_delivered this _ _ h w Hd). accept_props.
  - intros v e Hv He.
    destruct c; simpl in Hv; try discriminate; injection Hv as <-;
      simpl MimosFrontendAnalytics.call; simpl before_send;
      unfold after_call; simpl screen_of;
      unfold MimosFrontendAnalytics.trackLoadError,
        MimosFrontendAnalytics.sendAppLoadError.
    + apply (counted_send_rejected this screenName app_load_error
               [ ("screen_name", _); ("error_code", _) ] _ _ e h w Hd);
        [accept_props | exact He].
    + apply (counted_send_rejected this _ app_load_error
               [ ("screen_name", _); ("error_code", _) ] _ _ e h w Hd);
        [accept_props | exact He].
Qed.

(** An enabled client tracks a swipe while the server answers 500: the call
    returns, the swipe is counted, one request is on the network and the
    status is on the console. *)
Lemma frontend_call_delivery_witness :
  let swipe :=
    MimosFrontendAnalytics.TrackSwipe
      (MotionSwipePayload.mk MotionSwipePayload.left 10 20 300 20 None 180 "feed") in
  let failing :=
    mkHost (clock demoHost) (random36 demoHost)
      (fun _ _ => Fulfilled (Response.mk false 500 (Normal "busy"))) in
  exists payload metric_value body,
    JSON_stringify (JsObject payload) = Normal (Some metric_value)
    /\ JSON_stringify (envelope "motion_swipe" (Some metric_value)) = Normal (Some body)
    /\ MimosFrontendAnalytics.call demoFrontend swipe failing emptyWorld
       = (Normal
            (MimosFrontendAnalytics.mk (MimosFrontendAnalytics.config demoFrontend)
               (MimosFrontendAnalytics.frontendMetricsUrl demoFrontend)
               None None ["feed"] 1),
          mkWorld 0 0 [frontend_request demoFrontend body]
            [ log_error
                [ JsString "[MimosFrontendAnalytics] Failed to send metric: 500 busy" ] ]).
Proof.
  intros swipe failing.
  apply (proj1 (frontend_call_delivery demoFrontend swipe failing emptyWorld eq_refl)).
  exact I.
Defined.

(* ================================================================== *)
(** * The payload on the wire *)

Lemma issued_nil {A} (m : M A) h w :
  network (snd (m h w)) = network w -> issued m h w [].
Proof. intros E. unfold issued. now rewrite app_nil_r. Qed.

(** [sendMetric] of the frontend client sends the payload it was given, or
    nothing. *)
Lemma frontend_sendMetric_carries this eventType props h w :
  exists new,
    issued (MimosFrontendAnalytics.sendMetric this eventType (JsObject props)) h w new
    /\ Forall (carries (FrontendEventType_string eventType) (JsObject props)) new
    /\ (MimosFrontendAnalytics.disabled (MimosFrontendAnalytics.config this) = false ->
        serialisable (JsObject props) -> exists request, new = [request]).
Proof.
  destruct (MimosFrontendAnalytics.disabled (MimosFrontendAnalytics.config this))
    eqn:Hd.
  - exists []. split; [|split; [constructor | discriminate]].
    apply issued_nil. now rewrite frontend_sendMetric_disabled.
  - destruct (JSON_stringify (JsObject props)) as [o|e] eqn:Hp.
    + destruct (JSON_stringify_object _ _ Hp) as [metric_value ->].
      destruct (JSON_stringify_envelope (FrontendEventType_string eventType)
                  metric_value) as [body Hbody].
      exists [frontend_request this body]. split; [|split].
      * unfold issued.
        now rewrite (frontend_sendMetric_delivered this eventType _ metric_value
                       body h w Hd Hp Hbody).
      * constructor; [|constructor]. exists metric_value. now split.
      * intros _ _. now eexists.
    + exists []. split; [|split; [constructor|]].
      * apply issued_nil.
        now rewrite (frontend_sendMetric_rejected_payload this eventType _ e h w Hd Hp).
      * intros _ [o Ho]. congruence.
Qed.

(** The two raw methods of the backend client serialise the payload they
    were given and hand the text to [sendMetric]. *)
Lemma backend_send_carries this event_type props h w :
  exists new,
    issued
      (if MimosAnalytics.disabled (MimosAnalytics.config this) then ret tt
       else
         metric_value <- lift (JSON_stringify (JsObject props)) ;;
         MimosAnalytics.sendMetric this (MetricsRequest.mk event_type metric_value))
      h w new
    /\ Forall (carries (BackendEventType_string event_type) (JsObject props)) new
    /\ (MimosAnalytics.disabled (MimosAnalytics.config this) = false ->
        serialisable (JsObject props) -> exists request, new = [request]).
Proof.
  destruct (MimosAnalytics.disabled (MimosAnalytics.config this)) eqn:Hd.
  - exists []. split; [|split; [constructor | discriminate]].
    now apply issued_nil.
  - destruct (JSON_stringify (JsObject props)) as [o|e] eqn:Hp.
    + destruct (JSON_stringify_object _ _ Hp) as [metric_value ->].
      destruct (JSON_stringify_envelope (BackendEventType_string event_type)
                  metric_value) as [body Hbody].
      exists [backend_request this body]. split; [|split].
      * unfold issued, bind, lift.
        now rewrite (backend_sendMetric_delivered this event_type metric_value
                       body h w Hbody).
      * constructor; [|constructor]. exists metric_value. now split.
      * intros _ _. now eexists.
    + exists []. split; [|split; [constructor|]].
      * now apply issued_nil.
      * intros _ [o Ho]. congruence.
Qed.

(** Each call of the backend client is a raw send of its payload, after the
    clock was read where the method stamps the payload. *)
Lemma backend_call_run this c h w :
  MimosAnalytics.call this c h w
  = (if MimosAnalytics.disabled (MimosAnalytics.config this) then ret tt
     else
       metric_value <-
         lift (JSON_stringify (backend_payload_of c (clock h (clock_reads w)))) ;;
       MimosAnalytics.sendMetric this
         (MetricsRequest.mk (backend_event_of c) metric_value))
      h (backend_before_send c w).
Proof. destruct c; reflexivity. Qed.

Lemma backend_payload_of_object c now :
  exists props, backend_payload_of c now = JsObject props.
Proof. destruct c; eexists; reflexivity. Qed.

Lemma payload_of_object c now : exists props, payload_of c now = JsObject props.
Proof. destruct c; eexists; reflexivity. Qed.

Lemma network_backend_before_send c w :
  network (backend_before_send c w) = network w.
Proof. destruct c; reflexivity. Qed.

Lemma network_before_send c w : network (before_send c w) = network w.
Proof. destruct c; reflexivity. Qed.

(** Each call of the frontend client leaves the world that [sendMetric]
    leaves when it is given the payload of the call. *)
Lemma frontend_call_world this c h w :
  snd (MimosFrontendAnalytics.call this c h w)
  = snd (MimosFrontendAnalytics.sendMetric (after_call this c) (event_of c)
           (payload_of c (clock h (clock_reads w))) h (before_send c w)).
Proof.
  destruct c; simpl MimosFrontendAnalytics.call;
    unfold MimosFrontendAnalytics.trackButtonClick, MimosFrontendAnalytics.trackSwipe,
      MimosFrontendAnalytics.trackScroll, MimosFrontendAnalytics.trackElementFocus,
      MimosFrontendAnalytics.trackLoadSuccess, MimosFrontendAnalytics.trackLoadError,
      MimosFrontendAnalytics.sendButtonClick, MimosFrontendAnalytics.sendSessionStart,
      MimosFrontendAnalytics.sendSessionEnd, MimosFrontendAnalytics.sendAppLoadSuccess,
      MimosFrontendAnalytics.sendAppLoadError;
    rewrite ?bind_Date_now;
    rewrite then_ret by apply frontend_sendMetric_completes; reflexivity.
Qed.

Lemma disabled_after_call this c :
  MimosFrontendAnalytics.disabled (MimosFrontendAnalytics.config (after_call this c))
  = MimosFrontendAnalytics.disabled (MimosFrontendAnalytics.config this).
Proof.
  unfold after_call. destruct (screen_of c) as [s|]; [|reflexivity].
  destruct (session_counted this s) as (Hc & _). now rewrite Hc.
Qed.

Lemma with_session_id_serialisable payload id :
  serialisable (SessionStartPayload.with_session_id payload id).
Proof.
  destruct (with_session_id_accepted payload id) as (props & -> & Hp).
  destruct (JSON_stringify_object_total props Hp) as [s Hs]. now exists (Some s).
Qed.

Lemma session_end_payload_of_object this id start exitReason now :
  exists props, session_end_payload_of this id start exitReason now = JsObject props.
Proof. eexists. reflexivity. Qed.

Lemma session_end_payload_of_serialisable this id start exitReason now :
  serialisable (session_end_payload_of this id start exitReason now).
Proof.
  unfold session_end_payload_of.
  match goal with
  | |- serialisable (SessionEndPayload.to_js ?p) =>
      destruct (SessionEndPayload_stringify p) as [s Hs]
  end.
  now exists (Some s).
Qed.

(** An enabled backend client reports a success: one request is issued, and
    its body opens with the event type and a [metric_value] that is a string,
    the quotes of the payload escaped inside it. *)
Example envelope_double_encoded_run :
  let q := dquote in
  let bodies :=
    map Request.body
      (network
         (snd (MimosAnalytics.trackSuccess (ToolCallTracker.analytics demoTracker)
                 "search" 12 None demoHost emptyWorld))) in
  match bodies with
  | [Some body] =>
      String.prefix
        ("{" ++ q ++ "event_type" ++ q ++ ":" ++ q ++ "tool_call" ++ q ++ ","
         ++ q ++ "metric_value" ++ q ++ ":" ++ q
         ++ "{\" ++ q ++ "tool_name\" ++ q ++ ":\" ++ q ++ "search\" ++ q ++ ",")
        body
  | _ => false
  end = true.
Proof. vm_compute. reflexivity. Qed.

(** C6. Every request that a tracking method of either client issues has a
    body that is the JSON text of an object with exactly the two properties
    [event_type] and [metric_value]: [event_type] is the event type of the
    method, and [metric_value] is a string, the JSON text of the payload
    object of the call (the payload the caller gave, or the one the method
    built from its arguments and the clock).  This holds on every host and in
    every world, for the four methods of the backend client, for
    [startSession] and [endSession], and for the eleven other methods of the
    frontend client.  A call issues no other request: on an enabled client it
    issues exactly one when the payload has a JSON text, and [endSession]
    issues none when there is no session to end. *)
Theorem envelope_double_encoded :
  (forall this c h w,
     let payload := backend_payload_of c (clock h (clock_reads w)) in
     exists new,
       issued (MimosAnalytics.call this c) h w new
       /\ Forall (carries (BackendEventType_string (backend_event_of c)) payload) new
       /\ (MimosAnalytics.disabled (MimosAnalytics.config this) = false ->
           serialisable payload -> exists request, new = [request])) /\
  (forall this payload h w,
     let id := resolved_id (SessionStartPayload.session_id payload) h w in
     exists new,
       issued (MimosFrontendAnalytics.startSession this payload) h w new
       /\ Forall (carries "session_start"
                    (SessionStartPayload.with_session_id payload id)) new
       /\ (MimosFrontendAnalytics.disabled (MimosFrontendAnalytics.config this)
           = false -> exists request, new = [request])) /\
  (forall this exitReason h w,
     exists new,
       issued (MimosFrontendAnalytics.endSession this exitReason) h w new
       /\ match MimosFrontendAnalytics.activeSession this with
          | Some (id, start) =>
              Forall (carries "session_end"
                        (session_end_payload_of this id start exitReason
                           (clock h (clock_reads w)))) new
              /\ (MimosFrontendAnalytics.disabled (MimosFrontendAnalytics.config this)
                  = false -> exists request, new = [request])
          | None => new = []
          end) /\
  (forall this c h w,
     let payload := payload_of c (clock h (clock_reads w)) in
     exists new,
       issued (MimosFrontendAnalytics.call this c) h w new
       /\ Forall (carries (FrontendEventType_string (event_of c)) payload) new
       /\ (MimosFrontendAnalytics.disabled (MimosFrontendAnalytics.config this)
           = false ->
           serialisable payload -> exists request, new = [request])).
Proof.
  split; [|split; [|split]].
  - intros this c h w payload. subst payload.
    destruct (backend_payload_of_object c (clock h (clock_reads w))) as [props Hp].
    destruct (backend_send_carries this (backend_event_of c) props h
                (backend_before_send c w)) as (new & Hi & Hc & H1).
    exists new. rewrite Hp. split; [|split; assumption].
    unfold issued in *. rewrite backend_call_run, Hp, Hi.
    now rewrite network_backend_before_send.
  - intros this payload h w id.
    pose proof (startSession_run this payload h w) as Hrun. cbv zeta in Hrun.
    fold id in Hrun.
    destruct (with_session_id_accepted payload id) as (props & Hprops & Hacc).
    match type of Hrun with
    | _ = (_, snd (MimosFrontendAnalytics.sendMetric ?this1 _ _ _ ?w1)) =>
        destruct (frontend_sendMetric_carries this1 session_start props h w1)
          as (new & Hi & Hc & H1)
    end.
    exists new. rewrite Hprops. split; [|split].
    + unfold issued in *. rewrite Hrun. cbn [snd]. rewrite Hprops, Hi.
      cbn [tick network]. now rewrite network_after_id.
    + exact Hc.
    + intros Hd. apply H1; [exact Hd|].
      rewrite <- Hprops. apply with_session_id_serialisable.
  - intros this exitReason h w.
    destruct (MimosFrontendAnalytics.activeSession this) as [[id start]|] eqn:Hs.
    + pose proof (endSession_active this exitReason h w id start Hs) as Hrun.
      cbv zeta in Hrun.
      fold (session_end_payload_of this id start exitReason (clock h (clock_reads w)))
        in Hrun.
      pose proof (session_end_payload_of_serialisable this id start exitReason
                    (clock h (clock_reads w))) as Hser.
      destruct (session_end_payload_of_object this id start exitReason
                  (clock h (clock_reads w))) as [props Hp].
      rewrite Hp in *.
      destruct (frontend_sendMetric_carries this session_end props h (tick w))
        as (new & Hi & Hc & H1).
      exists new. split; [|split].
      * unfold issued in *. rewrite Hrun. cbn [snd]. exact Hi.
      * exact Hc.
      * intros Hd. now apply H1.
    + exists []. split; [|reflexivity].
      apply issued_nil. now rewrite (endSession_inactive this exitReason h w Hs).
  - intros this c h w payload. subst payload.
    destruct (payload_of_object c (clock h (clock_reads w))) as [props Hp].
    destruct (frontend_sendMetric_carries (after_call this c) (event_of c) props h
                (before_send c w)) as (new & Hi & Hc & H1).
    exists new. rewrite Hp. split; [|split].
    + unfold issued in *. rewrite frontend_call_world, Hp, Hi.
      now rewrite network_before_send.
    + exact Hc.
    + intros Hd. apply H1. now rewrite disabled_after_call.
Qed.

(* ================================================================== *)
(** * The reports of the wrapper on the wire *)

Lemma success_report_wire this toolName callId parametersStr startTime result h w2 :
  MimosAnalytics.disabled (MimosAnalytics.config (ToolCallTracker.analytics this))
  = false ->
  exists metric_value body,
    JSON_stringify
      (ToolCallPayload.to_js
         {| ToolCallPayload.tool_name := toolName;
            ToolCallPayload.duration_ms := (clock h (clock_reads w2) - startTime)%Z;
            ToolCallPayload.status := success;
            ToolCallPayload.timestamp_ms := clock h (S (clock_reads w2));
            ToolCallPayload.call_id := Some callId;
            ToolCallPayload.parameters := parametersStr;
            ToolCallPayload.response_size_bytes := response_size result |})
    = Normal (Some metric_value)
    /\ JSON_stringify (envelope "tool_call" (Some metric_value)) = Normal (Some body)
    /\ success_report this toolName callId parametersStr startTime result h w2
       = (Normal tt,
          delivered "[MimosAnalytics]"
            (backend_request (ToolCallTracker.analytics this) body) h
            (tick (tick w2))).
Proof.
  intros Hd. unfold success_report. rewrite bind_Date_now.
  unfold MimosAnalytics.trackSuccess. rewrite bind_Date_now.
  apply (trackToolCall_delivered (ToolCallTracker.analytics this) _ h (tick (tick w2)) Hd).
Qed.

Lemma error_report_wire this toolName callId parametersStr errorType e h w2 :
  MimosAnalytics.disabled (MimosAnalytics.config (ToolCallTracker.analytics this))
  = false ->
  serialisable (MimosAnalytics.errorMessage e) ->
  exists metric_value body,
    JSON_stringify
      (ToolErrorPayload.to_js
         {| ToolErrorPayload.tool_name := toolName;
            ToolErrorPayload.error_code := MimosAnalytics.errorCode e None;
            ToolErrorPayload.error_message := MimosAnalytics.errorMessage e;
            ToolErrorPayload.error_type := errorType;
            ToolErrorPayload.timestamp_ms := clock h (S (clock_reads w2));
            ToolErrorPayload.call_id := Some callId;
            ToolErrorPayload.parameters := parametersStr;
            ToolErrorPayload.stack_trace := MimosAnalytics.stackTrace e |})
    = Normal (Some metric_value)
    /\ JSON_stringify (envelope "tool_error" (Some metric_value)) = Normal (Some body)
    /\ error_report this toolName callId parametersStr errorType e h w2
       = (Normal tt,
          delivered "[MimosAnalytics]"
            (backend_request (ToolCallTracker.analytics this) body) h
            (tick (tick w2))).
Proof.
  intros Hd Hs. unfold error_report. rewrite bind_Date_now.
  unfold MimosAnalytics.trackError. rewrite bind_Date_now.
  eapply trackToolError_delivered; [exact Hd | exact Hs].
Qed.

Lemma response_size_cases result :
  (forall s, JSON_stringify result = Normal (Some s) ->
     response_size result = Some (Z.of_nat (String.length s)))
  /\ (JSON_stringify result = Normal None -> response_size result = None)
  /\ (forall e, JSON_stringify result = Throw e -> response_size result = None).
Proof.
  unfold response_size. repeat split; intros; now rewrite H.
Qed.

(** X5. [track] is [trackWithMetadata] without the metadata: on every host and
    in every world both leave the same world behind, both throw the same
    value when they throw, and the value that [track] returns is the [result]
    of what [trackWithMetadata] returns. *)
Theorem track_is_trackWithMetadata :
  forall this toolName fn options h w,
    snd (ToolCallTracker.track this toolName fn options h w)
    = snd (ToolCallTracker.trackWithMetadata this toolName fn options h w)
    /\ fst (ToolCallTracker.track this toolName fn options h w)
       = match fst (ToolCallTracker.trackWithMetadata this toolName fn options h w) with
         | Normal r => Normal (TrackedCallResult.result r)
         | Throw e => Throw e
         end.
Proof.
  intros. rewrite track_run, trackWithMetadata_run. cbv zeta.
  destruct (parametersStr_value options); [|split; reflexivity].
  destruct (fn h _) as [[result|e] w2]; split; reflexivity.
Qed.

(** X6. The metadata of [trackWithMetadata] and the report agree.  On an enabled
    client, when the operation returns, the value returned to the caller
    holds the result, the duration between the two clock readings around the
    operation, and the call identifier; exactly one request follows the
    operation, a [tool_call] event whose payload carries that same duration
    as [duration_ms] and that same identifier as [call_id].  A non-empty
    identifier given by the caller is the one returned. *)
Theorem trackWithMetadata_report :
  forall this toolName fn options h w parametersStr result w2,
    MimosAnalytics.disabled (MimosAnalytics.config (ToolCallTracker.analytics this))
    = false ->
    parametersStr_value options = Normal parametersStr ->
    let supplied := option_bind options ToolCallTracker.TrackOptions.callId in
    let w0 := after_id supplied w in
    fn h (tick w0) = (Normal result, w2) ->
    exists r metric_value body,
      ToolCallTracker.trackWithMetadata this toolName fn options h w
      = (Normal r,
         delivered "[MimosAnalytics]"
           (backend_request (ToolCallTracker.analytics this) body) h (tick (tick w2)))
      /\ TrackedCallResult.result r = result
      /\ TrackedCallResult.durationMs r
         = (clock h (clock_reads w2) - clock h (clock_reads w0))%Z
      /\ (forall s, supplied = Some s -> nonempty s = true ->
            TrackedCallResult.callId r = s)
      /\ JSON_stringify
           (ToolCallPayload.to_js
              {| ToolCallPayload.tool_name := toolName;
                 ToolCallPayload.duration_ms := TrackedCallResult.durationMs r;
                 ToolCallPayload.status := success;
                 ToolCallPayload.timestamp_ms := clock h (S (clock_reads w2));
                 ToolCallPayload.call_id := Some (TrackedCallResult.callId r);
                 ToolCallPayload.parameters := parametersStr;
                 ToolCallPayload.response_size_bytes := response_size result |})
         = Normal (Some metric_value)
      /\ JSON_stringify (envelope "tool_call" (Some metric_value)) = Normal (Some body).
Proof.
  intros this toolName fn options h w parametersStr result w2 Hd Hp supplied w0 Hfn.
  rewrite trackWithMetadata_run. cbv zeta. rewrite Hp. fold supplied w0. rewrite Hfn.
  destruct (success_report_wire this toolName (resolved_id supplied h w) parametersStr
              (clock h (clock_reads w0)) result h w2 Hd)
    as (mv & body & Hmv & Hbody & Hrun).
  eexists _, mv, body. rewrite Hrun. split; [reflexivity|].
  split; [reflexivity|]. split; [reflexivity|]. split; [|split; [exact Hmv | exact Hbody]].
  intros s Hs Hn. simpl. unfold resolved_id. now rewrite Hs, Hn.
Qed.

Lemma trackWithMetadata_report_witness :
  exists r metric_value body,
    ToolCallTracker.trackWithMetadata demoTracker "search" (ret (JsString "found"))
      (Some (ToolCallTracker.TrackOptions.mk (Some "call-7") JsUndefined None))
      demoHost emptyWorld
    = (Normal r,
       delivered "[MimosAnalytics]"
         (backend_request (ToolCallTracker.analytics demoTracker) body) demoHost
         (tick (tick (tick emptyWorld))))
    /\ TrackedCallResult.result r = JsString "found"
    /\ TrackedCallResult.durationMs r = 1%Z
    /\ (forall s, Some "call-7" = Some s -> nonempty s = true ->
          TrackedCallResult.callId r = s)
    /\ JSON_stringify
         (ToolCallPayload.to_js
            {| ToolCallPayload.tool_name := "search";
               ToolCallPayload.duration_ms := TrackedCallResult.durationMs r;
               ToolCallPayload.status := success;
               ToolCallPayload.timestamp_ms := 1700000000002;
               ToolCallPayload.call_id := Some (TrackedCallResult.callId r);
               ToolCallPayload.parameters := None;
               ToolCallPayload.response_size_bytes := Some 7%Z |})
       = Normal (Some metric_value)
    /\ JSON_stringify (envelope "tool_call" (Some metric_value)) = Normal (Some body).
Proof.
  apply (trackWithMetadata_report demoTracker "search" (ret (JsString "found"))
           (Some (ToolCallTracker.TrackOptions.mk (Some "call-7") JsUndefined None))
           demoHost emptyWorld None (JsString "found") (tick emptyWorld)
           eq_refl eq_refl eq_refl).
Defined.

(** X7. The size in the success report.  On an enabled client, when the
    operation returns [result], [track] returns [result] and one [tool_call]
    request follows the operation.  Its [response_size_bytes] is the number
    of characters of the JSON text of [result]; when [result] is [undefined],
    or when [JSON.stringify] rejects it, the property is left out and the
    result is returned all the same. *)
Theorem track_response_size :
  forall this toolName fn options h w parametersStr result w2,
    MimosAnalytics.disabled (MimosAnalytics.config (ToolCallTracker.analytics this))
    = false ->
    parametersStr_value options = Normal parametersStr ->
    let supplied := option_bind options ToolCallTracker.TrackOptions.callId in
    let w0 := after_id supplied w in
    fn h (tick w0) = (Normal result, w2) ->
    exists size metric_value body,
      ToolCallTracker.track this toolName fn options h w
      = (Normal result,
         delivered "[MimosAnalytics]"
           (backend_request (ToolCallTracker.analytics this) body) h (tick (tick w2)))
      /\ JSON_stringify
           (ToolCallPayload.to_js
              {| ToolCallPayload.tool_name := toolName;
                 ToolCallPayload.duration_ms :=
                   (clock h (clock_reads w2) - clock h (clock_reads w0))%Z;
                 ToolCallPayload.status := success;
                 ToolCallPayload.timestamp_ms := clock h (S (clock_reads w2));
                 ToolCallPayload.call_id := Some (resolved_id supplied h w);
                 ToolCallPayload.parameters := parametersStr;
                 ToolCallPayload.response_size_bytes := size |})
         = Normal (Some metric_value)
      /\ JSON_stringify (envelope "tool_call" (Some metric_value)) = Normal (Some body)
      /\ (forall s, JSON_stringify result = Normal (Some s) ->
            size = Some (Z.of_nat (String.length s)))
      /\ (JSON_stringify result = Normal None -> size = None)
      /\ (forall e, JSON_stringify result = Throw e -> size = None).
Proof.
  intros this toolName fn options h w parametersStr result w2 Hd Hp supplied w0 Hfn.
  rewrite track_run. cbv zeta. rewrite Hp. fold supplied w0. rewrite Hfn.
  destruct (success_report_wire this toolName (resolved_id supplied h w) parametersStr
              (clock h (clock_reads w0)) result h w2 Hd)
    as (mv & body & Hmv & Hbody & Hrun).
  exists (response_size result), mv, body. rewrite Hrun.
  split; [reflexivity|]. split; [exact Hmv|]. split; [exact Hbody|].
  apply response_size_cases.
Qed.

(** An operation that returns a [BigInt]: the caller gets it, and the report
    has no size. *)
Lemma track_response_size_witness :
  exists size metric_value body,
    ToolCallTracker.track demoTracker "count" (ret (JsBigInt 7)) None
      demoHost emptyWorld
    = (Normal (JsBigInt 7),
       delivered "[MimosAnalytics]"
         (backend_request (ToolCallTracker.analytics demoTracker) body) demoHost
         (tick (tick (tick (draw (tick emptyWorld))))))
    /\ JSON_stringify
         (ToolCallPayload.to_js
            {| ToolCallPayload.tool_name := "count";
               ToolCallPayload.duration_ms := 1;
               ToolCallPayload.status := success;
               ToolCallPayload.timestamp_ms := 1700000000003;
               ToolCallPayload.call_id := Some "1700000000000-4fzyo82mv";
               ToolCallPayload.parameters := None;
               ToolCallPayload.response_size_bytes := size |})
       = Normal (Some metric_value)
    /\ JSON_stringify (envelope "tool_call" (Some metric_value)) = Normal (Some body)
    /\ (forall s, JSON_stringify (JsBigInt 7) = Normal (Some s) ->
          size = Some (Z.of_nat (String.length s)))
    /\ (JSON_stringify (JsBigInt 7) = Normal None -> size = None)
    /\ (forall e, JSON_stringify (JsBigInt 7) = Throw e -> size = None).
Proof.
  apply (track_response_size demoTracker "count" (ret (JsBigInt 7)) None
           demoHost emptyWorld None (JsBigInt 7) (tick (draw (tick emptyWorld)))
           eq_refl eq_refl eq_refl).
Defined.

(** X8. The error report.  On an enabled client, when the operation throws [e]
    and the message of [e] (or [e] itself when it is not an [Error]) is
    accepted by [JSON.stringify], [track] throws [e] and one [tool_error]
    request follows the operation.  Its [error_type] is the type given in the
    options when there is one, whatever the error looks like, and the inferred
    type otherwise; its [error_code] is the name of the constructor of an
    [Error] and [Error] for any other value, since the wrapper passes no code;
    its [error_message] is the message of an [Error] and the thrown value
    itself otherwise. *)
Theorem track_error_report :
  forall this toolName fn options h w parametersStr e w2,
    MimosAnalytics.disabled (MimosAnalytics.config (ToolCallTracker.analytics this))
    = false ->
    parametersStr_value options = Normal parametersStr ->
    serialisable (MimosAnalytics.errorMessage e) ->
    let supplied := option_bind options ToolCallTracker.TrackOptions.callId in
    let w0 := after_id supplied w in
    fn h (tick w0) = (Throw e, w2) ->
    exists metric_value body,
      ToolCallTracker.track this toolName fn options h w
      = (Throw e,
         delivered "[MimosAnalytics]"
           (backend_request (ToolCallTracker.analytics this) body) h (tick (tick w2)))
      /\ JSON_stringify
           (ToolErrorPayload.to_js
              {| ToolErrorPayload.tool_name := toolName;
                 ToolErrorPayload.error_code :=
                   match e with
                   | JsErrorObject err => Error.constructor_name err
                   | _ => "Error"
                   end;
                 ToolErrorPayload.error_message :=
                   match e with
                   | JsErrorObject err => JsString (Error.message err)
                   | _ => e
                   end;
                 ToolErrorPayload.error_type :=
                   match option_bind options ToolCallTracker.TrackOptions.errorType with
                   | Some t => t
                   | None => ToolCallTracker.inferErrorType e
                   end;
                 ToolErrorPayload.timestamp_ms := clock h (S (clock_reads w2));
                 ToolErrorPayload.call_id := Some (resolved_id supplied h w);
                 ToolErrorPayload.parameters := parametersStr;
                 ToolErrorPayload.stack_trace :=
                   match e with
                   | JsErrorObject err => Error.stack err
                   | _ => None
                   end |})
         = Normal (Some metric_value)
      /\ JSON_stringify (envelope "tool_error" (Some metric_value)) = Normal (Some body).
Proof.
  intros this toolName fn options h w parametersStr e w2 Hd Hp Hs supplied w0 Hfn.
  rewrite track_run. cbv zeta. rewrite Hp. fold supplied w0. rewrite Hfn.
  destruct (error_report_wire this toolName (resolved_id supplied h w) parametersStr
              (ToolCallTracker.errorTypeOf options e) e h w2 Hd Hs)
    as (mv & body & Hmv & Hbody & Hrun).
  exists mv, body. rewrite Hrun. split; [reflexivity|]. split; [|exact Hbody].
  rewrite <- Hmv. destruct e; reflexivity.
Qed.

(** An operation that throws the number [42], tracked with the error type
    [validation]: the report says [validation], code [Error], message [42]. *)
Lemma track_error_report_witness :
  exists metric_value body,
    ToolCallTracker.track demoTracker "parse" (throw (JsNumber 42))
      (Some (ToolCallTracker.TrackOptions.mk (Some "call-9") JsUndefined
               (Some validation)))
      demoHost emptyWorld
    = (Throw (JsNumber 42),
       delivered "[MimosAnalytics]"
         (backend_request (ToolCallTracker.analytics demoTracker) body) demoHost
         (tick (tick (tick emptyWorld))))
    /\ JSON_stringify
         (ToolErrorPayload.to_js
            {| ToolErrorPayload.tool_name := "parse";
               ToolErrorPayload.error_code := "Error";
               ToolErrorPayload.error_message := JsNumber 42;
               ToolErrorPayload.error_type := validation;
               ToolErrorPayload.timestamp_ms := 1700000000002;
               ToolErrorPayload.call_id := Some "call-9";
               ToolErrorPayload.parameters := None;
               ToolErrorPayload.stack_trace := None |})
       = Normal (Some metric_value)
    /\ JSON_stringify (envelope "tool_error" (Some metric_value)) = Normal (Some body).
Proof.
  apply (track_error_report demoTracker "parse" (throw (JsNumber 42))
           (Some (ToolCallTracker.TrackOptions.mk (Some "call-9") JsUndefined
                    (Some validation)))
           demoHost emptyWorld None (JsNumber 42) (tick emptyWorld)
           eq_refl eq_refl (serialisable_JsNumber 42) eq_refl).
Defined.

(* ================================================================== *)
(** * Sessions, from start to end *)

(** X9. Tracking never fails and never touches the session.  Any sequence of
    tracking and raw sending calls, with any arguments, on an enabled or a
    disabled client, returns normally on every host; the instance it leaves
    is the same on every host and in every world; its configuration,
    endpoint, session identifier and start time are those it had, and its
    event count has grown by the number of calls that carry a screen name. *)
Theorem tracking_calls_never_fail :
  forall this cs h w,
    exists this',
      fst (MimosFrontendAnalytics.calls this cs h w) = Normal this'
      /\ (forall h' w', fst (MimosFrontendAnalytics.calls this cs h' w') = Normal this')
      /\ MimosFrontendAnalytics.config this' = MimosFrontendAnalytics.config this
      /\ MimosFrontendAnalytics.frontendMetricsUrl this'
         = MimosFrontendAnalytics.frontendMetricsUrl this
      /\ MimosFrontendAnalytics.getSessionId this'
         = MimosFrontendAnalytics.getSessionId this
      /\ MimosFrontendAnalytics.sessionStartTime this'
         = MimosFrontendAnalytics.sessionStartTime this
      /\ MimosFrontendAnalytics.eventCount this'
         = (MimosFrontendAnalytics.eventCount this
            + Z.of_nat (List.length (screens cs)))%Z.
Proof.
  intros this cs h w. exists (fold_left after_call cs this).
  destruct (after_calls cs this) as (Hc & Hu & Hi & Ht & He & _).
  split; [now rewrite calls_run|]. split; [intros; now rewrite calls_run|].
  repeat split; assumption.
Qed.

(** X10. [startSession] begins afresh.  On an enabled client, whatever session
    and counters the instance had: the call returns the identifier it
    resolved, which is the caller's when that is not empty; the instance then
    holds that identifier, the clock reading as start time, an empty history
    and a count of zero; exactly one request is issued, a [session_start]
    event whose payload is the caller's with the identifier put in, and no
    [session_end] for a session that was open.  [getSessionId] gives the
    returned identifier after any sequence of tracking calls. *)
Theorem startSession_begins :
  forall this payload h w,
    MimosFrontendAnalytics.disabled (MimosFrontendAnalytics.config this) = false ->
    let supplied := SessionStartPayload.session_id payload in
    let id := resolved_id supplied h w in
    let w0 := after_id supplied w in
    let this1 :=
      MimosFrontendAnalytics.mk (MimosFrontendAnalytics.config this)
        (MimosFrontendAnalytics.frontendMetricsUrl this)
        (Some id) (Some (clock h (clock_reads w0))) [] 0%Z in
    exists metric_value body,
      MimosFrontendAnalytics.startSession this payload h w
      = (Normal (id, this1),
         delivered "[MimosFrontendAnalytics]" (frontend_request this body) h (tick w0))
      /\ JSON_stringify (SessionStartPayload.with_session_id payload id)
         = Normal (Some metric_value)
      /\ JSON_stringify (envelope "session_start" (Some metric_value))
         = Normal (Some body)
      /\ (forall s, supplied = Some s -> nonempty s = true -> id = s /\ w0 = w)
      /\ (forall cs h' w',
            exists this2,
              fst (MimosFrontendAnalytics.calls this1 cs h' w') = Normal this2
              /\ MimosFrontendAnalytics.getSessionId this2 = Some id).
Proof.
  intros this payload h w Hd supplied id w0 this1.
  rewrite startSession_run. cbv zeta. fold supplied id w0 this1.
  destruct (with_session_id_accepted payload id) as (props & Hprops & Hp).
  rewrite Hprops.
  destruct (frontend_send_object this1 session_start props h (tick w0) Hd Hp)
    as (mv & body & Hmv & Hbody & Hrun).
  exists mv, body. rewrite Hrun. split; [reflexivity|].
  split; [exact Hmv|]. split; [exact Hbody|]. split.
  - intros s Hs Hn. unfold id, w0, resolved_id, after_id. now rewrite Hs, Hn.
  - intros cs h' w'. exists (fold_left after_call cs this1). split.
    + now rewrite calls_run.
    + destruct (after_calls cs this1) as (_ & _ & Hi & _). exact Hi.
Qed.

(** A session started on top of another, with the caller's identifier. *)
Lemma startSession_begins_witness :
  let busy :=
    MimosFrontendAnalytics.mk (MimosFrontendAnalytics.config demoFrontend)
      (MimosFrontendAnalytics.frontendMetricsUrl demoFrontend)
      (Some "old") (Some 1600000000000%Z) ["home"; "cart"] 5 in
  let payload :=
    SessionStartPayload.mk (Some "s-1") SessionStartPayload.desktop
      SessionStartPayload.web "126" "2.0.0" None None None None None in
  exists metric_value body,
    MimosFrontendAnalytics.startSession busy payload demoHost emptyWorld
    = (Normal ("s-1",
               MimosFrontendAnalytics.mk (MimosFrontendAnalytics.config demoFrontend)
                 (MimosFrontendAnalytics.frontendMetricsUrl demoFrontend)
                 (Some "s-1") (Some 1700000000000%Z) [] 0),
       delivered "[MimosFrontendAnalytics]" (frontend_request busy body) demoHost
         (tick emptyWorld))
    /\ JSON_stringify (SessionStartPayload.with_session_id payload "s-1")
       = Normal (Some metric_value)
    /\ JSON_stringify (envelope "session_start" (Some metric_value))
       = Normal (Some body)
    /\ (forall s, Some "s-1" = Some s -> nonempty s = true ->
          "s-1" = s /\ emptyWorld = emptyWorld)
    /\ (forall cs h' w',
          exists this2,
            fst (MimosFrontendAnalytics.calls
                   (MimosFrontendAnalytics.mk
                      (MimosFrontendAnalytics.config demoFrontend)
                      (MimosFrontendAnalytics.frontendMetricsUrl demoFrontend)
                      (Some "s-1") (Some 1700000000000%Z) [] 0) cs h' w')
            = Normal this2
            /\ MimosFrontendAnalytics.getSessionId this2 = Some "s-1").
Proof.
  intros busy payload.
  apply (startSession_begins busy payload demoHost emptyWorld eq_refl).
Defined.

(** X11. A session that begins when the clock reads zero cannot be ended.
    [endSession] takes the start time [0] for no start time: after any
    sequence of tracking calls it warns, issues no request and leaves the
    instance as it is, session identifier included. *)
Theorem session_start_time_zero :
  forall this payload cs exitReason h w,
    clock h (clock_reads (after_id (SessionStartPayload.session_id payload) w)) = 0%Z ->
    exists id this1 w1 this2 w2,
      MimosFrontendAnalytics.startSession this payload h w = (Normal (id, this1), w1)
      /\ MimosFrontendAnalytics.calls this1 cs h w1 = (Normal this2, w2)
      /\ MimosFrontendAnalytics.endSession this2 exitReason h w2
         = (Normal this2, logged no_active_session w2)
      /\ MimosFrontendAnalytics.getSessionId this2 = Some id.
Proof.
  intros this payload cs exitReason h w Hz.
  pose proof (startSession_run this payload h w) as Hstart. cbv zeta in Hstart.
  rewrite Hz in Hstart.
  eexists _, _, _, _, _. split; [exact Hstart|]. split; [apply calls_run|].
  match goal with
  | |- context [fold_left after_call cs ?t] =>
      destruct (after_calls cs t) as (_ & _ & Hi & Ht & _)
  end.
  simpl in Hi, Ht. split; [|exact Hi].
  apply endSession_inactive. unfold MimosFrontendAnalytics.activeSession.
  rewrite Hi, Ht. simpl. now rewrite andb_false_r.
Qed.

Lemma session_start_time_zero_witness :
  exists id this1 w1 this2 w2,
    MimosFrontendAnalytics.startSession demoFrontend demoStart
      (mkHost (fun _ => 0%Z) (random36 demoHost) (network_outcome demoHost))
      emptyWorld
    = (Normal (id, this1), w1)
    /\ MimosFrontendAnalytics.calls this1 demoCalls
         (mkHost (fun _ => 0%Z) (random36 demoHost) (network_outcome demoHost)) w1
       = (Normal this2, w2)
    /\ MimosFrontendAnalytics.endSession this2 ExitReason.logout
         (mkHost (fun _ => 0%Z) (random36 demoHost) (network_outcome demoHost)) w2
       = (Normal this2, logged no_active_session w2)
    /\ MimosFrontendAnalytics.getSessionId this2 = Some id.
Proof.
  apply (session_start_time_zero demoFrontend demoStart demoCalls ExitReason.logout
           (mkHost (fun _ => 0%Z) (random36 demoHost) (network_outcome demoHost))
           emptyWorld eq_refl).
Defined.

(* ================================================================== *)
(** * The clock only goes forward *)

Lemma clock_advances_ret {A} (a : A) : clock_advances (ret a).
Proof. intros h w. simpl. lia. Qed.

Lemma clock_advances_lift {A} (c : Completion A) : clock_advances (lift c).
Proof. intros h w. simpl. lia. Qed.

Lemma clock_advances_Date_now : clock_advances Date_now.
Proof. intros h w. simpl. lia. Qed.

Lemma clock_advances_console_error args : clock_advances (console_error args).
Proof. intros h w. simpl. lia. Qed.

Lemma clock_advances_fetch request : clock_advances (fetch request).
Proof.
  intros h w. unfold fetch. destruct (network_outcome h _ request); simpl; lia.
Qed.

Lemma clock_advances_bind {A B} (m : M A) (k : A -> M B) :
  clock_advances m -> (forall a, clock_advances (k a)) -> clock_advances (bind m k).
Proof.
  intros Hm Hk h w. specialize (Hm h w). unfold bind.
  destruct (m h w) as [[a|e] w1]; simpl in *; [|exact Hm].
  specialize (Hk a h w1). lia.
Qed.

Lemma clock_advances_try_catch {A} (body : M A) (handler : JsValue -> M A) :
  clock_advances body -> (forall e, clock_advances (handler e)) ->
  clock_advances (try_catch body handler).
Proof.
  intros Hb Hh h w. specialize (Hb h w). unfold try_catch.
  destruct (body h w) as [[a|e] w1]; simpl in *; [exact Hb|].
  specialize (Hh e h w1). lia.
Qed.

Create HintDb clock.

#[local] Hint Resolve clock_advances_ret clock_advances_lift clock_advances_Date_now
  clock_advances_console_error clock_advances_fetch clock_advances_bind
  clock_advances_try_catch : clock.

Lemma clock_advances_sendMetric this eventType payload :
  clock_advances (MimosFrontendAnalytics.sendMetric this eventType payload).
Proof.
  unfold MimosFrontendAnalytics.sendMetric.
  destruct (MimosFrontendAnalytics.disabled _); [auto with clock|].
  apply clock_advances_try_catch.
  - repeat (apply clock_advances_bind; [auto with clock | intros]).
    destruct (negb _); auto with clock.
  - intros e. destruct (is_AbortError e); auto with clock.
Qed.

Lemma clock_advances_call this c : clock_advances (MimosFrontendAnalytics.call this c).
Proof.
  destruct c; simpl;
    unfold MimosFrontendAnalytics.trackButtonClick, MimosFrontendAnalytics.trackSwipe,
      MimosFrontendAnalytics.trackScroll, MimosFrontendAnalytics.trackElementFocus,
      MimosFrontendAnalytics.trackLoadSuccess, MimosFrontendAnalytics.trackLoadError,
      MimosFrontendAnalytics.sendButtonClick, MimosFrontendAnalytics.sendSessionStart,
      MimosFrontendAnalytics.sendSessionEnd, MimosFrontendAnalytics.sendAppLoadSuccess,
      MimosFrontendAnalytics.sendAppLoadError;
    auto using clock_advances_sendMetric with clock.
Qed.

Lemma clock_advances_calls cs : forall this,
  clock_advances (MimosFrontendAnalytics.calls this cs).
Proof.
  induction cs as [|c cs IH]; intros this; simpl.
  - apply clock_advances_ret.
  - apply clock_advances_bind; [apply clock_advances_call | intros; apply IH].
Qed.

(** X12. The duration of a session is not negative.  On a host whose clock never
    goes back and never reads zero, after [startSession] and any sequence of
    tracking calls, [endSession] sends a [session_end] payload whose
    [session_duration_ms] is the last clock reading minus the start time, and
    that is zero or more. *)
Theorem session_duration_nonnegative :
  forall this payload cs exitReason h w,
    (forall a b, a <= b -> (clock h a <= clock h b)%Z) ->
    (forall n, clock h n <> 0%Z) ->
    exists id this1 w1 this2 w2 duration,
      MimosFrontendAnalytics.startSession this payload h w = (Normal (id, this1), w1)
      /\ MimosFrontendAnalytics.calls this1 cs h w1 = (Normal this2, w2)
      /\ MimosFrontendAnalytics.endSession this2 exitReason h w2
         = (Normal
              (MimosFrontendAnalytics.mk (MimosFrontendAnalytics.config this2)
                 (MimosFrontendAnalytics.frontendMetricsUrl this2) None None
                 (MimosFrontendAnalytics.screenHistory this2)
                 (MimosFrontendAnalytics.eventCount this2)),
            snd (MimosFrontendAnalytics.sendMetric this2 session_end
                   (SessionEndPayload.to_js
                      {| SessionEndPayload.session_id := id;
                         SessionEndPayload.session_duration_ms := duration;
                         SessionEndPayload.exit_reason := exitReason;
                         SessionEndPayload.screens_visited :=
                           Z.of_nat
                             (List.length (MimosFrontendAnalytics.screenHistory this2));
                         SessionEndPayload.total_events :=
                           Some (MimosFrontendAnalytics.eventCount this2);
                         SessionEndPayload.last_screen :=
                           last_entry (MimosFrontendAnalytics.screenHistory this2) |})
                   h (tick w2)))
      /\ (0 <= duration)%Z.
Proof.
  intros this payload cs exitReason h w Hmono Hclock.
  pose proof (startSession_run this payload h w) as Hstart. cbv zeta in Hstart.
  set (id := resolved_id (SessionStartPayload.session_id payload) h w) in *.
  set (wi := after_id (SessionStartPayload.session_id payload) w) in *.
  set (started := clock h (clock_reads wi)) in *.
  set (this1 := MimosFrontendAnalytics.mk _ _ (Some id) (Some started) [] 0%Z) in *.
  set (w1 := snd (MimosFrontendAnalytics.sendMetric this1 session_start _ h (tick wi)))
    in *.
  pose proof (calls_run cs this1 h w1) as Hcalls.
  set (this2 := fold_left after_call cs this1) in *.
  set (w2 := snd (MimosFrontendAnalytics.calls this1 cs h w1)) in *.
  destruct (after_calls cs this1) as (_ & _ & Hi & Ht & _).
  fold this2 in Hi, Ht. simpl in Hi, Ht.
  assert (Hactive : MimosFrontendAnalytics.activeSession this2 = Some (id, started)).
  { unfold MimosFrontendAnalytics.activeSession. rewrite Hi, Ht. simpl.
    unfold id. rewrite resolved_id_nonempty.
    destruct (Z.eqb_spec started 0) as [E|_]; [|reflexivity].
    exfalso. exact (Hclock _ E). }
  exists id, this1, w1, this2, w2, (clock h (clock_reads w2) - started)%Z.
  split; [exact Hstart|]. split; [exact Hcalls|].
  split; [exact (endSession_active this2 exitReason h w2 id started Hactive)|].
  assert (Hreads : clock_reads wi <= clock_reads w2).
  { pose proof (clock_advances_sendMetric this1 session_start
                  (SessionStartPayload.with_session_id payload id) h (tick wi)) as H1.
    pose proof (clock_advances_calls cs this1 h w1) as H2.
    fold w1 in H1. fold w2 in H2. simpl in H1. lia. }
  specialize (Hmono _ _ Hreads). fold started in Hmono. lia.
Qed.

Lemma session_duration_nonnegative_witness :
  exists id this1 w1 this2 w2 duration,
    MimosFrontendAnalytics.startSession demoFrontend demoStart demoHost emptyWorld
    = (Normal (id, this1), w1)
    /\ MimosFrontendAnalytics.calls this1 demoCalls demoHost w1 = (Normal this2, w2)
    /\ MimosFrontendAnalytics.endSession this2 ExitReason.background demoHost w2
       = (Normal
            (MimosFrontendAnalytics.mk (MimosFrontendAnalytics.config this2)
               (MimosFrontendAnalytics.frontendMetricsUrl this2) None None
               (MimosFrontendAnalytics.screenHistory this2)
               (MimosFrontendAnalytics.eventCount this2)),
          snd (MimosFrontendAnalytics.sendMetric this2 session_end
                 (SessionEndPayload.to_js
                    {| SessionEndPayload.session_id := id;
                       SessionEndPayload.session_duration_ms := duration;
                       SessionEndPayload.exit_reason := ExitReason.background;
                       SessionEndPayload.screens_visited :=
                         Z.of_nat
                           (List.length (MimosFrontendAnalytics.screenHistory this2));
                       SessionEndPayload.total_events :=
                         Some (MimosFrontendAnalytics.eventCount this2);
                       SessionEndPayload.last_screen :=
                         last_entry (MimosFrontendAnalytics.screenHistory this2) |})
                 demoHost (tick w2)))
    /\ (0 <= duration)%Z.
Proof.
  apply (session_duration_nonnegative demoFrontend demoStart demoCalls
           ExitReason.background demoHost emptyWorld).
  - intros a b Hab. change (1700000000000 + Z.of_nat a <= 1700000000000 + Z.of_nat b)%Z.
    lia.
  - intros n. change (1700000000000 + Z.of_nat n <> 0)%Z. lia.
Defined.

(* ================================================================== *)
(** * The screen history *)

Lemma last_entry_cons a b rest :
  last_entry (a :: b :: rest) = last_entry (b :: rest).
Proof. unfold last_entry. simpl. now rewrite Nat.sub_0_r. Qed.

Lemma no_adjacent_repeats_app history s :
  no_adjacent_repeats history -> last_entry history <> Some s ->
  no_adjacent_repeats (history ++ [s]).
Proof.
  induction history as [|a rest IH]; intros Hn Hl; [simpl; auto|].
  destruct rest as [|b rest].
  - simpl. repeat split; auto. intros ->. now apply Hl.
  - destruct Hn as [Hab Hn]. rewrite last_entry_cons in Hl.
    change (a <> b /\ no_adjacent_repeats ((b :: rest) ++ [s])).
    split; [exact Hab | now apply IH].
Qed.

Lemma history_invariant_counted this s :
  history_invariant this -> history_invariant (counted this s).
Proof.
  intros [Hn Hl]. unfold history_invariant.
  rewrite eventCount_counted, screenHistory_counted.
  destruct (last_entry (MimosFrontendAnalytics.screenHistory this)) as [last|] eqn:E.
  - destruct (String.eqb_spec last s) as [->|Hne].
    + split; [exact Hn | lia].
    + split.
      * apply no_adjacent_repeats_app; [exact Hn|]. rewrite E. congruence.
      * rewrite length_app. simpl. lia.
  - split.
    + apply no_adjacent_repeats_app; [exact Hn|]. rewrite E. discriminate.
    + rewrite length_app. simpl. lia.
Qed.

(** X13. What the counters keep.  The screen history never holds the same name
    twice in a row, and it is never longer than the event count, so that no
    [session_end] reports more screens than events: this holds of a new
    instance and of the instance that [startSession] leaves, and every
    tracking call and [endSession] keep it. *)
Theorem history_invariant_kept :
  (forall c, history_invariant (MimosFrontendAnalytics.constructor c)) /\
  (forall this payload h w,
     exists id this1,
       fst (MimosFrontendAnalytics.startSession this payload h w) = Normal (id, this1)
       /\ history_invariant this1) /\
  (forall this c h w,
     history_invariant this ->
     exists this',
       fst (MimosFrontendAnalytics.call this c h w) = Normal this'
       /\ history_invariant this') /\
  (forall this exitReason h w,
     history_invariant this ->
     exists this',
       fst (MimosFrontendAnalytics.endSession this exitReason h w) = Normal this'
       /\ history_invariant this').
Proof.
  split; [|split; [|split]].
  - intros c. split; simpl; [exact I | lia].
  - intros this payload h w. rewrite startSession_run. cbv zeta.
    eexists _, _. split; [reflexivity|]. split; simpl; [exact I | lia].
  - intros this c h w Hinv. exists (after_call this c).
    rewrite frontend_call_result. split; [reflexivity|].
    unfold after_call. destruct (screen_of c); [|exact Hinv].
    now apply history_invariant_counted.
  - intros this exitReason h w Hinv.
    destruct (MimosFrontendAnalytics.activeSession this) as [[id start]|] eqn:Hs.
    + rewrite (endSession_active _ _ _ _ _ _ Hs). eexists. split; [reflexivity|].
      exact Hinv.
    + rewrite (endSession_inactive _ _ _ _ Hs). exists this. now split.
Qed.

(** The instance of the example session after the screens [A], [A], [A],
    [B]: the history is [A], [B] and the count is four. *)
Lemma history_invariant_kept_witness :
  exists this',
    fst (MimosFrontendAnalytics.call
           (MimosFrontendAnalytics.mk (MimosFrontendAnalytics.config demoFrontend)
              (MimosFrontendAnalytics.frontendMetricsUrl demoFrontend)
              (Some "s-1") (Some 1700000000000%Z) ["A"] 3)
           (MimosFrontendAnalytics.TrackButtonClick "buy" "B" None)
           demoHost emptyWorld)
    = Normal this'
    /\ history_invariant this'.
Proof.
  apply (proj1 (proj2 (proj2 history_invariant_kept))).
  split; simpl; [auto | lia].
Defined.

(* ================================================================== *)
(** * Wrapped functions *)

(** X14. A wrapped function behaves as the function it wraps, as long as its
    arguments can be recorded.  When the recorded value (the single argument,
    or the list of the arguments) is accepted by [JSON.stringify] or reads as
    false, the wrapped function returns what the function returns and throws
    what it throws.  When the recorded value is truthy and [JSON.stringify]
    rejects it (a [BigInt] argument, or a list that holds one), the wrapped
    function throws what [JSON.stringify] threw and the function is not
    invoked. *)
Theorem wrap_preserves_function :
  forall this toolName fn options args h w,
    (serialisable (captured args) \/ truthy (captured args) = false ->
     fst (ToolCallTracker.wrap this toolName fn options args h w)
     = fst (fn args h (tick (draw (tick w))))) /\
    (forall e,
       truthy (captured args) = true ->
       JSON_stringify (captured args) = Throw e ->
       ToolCallTracker.wrap this toolName fn options args h w
       = (Throw e, draw (tick w))).
Proof.
  intros this toolName fn options args h w.
  unfold ToolCallTracker.wrap. rewrite captured_rule. rewrite track_run. cbv zeta.
  unfold parametersStr_value. cbn [ToolCallTracker.TrackOptions.parameters].
  cbn [option_bind ToolCallTracker.TrackOptions.callId after_id]. split.
  - intros Hs. destruct (truthy (captured args)) eqn:Ht.
    + destruct Hs as [[o Ho] | Hf]; [|discriminate]. rewrite Ho.
      destruct (fn args h _) as [[result|e] w2]; reflexivity.
    + destruct (fn args h _) as [[result|e] w2]; reflexivity.
  - intros e Ht He. now rewrite Ht, He.
Qed.

(** A function wrapped and called with the arguments [2] and [3] returns
    what the function returns. *)
Lemma wrap_preserves_function_witness :
  fst (ToolCallTracker.wrap demoTracker "pair" (fun args => ret (JsArray args)) None
         [JsNumber 2; JsNumber 3] demoHost emptyWorld)
  = Normal (JsArray [JsNumber 2; JsNumber 3]).
Proof.
  apply (proj1 (wrap_preserves_function demoTracker "pair"
                  (fun args => ret (JsArray args)) None
                  [JsNumber 2; JsNumber 3] demoHost emptyWorld)).
  left. eexists. reflexivity.
Defined.

(** Called with a [BigInt], the wrapped function throws and the function it
    wraps does not run. *)
Example wrap_BigInt_argument :
  forall fn,
    ToolCallTracker.wrap demoTracker "pair" fn None [JsBigInt 1] demoHost emptyWorld
    = (Throw TypeError_BigInt, draw (tick emptyWorld)).
Proof.
  intros fn. reflexivity.
Qed.
